(** * Complete voice chatbot: input resolution, web augmentation, response
      composition and the session loop

    A shallow embedding of [complete_voice_chatbot.py] and of its variant
    [complete_voice_chatbot_conda.py].

    - Python [str] values are [string]s whose characters are code points
      below 256; [lower] and [strip] follow CPython on that range.
    - Methods of [CompleteVoiceChatbot] are computations in a state and
      exception monad.  The state holds the object ([self]) and the outside
      world: environment variables, the replies of the external services
      (speech capture, search API, chat model, speech synthesis, terminal),
      and the trace of what the program printed and requested.
    - Console text is kept as in the source, without the pictographs that
      decorate it (they lie outside the modelled character range).
    - The two source files differ in [listen], in [__init__] and in the
      wording of some messages; the [flavour] parameter selects the file. *)

From Stdlib Require Import Ascii NArith QArith.
From stdpp Require Import base strings gmap list pretty.

Set Warnings "-register-all".

(** ** Python strings *)

Module Py.

Local Open Scope N_scope.

Definition code (c : ascii) : N := N_of_ascii c.

(** Code points with a lower-case counterpart: A-Z, and the Latin-1 capitals
    U+00C0..U+00DE without the multiplication sign U+00D7. *)
Definition is_cased_upper (c : ascii) : bool :=
  let n := code c in
  ((65 <=? n) && (n <=? 90)) || ((192 <=? n) && (n <=? 222) && negb (n =? 215)).

Definition lower_char (c : ascii) : ascii :=
  if is_cased_upper c then ascii_of_N (code c + 32) else c.

(** [str.lower()] *)
Fixpoint lower (s : string) : string :=
  match s with
  | EmptyString => EmptyString
  | String c r => String (lower_char c) (lower r)
  end.

(** [str.isspace()] on one character: TAB..CR, FS..US, space, NEL, NBSP. *)
Definition is_space (c : ascii) : bool :=
  let n := code c in
  ((9 <=? n) && (n <=? 13)) || ((28 <=? n) && (n <=? 32)) || (n =? 133) || (n =? 160).

Fixpoint lstrip (s : string) : string :=
  match s with
  | EmptyString => EmptyString
  | String c r => if is_space c then lstrip r else s
  end.

Definition rstrip (s : string) : string := String.rev (lstrip (String.rev s)).

(** [str.strip()] *)
Definition strip (s : string) : string := rstrip (lstrip s).

(** [s.startswith(p)] *)
Fixpoint startswith (p s : string) : bool :=
  match p, s with
  | EmptyString, _ => true
  | String a p', String b s' => if decide (a = b) then startswith p' s' else false
  | String _ _, EmptyString => false
  end.

(** [needle in hay] for two strings. *)
Fixpoint contains (needle hay : string) : bool :=
  startswith needle hay ||
  match hay with
  | EmptyString => false
  | String _ r => contains needle r
  end.

(** [sep.join(parts)] for a list of strings. *)
Definition join (sep : string) (parts : list string) : string := String.concat sep parts.

(** Truth value of a string: only the empty string is false. *)
Definition truthy (s : string) : bool :=
  match s with EmptyString => false | String _ _ => true end.

(** [any(f(x) for x in xs)]: the generator is consumed up to the first
    element on which [f] holds. *)
Fixpoint any {A} (f : A -> bool) (xs : list A) : bool :=
  match xs with
  | [] => false
  | x :: r => if f x then true else any f r
  end.

(** [s[:n]] *)
Fixpoint take_chars (n : nat) (s : string) : string :=
  match n, s with
  | S k, String c r => String c (take_chars k r)
  | _, _ => EmptyString
  end.

(** [c * n] for a one-character string. *)
Fixpoint repeat_char (c : ascii) (n : nat) : string :=
  match n with
  | O => EmptyString
  | S k => String c (repeat_char c k)
  end.

End Py.

(** [m] occurs in [t] as a substring. *)
Definition occurs (m t : string) : Prop := exists pre post, t = pre +:+ m +:+ post.

(** ** Relevance classifier *)

Definition search_indicators : list string :=
  [ "latest"; "recent"; "current"; "today"; "news"; "upcoming"; "future";
    "cricket"; "match"; "schedule"; "tariff"; "search"; "when"; "dates";
    "world cup"; "asia cup"; "olympics"; "election"; "weather"; "stock" ].

(** [needs_search(self, text)] reads neither [self] nor the world. *)
Definition needs_search (text : string) : bool :=
  Py.any (fun indicator => Py.contains indicator (Py.lower text)) search_indicators.


(** ** Exceptions and results *)

(** [KeyboardInterrupt] derives from [BaseException] only; every other class
    below is a subclass of [Exception]. *)
Inductive exn :=
| KeyboardInterrupt
| WaitTimeoutError (msg : string)
| UnknownValueError (msg : string)
| EOFError (msg : string)
| ValueError (msg : string)
| TypeError (msg : string)
| KeyError (msg : string)
| AttributeError (msg : string)
| OtherException (msg : string).

(** [isinstance(e, Exception)] *)
Definition is_Exception (e : exn) : bool :=
  match e with KeyboardInterrupt => false | _ => true end.

(** [str(e)] *)
Definition str_exn (e : exn) : string :=
  match e with
  | KeyboardInterrupt => ""
  | WaitTimeoutError m | UnknownValueError m | EOFError m | ValueError m
  | TypeError m | KeyError m | AttributeError m | OtherException m => m
  end.

(** What a call does: it returns a value or raises. *)
Inductive result (A : Type) :=
| Returns (a : A)
| Raises (e : exn).
Arguments Returns {A} a.
Arguments Raises {A} e.

Definition is_interrupt {A} (r : result A) : bool :=
  match r with Raises KeyboardInterrupt => true | _ => false end.

Definition and_then {A B} (r : result A) (f : A -> result B) : result B :=
  match r with Returns a => f a | Raises e => Raises e end.

Declare Scope result_scope.
Delimit Scope result_scope with result.
Bind Scope result_scope with result.
Notation "x ← y ; z" := (and_then y (fun x => z%result))
  (at level 20, y at level 100, z at level 200, only parsing) : result_scope.
Notation "x ;; z" := (and_then x (fun _ => z%result))
  (at level 100, z at level 200, only parsing, right associativity) : result_scope.

(** ** JSON values, as [response.json()] builds them *)

Inductive json :=
| JNull
| JBool (b : bool)
| JInt (z : Z)
| JFloat (q : Q)
| JStr (s : string)
| JArr (l : list json)
| JObj (m : gmap string json).

Module Json.

Definition type_name (v : json) : string :=
  match v with
  | JNull => "NoneType" | JBool _ => "bool" | JInt _ => "int" | JFloat _ => "float"
  | JStr _ => "str" | JArr _ => "list" | JObj _ => "dict"
  end.

(** Truth value of a parsed JSON value. *)
Definition truthy (v : json) : bool :=
  match v with
  | JNull => false
  | JBool b => b
  | JInt z => negb (z =? 0)%Z
  | JFloat q => negb (Qeq_bool q 0)
  | JStr s => Py.truthy s
  | JArr l => match l with [] => false | _ => true end
  | JObj m => negb (bool_decide (m = ∅))
  end.

Definition is_str (key : string) (v : json) : bool :=
  match v with JStr s => bool_decide (s = key) | _ => false end.

(** [key in v] for a string [key]: key membership in a dict, element
    membership in a list, substring test in a string. *)
Definition contains (key : string) (v : json) : result bool :=
  match v with
  | JObj m => Returns (bool_decide (is_Some (m !! key)))
  | JArr l => Returns (existsb (is_str key) l)
  | JStr s => Returns (Py.contains key s)
  | _ => Raises (TypeError ("argument of type '" +:+ type_name v +:+ "' is not iterable"))
  end.

(** [v[key]] for a string [key]. *)
Definition subscript (v : json) (key : string) : result json :=
  match v with
  | JObj m =>
      match m !! key with
      | Some x => Returns x
      | None => Raises (KeyError ("'" +:+ key +:+ "'"))
      end
  | JArr _ => Raises (TypeError "list indices must be integers or slices, not str")
  | JStr _ => Raises (TypeError "string indices must be integers, not 'str'")
  | _ => Raises (TypeError ("'" +:+ type_name v +:+ "' object is not subscriptable"))
  end.

Fixpoint chars (s : string) : list json :=
  match s with
  | EmptyString => []
  | String c r => JStr (String c EmptyString) :: chars r
  end.

(** The elements that [for result in v[:2]] visits. *)
Definition first_two (v : json) : result (list json) :=
  match v with
  | JArr l => Returns (take 2 l)
  | JStr s => Returns (chars (Py.take_chars 2 s))
  | JObj _ => Raises (TypeError "unhashable type: 'slice'")
  | _ => Raises (TypeError ("'" +:+ type_name v +:+ "' object is not subscriptable"))
  end.

(** [v.get(key, dflt)] *)
Definition get (v : json) (key : string) (dflt : json) : result json :=
  match v with
  | JObj m => Returns (default dflt (m !! key))
  | _ => Raises (AttributeError ("'" +:+ type_name v +:+ "' object has no attribute 'get'"))
  end.

End Json.

(** ** The session object and the outside world *)

Inductive Recognizer := SrRecognizer.
Inductive Microphone := SrMicrophone (device_index : option nat).
Record Engine := { rate : Z; volume : Q }.
Record ChatModel := { model : string; temperature : Q; google_api_key : string }.

(** The attributes [__init__] assigns.  An attribute that was never assigned
    is [None]; the two flags start out false. *)
Record Bot := {
  voice_input : bool;
  recognizer : option Recognizer;
  microphone : option Microphone;
  tts : bool;
  tts_engine : option Engine;
  api_key : option string;
  chatbot : option ChatModel }.

Definition blank : Bot :=
  {| voice_input := false; recognizer := None; microphone := None;
     tts := false; tts_engine := None; api_key := None; chatbot := None |}.

(** The external calls the program makes. *)
Inductive service :=
| Stdin             (* input() *)
| NewRecognizer     (* sr.Recognizer() *)
| NewMicrophone     (* sr.Microphone(device_index=...) *)
| EnterMicrophone   (* with <microphone> as source *)
| AmbientNoise      (* recognizer.adjust_for_ambient_noise(source, duration=0.5) *)
| Recording         (* recognizer.listen(source, timeout=..., phrase_time_limit=...) *)
| Recognition       (* recognizer.recognize_google(audio) *)
| NewEngine         (* pyttsx3.init() *)
| NewChatModel      (* ChatGoogleGenerativeAI(...) *)
| SearchApi         (* requests.post(...) followed by response.json() *)
| ChatApi           (* chatbot.invoke(messages), then response.content *)
| Synthesis         (* tts_engine.say(text); tts_engine.runAndWait() *)
| Clock.            (* datetime.now().strftime('%B %d, %Y') *)

#[export] Instance service_eq_dec : EqDecision service.
Proof. solve_decision. Defined.

(** The world fixes the environment and, for every service, what its n-th
    call does. *)
Record World := {
  VOICE_INPUT_AVAILABLE : bool;
  TTS_AVAILABLE : bool;
  GOOGLE_API_KEY : option string;
  SERPER_API_KEY : option string;
  stdin : nat -> result string;
  recognizer_ctor : nat -> result unit;
  microphone_ctor : nat -> result unit;
  microphone_enter : nat -> result unit;
  ambient_noise : nat -> result unit;
  recording : nat -> result unit;
  recognition : nat -> result string;
  engine_ctor : nat -> result unit;
  chat_model_ctor : nat -> result unit;
  search_api : nat -> result json;
  chat_api : nat -> result string;
  synthesis : nat -> result unit;
  clock : nat -> string }.

Inductive message :=
| SystemMessage (content : string)
| HumanMessage (content : string).

(** What the program does to the outside, newest first in the trace. *)
Inductive event :=
| Printed (text : string)                      (* print(text) *)
| Wrote (text : string)                        (* an input prompt, or print(text, end="") *)
| Listened (timeout phrase_time_limit : Z)
| Posted (url key query : string) (num timeout : Z)
| Invoked (messages : list message)
| Said (text : string).

Record State := {
  self : Bot;
  world : World;
  calls : service -> nat;      (* how often each service was called so far *)
  trace : list event }.

(** ** Computations *)

Definition M (A : Type) : Type := State -> result A * State.

Definition ret {A} (a : A) : M A := fun st => (Returns a, st).

Definition bind {A B} (m : M A) (f : A -> M B) : M B := fun st =>
  match m st with
  | (Returns a, st') => f a st'
  | (Raises e, st') => (Raises e, st')
  end.

Declare Scope prog_scope.
Delimit Scope prog_scope with prog.
Bind Scope prog_scope with M.
Notation "x ← y ; z" := (bind y (fun x => z%prog))
  (at level 20, y at level 100, z at level 200, only parsing) : prog_scope.
Notation "x ;; z" := (bind x (fun _ => z%prog))
  (at level 100, z at level 200, only parsing, right associativity) : prog_scope.

Definition raise {A} (e : exn) : M A := fun st => (Raises e, st).

Definition lift {A} (r : result A) : M A := fun st => (r, st).

Definition gets {A} (f : State -> A) : M A := fun st => (Returns (f st), st).

Definition set_self (f : Bot -> Bot) : M unit := fun st =>
  (Returns tt, {| self := f (self st); world := world st; calls := calls st; trace := trace st |}).

(** [st] after [ev] happened. *)
Definition logged (ev : event) (st : State) : State :=
  {| self := self st; world := world st; calls := calls st; trace := ev :: trace st |}.

Definition emit (ev : event) : M unit := fun st => (Returns tt, logged ev st).

Definition bump (s : service) (c : service -> nat) : service -> nat :=
  fun s' => if decide (s' = s) then S (c s') else c s'.

(** [st] after one more call of service [s]. *)
Definition called (s : service) (st : State) : State :=
  {| self := self st; world := world st; calls := bump s (calls st); trace := trace st |}.

(** The next call of service [s], answered by [oracle]. *)
Definition call {A} (s : service) (oracle : World -> nat -> result A) : M A := fun st =>
  (oracle (world st) (calls st s), called s st).

(** [try: body except ...: handler]: [handler e] is the clause that catches
    [e], if one does. *)
Definition try_except {A} (body : M A) (handler : exn -> option (M A)) : M A := fun st =>
  match body st with
  | (Raises e, st') =>
      match handler e with
      | Some h => h st'
      | None => (Raises e, st')
      end
  | r => r
  end.

(** [except Exception as e: h e] *)
Definition except_Exception {A} (h : exn -> M A) : exn -> option (M A) :=
  fun e => if is_Exception e then Some (h e) else None.

(** [self.<name>], which raises [AttributeError] when never assigned. *)
Definition attr {A} (name : string) (field : Bot -> option A) : M A := fun st =>
  match field (self st) with
  | Some x => (Returns x, st)
  | None =>
      (Raises (AttributeError
         ("'CompleteVoiceChatbot' object has no attribute '" +:+ name +:+ "'")), st)
  end.

Definition LF : string := String "010" EmptyString.

Definition print (text : string) : M unit := emit (Printed text).

Definition write (text : string) : M unit := emit (Wrote text).

(** [input(prompt)] *)
Definition input (prompt : string) : M string :=
  (if Py.truthy prompt then write prompt else ret tt);;
  call Stdin stdin.

Definition getenv (var : World -> option string) : M (option string) :=
  gets (fun st => var (world st)).

(** Truth value of [None] or a string. *)
Definition opt_truthy (o : option string) : bool :=
  match o with Some s => Py.truthy s | None => false end.

(** ** The class [CompleteVoiceChatbot] *)

(** Which of the two source files is meant. *)
Inductive flavour :=
| Plain     (* complete_voice_chatbot.py *)
| Conda.    (* complete_voice_chatbot_conda.py *)

Definition exit_keywords : list string := ["quit"; "exit"; "stop"; "goodbye"; "bye"].

Section CompleteVoiceChatbot.

Context (fl : flavour).

Local Open Scope prog_scope.

(** [Plain] or [Conda] wording of a message. *)
Definition worded {A} (plain conda : A) : A :=
  match fl with Plain => plain | Conda => conda end.

Definition new_recognizer : M Recognizer :=
  call NewRecognizer recognizer_ctor;; ret SrRecognizer.

Definition new_microphone (device_index : option nat) : M Microphone :=
  call NewMicrophone microphone_ctor;; ret (SrMicrophone device_index).

Definition enter_microphone (mic : Microphone) : M unit :=
  call EnterMicrophone microphone_enter.

Definition adjust_for_ambient_noise : M unit :=
  attr "recognizer" recognizer;; call AmbientNoise ambient_noise.

Definition recognizer_listen (timeout phrase_time_limit : Z) : M unit :=
  attr "recognizer" recognizer;;
  emit (Listened timeout phrase_time_limit);;
  call Recording recording.

Definition recognize_google : M string :=
  attr "recognizer" recognizer;; call Recognition recognition.

Definition set_voice_input (b : bool) : M unit :=
  set_self (fun s =>
    {| voice_input := b; recognizer := recognizer s; microphone := microphone s;
       tts := tts s; tts_engine := tts_engine s; api_key := api_key s; chatbot := chatbot s |}).

Definition set_recognizer (r : Recognizer) : M unit :=
  set_self (fun s =>
    {| voice_input := voice_input s; recognizer := Some r; microphone := microphone s;
       tts := tts s; tts_engine := tts_engine s; api_key := api_key s; chatbot := chatbot s |}).

Definition set_microphone (m : Microphone) : M unit :=
  set_self (fun s =>
    {| voice_input := voice_input s; recognizer := recognizer s; microphone := Some m;
       tts := tts s; tts_engine := tts_engine s; api_key := api_key s; chatbot := chatbot s |}).

Definition set_tts (b : bool) : M unit :=
  set_self (fun s =>
    {| voice_input := voice_input s; recognizer := recognizer s; microphone := microphone s;
       tts := b; tts_engine := tts_engine s; api_key := api_key s; chatbot := chatbot s |}).

Definition set_tts_engine (e : Engine) : M unit :=
  set_self (fun s =>
    {| voice_input := voice_input s; recognizer := recognizer s; microphone := microphone s;
       tts := tts s; tts_engine := Some e; api_key := api_key s; chatbot := chatbot s |}).

Definition set_api_key (k : option string) : M unit :=
  set_self (fun s =>
    {| voice_input := voice_input s; recognizer := recognizer s; microphone := microphone s;
       tts := tts s; tts_engine := tts_engine s; api_key := k; chatbot := chatbot s |}).

Definition set_chatbot (c : ChatModel) : M unit :=
  set_self (fun s =>
    {| voice_input := voice_input s; recognizer := recognizer s; microphone := microphone s;
       tts := tts s; tts_engine := tts_engine s; api_key := api_key s; chatbot := Some c |}).

(** [self.tts_engine.setProperty(...)] *)
Definition setProperty (f : Engine -> Engine) : M unit :=
  e ← attr "tts_engine" tts_engine; set_tts_engine (f e).

(** [__init__]: probe the two voice capabilities, then require the chat
    model's credential. *)
Definition __init__ : M unit :=
  available ← gets (fun st => VOICE_INPUT_AVAILABLE (world st));
  set_voice_input available;;
  enabled ← gets (fun st => voice_input (self st));
  (if enabled then
     try_except
       (match fl with
        | Plain =>
            r ← new_recognizer; set_recognizer r;;
            m ← new_microphone None; set_microphone m;;
            print "Speech recognition enabled";;
            source ← attr "microphone" microphone;
            enter_microphone source;;
            adjust_for_ambient_noise
        | Conda =>
            r ← new_recognizer; set_recognizer r;;
            print "Speech recognition initialized successfully";;
            new_microphone None;;
            print "Microphone objects can be created"
        end)
       (except_Exception (fun e =>
          print (worded "Microphone error: " "Microphone initialization error: " +:+ str_exn e);;
          set_voice_input false))
   else ret tt);;
  available ← gets (fun st => TTS_AVAILABLE (world st));
  set_tts available;;
  enabled ← gets (fun st => tts (self st));
  (if enabled then
     try_except
       (call NewEngine engine_ctor;;
        set_tts_engine {| rate := 200; volume := 1 |};;
        setProperty (fun e => {| rate := 150; volume := volume e |});;
        setProperty (fun e => {| rate := rate e; volume := 9 # 10 |});;
        print (worded "Text-to-speech enabled" "Text-to-speech initialized successfully"))
       (except_Exception (fun e =>
          print (worded "TTS error: " "TTS initialization error: " +:+ str_exn e);;
          set_tts false))
   else ret tt);;
  v ← gets (fun st => voice_input (self st));
  t ← gets (fun st => tts (self st));
  print (match v, t with
         | false, false => worded "Running in text-only mode" "Text-only mode"
         | false, true => "Text input + speech output mode"
         | true, false => "Voice input + text output mode"
         | true, true => worded "Full voice interaction mode" "Full voice interaction mode enabled!"
         end);;
  key ← getenv GOOGLE_API_KEY;
  set_api_key key;;
  match key with
  | Some k =>
      if Py.truthy k then
        call NewChatModel chat_model_ctor;;
        set_chatbot {| model := "gemini-1.5-flash"; temperature := 3 # 10; google_api_key := k |};;
        print "Complete Voice Chatbot ready!"
      else raise (ValueError "GOOGLE_API_KEY not found in .env file")
  | None => raise (ValueError "GOOGLE_API_KEY not found in .env file")
  end.

(** [tts_engine.say(text)] followed by [tts_engine.runAndWait()] *)
Definition say (text : string) : M unit :=
  attr "tts_engine" tts_engine;;
  emit (Said text);;
  call Synthesis synthesis.

Definition speak (text : string) : M unit :=
  print ("Bot: " +:+ text);;
  enabled ← gets (fun st => tts (self st));
  if enabled then
    try_except (say text)
      (except_Exception (fun e => print ("Speech error: " +:+ str_exn e)))
  else ret tt.

(** The clauses shared by the [try] of [listen] in both files. *)
Definition listen_handlers (e : exn) : option (M (option string)) :=
  match e with
  | KeyboardInterrupt => None
  | WaitTimeoutError _ =>
      Some (print (worded "No speech detected" "No speech detected (timeout)");; ret None)
  | UnknownValueError _ =>
      Some (print "Could not understand speech";; ret None)
  | _ =>
      Some (print ("Speech recognition error: " +:+ str_exn e);; ret None)
  end.

(** The [for i, mic_source in enumerate(microphone_sources)] loop of the
    Conda file: [Some text] when an iteration returned [text], [None] when
    the loop ran to its end. *)
Fixpoint try_sources (i : nat) (sources : list Microphone) : M (option string) :=
  match sources with
  | [] => ret None
  | mic_source :: rest =>
      returned ←
        try_except
          (enter_microphone mic_source;;
           print ("Trying microphone source " +:+ pretty i +:+ "...");;
           adjust_for_ambient_noise;;
           recognizer_listen 10 15;;
           print "Converting speech to text...";;
           text ← recognize_google;
           print ("You said: " +:+ text);;
           ret (Some (Py.strip text)))
          (except_Exception (fun mic_error =>
             print ("Microphone " +:+ pretty i +:+ " failed: "
                    +:+ Py.take_chars 50 (str_exn mic_error) +:+ "...");;
             ret None));
      match returned with
      | Some text => ret (Some text)
      | None => try_sources (S i) rest
      end
  end.

(** [listen]: the recognized text, stripped, or [None]. *)
Definition listen : M (option string) :=
  enabled ← gets (fun st => voice_input (self st));
  if negb enabled then ret None
  else
    try_except
      (match fl with
       | Plain =>
           print (LF +:+ "Listening... (speak now or press Ctrl+C for text input)");;
           source ← attr "microphone" microphone;
           enter_microphone source;;
           recognizer_listen 3 10;;
           print "Converting speech to text...";;
           text ← recognize_google;
           print ("You said: " +:+ text);;
           ret (Some (Py.strip text))
       | Conda =>
           print (LF +:+ "Listening... (speak now)");;
           m0 ← new_microphone None;
           m1 ← new_microphone (Some 0%nat);
           m2 ← new_microphone (Some 1%nat);
           m3 ← new_microphone (Some 2%nat);
           returned ← try_sources 0 [m0; m1; m2; m3];
           match returned with
           | Some text => ret (Some text)
           | None => print "All microphone sources failed";; ret None
           end
       end)
      listen_handlers.

(** ** Web augmenter *)

(** One pass of [for result in data['organic'][:2]]; an exception raised in
    an earlier pass is kept. *)
Definition add_snippet (acc : result (list json)) (item : json) : result (list json) :=
  results ← acc;
  snippet ← Json.get item "snippet" (JStr "");
  if Json.truthy snippet then Returns (results ++ [snippet]) else Returns results.

(** The fragments [search_web] gathers from the parsed response. *)
Definition gather (data : json) : result (list json) :=
  has_kg ← Json.contains "knowledgeGraph" data;
  results ←
    (if has_kg then
       kg ← Json.subscript data "knowledgeGraph";
       has_description ← Json.contains "description" kg;
       if has_description then
         description ← Json.subscript kg "description";
         Returns [description]
       else Returns []
     else Returns []);
  has_organic ← Json.contains "organic" data;
  if has_organic then
    organic ← Json.subscript data "organic";
    first ← Json.first_two organic;
    foldl add_snippet (Returns results) first
  else Returns results.

(** [" ".join(results)] on the gathered values: every item must be a [str]. *)
Fixpoint join_values (i : nat) (results : list json) : result (list string) :=
  match results with
  | [] => Returns []
  | JStr s :: rest => strs ← join_values (S i) rest; Returns (s :: strs)
  | v :: _ =>
      Raises (TypeError ("sequence item " +:+ pretty i +:+ ": expected str instance, "
                         +:+ Json.type_name v +:+ " found"))
  end.

(** [" ".join(results) if results else None] *)
Definition joined (results : list json) : result (option string) :=
  match results with
  | [] => Returns None
  | _ => strs ← join_values 0 results; Returns (Some (Py.join " " strs))
  end.

Definition requests_post (url key query : string) (num timeout : Z) : M json :=
  emit (Posted url key query num timeout);;
  call SearchApi search_api.

Definition search_web (query : string) : M (option string) :=
  try_except
    (serper_key ← getenv SERPER_API_KEY;
     match serper_key with
     | None => ret None
     | Some key =>
         if negb (Py.truthy key) then ret None
         else
           data ← requests_post "https://google.serper.dev/search" key query 3 10;
           results ← lift (gather data);
           lift (joined results)
     end)
    (except_Exception (fun e => print ("Search error: " +:+ str_exn e);; ret None)).

(** ** Response generator *)

Definition prompt_of (question : string) (web_info : option string) : string :=
  match web_info with
  | Some info =>
      if Py.truthy info then
        "Question: " +:+ question +:+ LF +:+ LF
        +:+ "Current information: " +:+ info +:+ LF +:+ LF
        +:+ "Provide a conversational response (50-80 words) suitable for voice interaction."
      else
        "Question: " +:+ question +:+ LF +:+ LF
        +:+ "Provide a conversational response (50-80 words) suitable for voice interaction."
  | None =>
      "Question: " +:+ question +:+ LF +:+ LF
      +:+ "Provide a conversational response (50-80 words) suitable for voice interaction."
  end.

Definition messages_of (question : string) (web_info : option string) (today : string)
  : list message :=
  [ SystemMessage ("You are a helpful voice assistant. Today is " +:+ today
                   +:+ ". Keep responses concise and conversational.");
    HumanMessage (prompt_of question web_info) ].

Definition invoke (messages : list message) : M string :=
  attr "chatbot" chatbot;;
  emit (Invoked messages);;
  call ChatApi chat_api.

Definition get_response (question : string) : M string :=
  try_except
    (web_info ←
       (if needs_search question then
          print "Searching for current information...";;
          search_web question
        else ret None);
     today ← call Clock (fun w n => Returns (clock w n));
     invoke (messages_of question web_info today))
    (except_Exception (fun e => ret ("Sorry, I had an error: " +:+ str_exn e))).

(** ** Session loop *)

(** How one pass through the body of [while True] ends. *)
Inductive flow :=
| Continue    (* [continue], or the end of the body: back to awaiting input *)
| Break.      (* [break]: the session has ended *)

(** From [# Process the question] to the end of the loop body. *)
Definition process_question (user_input : string) : M flow :=
  print "Processing your question...";;
  response ← get_response user_input;
  print (LF +:+ "Bot: " +:+ response);;
  enabled ← gets (fun st => tts (self st));
  (if enabled then
     try_except (say response)
       (except_Exception (fun e => print ("Speech output failed: " +:+ str_exn e)))
   else ret tt);;
  print (Py.repeat_char "-" 50);;
  ret Continue.

(** The body of the [try] inside [while True]. *)
Definition loop_body : M flow :=
  write (LF +:+ "You: ");;
  line ← input "";
  let user_input := Py.strip line in
  if negb (Py.truthy user_input) then
    print "Please enter a question or type 'quit' to exit";;
    ret Continue
  else if bool_decide (Py.lower user_input ∈ exit_keywords) then
    speak "Goodbye! Have a great day!";;
    print "Goodbye!";;
    ret Break
  else if bool_decide (Py.lower user_input = "voice") then
    enabled ← gets (fun st => voice_input (self st));
    if enabled then
      print "Switching to voice input - speak now...";;
      voice_input ← listen;
      if opt_truthy voice_input then
        let user_input := default "" voice_input in
        print ("Voice input received: " +:+ user_input);;
        process_question user_input
      else
        print "Voice input failed, please type your question";;
        ret Continue
    else
      print (worded "Voice input not available (microphone/PyAudio issues)"
                    "Voice input not available - PyAudio/microphone issues");;
      print "Please type your question instead:";;
      ret Continue
  else process_question user_input.

(** The two [except] clauses of the loop. *)
Definition loop_handlers (e : exn) : option (M flow) :=
  match e with
  | KeyboardInterrupt =>
      Some (speak "Goodbye!";; print (LF +:+ "Goodbye!");; ret Break)
  | _ =>
      Some (print ("Error: " +:+ str_exn e);;
            print "Please try again or type 'quit' to exit";;
            ret Continue)
  end.

(** One pass through [while True]. *)
Definition iteration : M flow := try_except loop_body loop_handlers.

(** What [run_interactive] prints before the loop. *)
Definition greeting : M unit :=
  print (LF +:+ "Complete Voice Chatbot - Interactive Mode");;
  print (Py.repeat_char "=" 50);;
  v ← gets (fun st => voice_input (self st));
  (if v then
     print (worded "Voice input available - you can speak"
                   "Voice input available - type 'voice' to use microphone")
   else ret tt);;
  print "Text input always available - just type your questions";;
  t ← gets (fun st => tts (self st));
  (if t then print "Speech output enabled - bot will speak responses"
   else print "Text output mode");;
  print "Type 'quit' to exit";;
  (match fl with
   | Plain => print "Type 'voice' to try voice input (if available)"
   | Conda => if v then print "Type 'voice' to try voice input" else ret tt
   end);;
  print (Py.repeat_char "-" 50);;
  speak "Hello! I'm your AI assistant. What would you like to know?".

(** Computations that may run forever: [None] when the fuel does not
    suffice. *)
Definition P (A : Type) : Type := State -> option (result A * State).

Definition total {A} (m : M A) : P A := fun st => Some (m st).

Definition then_ {A B} (m : M A) (k : A -> P B) : P B := fun st =>
  match m st with
  | (Returns a, st') => k a st'
  | (Raises e, st') => Some (Raises e, st')
  end.

Definition try_except_P {A} (body : P A) (handler : exn -> option (M A)) : P A := fun st =>
  match body st with
  | Some (Raises e, st') =>
      match handler e with
      | Some h => Some (h st')
      | None => Some (Raises e, st')
      end
  | r => r
  end.

(** [while True: body], each pass costing one unit of fuel. *)
Fixpoint while_true (fuel : nat) (body : M flow) : P unit := fun st =>
  match fuel with
  | O => None
  | S fuel' =>
      match body st with
      | (Returns Continue, st') => while_true fuel' body st'
      | (Returns Break, st') => Some (Returns tt, st')
      | (Raises e, st') => Some (Raises e, st')
      end
  end.

Definition run_interactive (fuel : nat) : P unit :=
  then_ greeting (fun _ => while_true fuel iteration).

Definition run_single_command (command : string) : M string :=
  print ("Processing: " +:+ command);;
  print "Getting response...";;
  response ← get_response command;
  print (LF +:+ "Bot: " +:+ response);;
  enabled ← gets (fun st => tts (self st));
  (if enabled then
     try_except
       (say response;; print "Response spoken successfully!")
       (except_Exception (fun e => print ("Speech output failed: " +:+ str_exn e)))
   else ret tt);;
  ret response.

(** [CompleteVoiceChatbot()]: a fresh object, initialised. *)
Definition CompleteVoiceChatbot : M unit :=
  set_self (fun _ => blank);; __init__.

Definition main_handlers : exn -> option (M unit) :=
  except_Exception (fun e =>
    print ("Error: " +:+ str_exn e);;
    print (LF +:+ "Make sure you have:");;
    print "  - GOOGLE_API_KEY in .env file";;
    print "  - Internet connection";;
    print (worded "  - Microphone (optional)"
                  "  - Run with: python complete_voice_chatbot_conda.py")).

(** [main()], with [sys.argv] given. *)
Definition main (fuel : nat) (argv : list string) : P unit :=
  then_ (print (worded "Initializing Complete Voice Chatbot..."
                       "Initializing Complete Voice Chatbot with Microphone Support..."))
    (fun _ =>
       try_except_P
         (then_ CompleteVoiceChatbot (fun _ =>
            if (1 <? length argv)%nat then
              let command := Py.join " " (drop 1 argv) in
              total (run_single_command command;; ret tt)
            else run_interactive fuel))
         main_handlers).

End CompleteVoiceChatbot.

(** ** Input resolver

    [get_text_input] and [get_input] exist in the Plain file only. *)

Local Open Scope prog_scope.

Definition get_text_input : M string :=
  line ← input "Type your message: ";
  ret (Py.strip line).

Definition get_input (prefer_voice : bool) : M string :=
  enabled ← gets (fun st => voice_input (self st));
  if prefer_voice && enabled then
    speech_input ← listen Plain;
    match speech_input with
    | Some text =>
        if Py.truthy text then ret text
        else print "Switching to text input...";; get_text_input
    | None => print "Switching to text input...";; get_text_input
    end
  else get_text_input.

Local Close Scope prog_scope.

(** * Vocabulary of the statements *)

(** ** The search response and its snippet bundle, in the words of the
       specification *)

Definition str_or_missing (m : gmap string json) (key : string) : bool :=
  match m !! key with
  | None | Some (JStr _) => true
  | Some _ => false
  end.

Definition organic_result (item : json) : bool :=
  match item with JObj r => str_or_missing r "snippet" | _ => false end.

(** A search-API response: an object that optionally carries a
    [knowledgeGraph] object with an optional textual [description], and
    optionally an [organic] array of objects, each with an optional textual
    [snippet]. *)
Definition serper_response (data : json) : bool :=
  match data with
  | JObj m =>
      match m !! "knowledgeGraph" with
      | None => true
      | Some (JObj kg) => str_or_missing kg "description"
      | Some _ => false
      end
      &&
      match m !! "organic" with
      | None => true
      | Some (JArr items) => forallb organic_result items
      | Some _ => false
      end
  | _ => false
  end.

(** The knowledge-panel description, if present. *)
Definition panel_description (data : json) : list string :=
  match data with
  | JObj m =>
      match m !! "knowledgeGraph" with
      | Some (JObj kg) =>
          match kg !! "description" with Some (JStr d) => [d] | _ => [] end
      | _ => []
      end
  | _ => []
  end.

Definition snippet_of (item : json) : string :=
  match item with
  | JObj r => match r !! "snippet" with Some (JStr s) => s | _ => "" end
  | _ => ""
  end.

(** The snippets of the first two organic results, empty ones skipped. *)
Definition organic_snippets (data : json) : list string :=
  match data with
  | JObj m =>
      match m !! "organic" with
      | Some (JArr items) => List.filter Py.truthy (snippet_of <$> take 2 items)
      | _ => []
      end
  | _ => []
  end.

Definition fragments (data : json) : list string :=
  panel_description data ++ organic_snippets data.

(** The fragments joined by single spaces, or absent when there is none. *)
Definition snippet_bundle (data : json) : option string :=
  match fragments data with
  | [] => None
  | fs => Some (Py.join " " fs)
  end.

Definition mocked_response : json :=
  JObj {[ "organic" :=
            JArr [ JObj {[ "snippet" := JStr "A" ]};
                   JObj {[ "snippet" := JStr "B" ]};
                   JObj {[ "snippet" := JStr "C" ]} ] ]}.

(** ** Worlds to run the program in *)

(** A service that answers its first calls from [replies] and then keeps
    answering [afterwards]. *)
Definition script {A} (replies : list A) (afterwards : A) : nat -> A :=
  fun n => default afterwards (replies !! n).

(** A machine with working voice libraries and both credentials, a closed
    terminal, a recognizer that hears nothing intelligible, an empty search
    result and a chat model that answers [ok]. *)
Definition quiet_world : World :=
  {| VOICE_INPUT_AVAILABLE := true;
     TTS_AVAILABLE := true;
     GOOGLE_API_KEY := Some "google-key";
     SERPER_API_KEY := Some "serper-key";
     stdin := fun _ => Raises (EOFError "EOF when reading a line");
     recognizer_ctor := fun _ => Returns tt;
     microphone_ctor := fun _ => Returns tt;
     microphone_enter := fun _ => Returns tt;
     ambient_noise := fun _ => Returns tt;
     recording := fun _ => Returns tt;
     recognition := fun _ => Raises (UnknownValueError "");
     engine_ctor := fun _ => Returns tt;
     chat_model_ctor := fun _ => Returns tt;
     search_api := fun _ => Returns (JObj ∅);
     chat_api := fun _ => Returns "ok";
     synthesis := fun _ => Returns tt;
     clock := fun _ => "November 03, 2026" |}.

Definition with_stdin (lines : nat -> result string) (w : World) : World :=
  {| VOICE_INPUT_AVAILABLE := VOICE_INPUT_AVAILABLE w; TTS_AVAILABLE := TTS_AVAILABLE w;
     GOOGLE_API_KEY := GOOGLE_API_KEY w; SERPER_API_KEY := SERPER_API_KEY w;
     stdin := lines;
     recognizer_ctor := recognizer_ctor w; microphone_ctor := microphone_ctor w;
     microphone_enter := microphone_enter w; ambient_noise := ambient_noise w;
     recording := recording w; recognition := recognition w;
     engine_ctor := engine_ctor w; chat_model_ctor := chat_model_ctor w;
     search_api := search_api w; chat_api := chat_api w; synthesis := synthesis w;
     clock := clock w |}.

Definition with_recording (r : nat -> result unit) (w : World) : World :=
  {| VOICE_INPUT_AVAILABLE := VOICE_INPUT_AVAILABLE w; TTS_AVAILABLE := TTS_AVAILABLE w;
     GOOGLE_API_KEY := GOOGLE_API_KEY w; SERPER_API_KEY := SERPER_API_KEY w;
     stdin := stdin w;
     recognizer_ctor := recognizer_ctor w; microphone_ctor := microphone_ctor w;
     microphone_enter := microphone_enter w; ambient_noise := ambient_noise w;
     recording := r; recognition := recognition w;
     engine_ctor := engine_ctor w; chat_model_ctor := chat_model_ctor w;
     search_api := search_api w; chat_api := chat_api w; synthesis := synthesis w;
     clock := clock w |}.

Definition with_recognition (r : nat -> result string) (w : World) : World :=
  {| VOICE_INPUT_AVAILABLE := VOICE_INPUT_AVAILABLE w; TTS_AVAILABLE := TTS_AVAILABLE w;
     GOOGLE_API_KEY := GOOGLE_API_KEY w; SERPER_API_KEY := SERPER_API_KEY w;
     stdin := stdin w;
     recognizer_ctor := recognizer_ctor w; microphone_ctor := microphone_ctor w;
     microphone_enter := microphone_enter w; ambient_noise := ambient_noise w;
     recording := recording w; recognition := r;
     engine_ctor := engine_ctor w; chat_model_ctor := chat_model_ctor w;
     search_api := search_api w; chat_api := chat_api w; synthesis := synthesis w;
     clock := clock w |}.

Definition with_search (r : nat -> result json) (w : World) : World :=
  {| VOICE_INPUT_AVAILABLE := VOICE_INPUT_AVAILABLE w; TTS_AVAILABLE := TTS_AVAILABLE w;
     GOOGLE_API_KEY := GOOGLE_API_KEY w; SERPER_API_KEY := SERPER_API_KEY w;
     stdin := stdin w;
     recognizer_ctor := recognizer_ctor w; microphone_ctor := microphone_ctor w;
     microphone_enter := microphone_enter w; ambient_noise := ambient_noise w;
     recording := recording w; recognition := recognition w;
     engine_ctor := engine_ctor w; chat_model_ctor := chat_model_ctor w;
     search_api := r; chat_api := chat_api w; synthesis := synthesis w;
     clock := clock w |}.

Definition with_chat (r : nat -> result string) (w : World) : World :=
  {| VOICE_INPUT_AVAILABLE := VOICE_INPUT_AVAILABLE w; TTS_AVAILABLE := TTS_AVAILABLE w;
     GOOGLE_API_KEY := GOOGLE_API_KEY w; SERPER_API_KEY := SERPER_API_KEY w;
     stdin := stdin w;
     recognizer_ctor := recognizer_ctor w; microphone_ctor := microphone_ctor w;
     microphone_enter := microphone_enter w; ambient_noise := ambient_noise w;
     recording := recording w; recognition := recognition w;
     engine_ctor := engine_ctor w; chat_model_ctor := chat_model_ctor w;
     search_api := search_api w; chat_api := r; synthesis := synthesis w;
     clock := clock w |}.

Definition with_keys (google serper : option string) (w : World) : World :=
  {| VOICE_INPUT_AVAILABLE := VOICE_INPUT_AVAILABLE w; TTS_AVAILABLE := TTS_AVAILABLE w;
     GOOGLE_API_KEY := google; SERPER_API_KEY := serper;
     stdin := stdin w;
     recognizer_ctor := recognizer_ctor w; microphone_ctor := microphone_ctor w;
     microphone_enter := microphone_enter w; ambient_noise := ambient_noise w;
     recording := recording w; recognition := recognition w;
     engine_ctor := engine_ctor w; chat_model_ctor := chat_model_ctor w;
     search_api := search_api w; chat_api := chat_api w; synthesis := synthesis w;
     clock := clock w |}.

(** The state in which [main] starts. *)
Definition boot (w : World) : State :=
  {| self := blank; world := w; calls := fun _ => 0%nat; trace := [] |}.

(** The object both files build on a machine where both voice capabilities
    work; the Conda file leaves [microphone] unassigned. *)
Definition ready_bot (fl : flavour) : Bot :=
  {| voice_input := true;
     recognizer := Some SrRecognizer;
     microphone := match fl with Plain => Some (SrMicrophone None) | Conda => None end;
     tts := true;
     tts_engine := Some {| rate := 150; volume := 9 # 10 |};
     api_key := Some "google-key";
     chatbot := Some {| model := "gemini-1.5-flash"; temperature := 3 # 10;
                        google_api_key := "google-key" |} |}.

(** A session that is awaiting input in world [w]. *)
Definition session (fl : flavour) (w : World) : State :=
  {| self := ready_bot fl; world := w; calls := fun _ => 0%nat; trace := [] |}.

(** [st] after one more line was printed. *)
Definition printed (text : string) (st : State) : State := logged (Printed text) st.

(** [st] after the loop wrote its prompt and read a line. *)
Definition after_read (st : State) : State :=
  called Stdin (logged (Wrote (LF +:+ "You: ")) st).

(** ** Failure modes of a voice capture *)

(** Where an attempt on one microphone fails: on entering the device, while
    calibrating for ambient noise (the Conda file only), while recording (a
    timeout waiting for speech), or in recognition (unintelligible audio, a
    backend error). *)
Inductive stage := Entering | Calibrating | Capturing | Recognizing.

(** The attempt made when the services have been called [c] times fails at
    stage [s] with [e]: the stages before [s] went through. *)
Definition attempt_fails (fl : flavour) (w : World) (c : service -> nat)
    (s : stage) (e : exn) : Prop :=
  let entered := microphone_enter w (c EnterMicrophone) = Returns tt in
  let calibrated :=
    match fl with
    | Plain => True
    | Conda => ambient_noise w (c AmbientNoise) = Returns tt
    end in
  match s with
  | Entering => microphone_enter w (c EnterMicrophone) = Raises e
  | Calibrating =>
      fl = Conda /\ entered /\ ambient_noise w (c AmbientNoise) = Raises e
  | Capturing =>
      entered /\ calibrated /\ recording w (c Recording) = Raises e
  | Recognizing =>
      entered /\ calibrated /\ recording w (c Recording) = Returns tt
      /\ recognition w (c Recognition) = Raises e
  end.

(** The services an attempt of the Conda file has called when it fails at
    stage [s], and the counters after it. *)
Definition reached (s : stage) (x : service) : bool :=
  match x, s with
  | EnterMicrophone, _ => true
  | AmbientNoise, (Calibrating | Capturing | Recognizing) => true
  | Recording, (Capturing | Recognizing) => true
  | Recognition, Recognizing => true
  | _, _ => false
  end.

Definition after_attempt (c : service -> nat) (s : stage) : service -> nat :=
  fun x => if reached s x then S (c x) else c x.

(** One attempt after the other fails, each at a stage and with an
    [Exception] of its own. *)
Fixpoint attempts_fail (w : World) (c : service -> nat) (modes : list (stage * exn))
  : Prop :=
  match modes with
  | [] => True
  | (s, e) :: rest =>
      is_Exception e = true /\ attempt_fails Conda w c s e
      /\ attempts_fail w (after_attempt c s) rest
  end.

(** The capture started in [st] fails.  In the Plain file the one attempt
    fails, at some stage with some [Exception].  In the Conda file building
    the list of four microphones fails, or each of the four sources fails,
    at a stage and with an [Exception] of its own. *)
Definition capture_fails (fl : flavour) (st : State) : Prop :=
  let w := world st in
  match fl with
  | Plain =>
      exists s e, is_Exception e = true /\ attempt_fails Plain w (calls st) s e
  | Conda =>
      (exists k e, k < 4 /\ is_Exception e = true
         /\ (forall j, j < k -> microphone_ctor w (j + calls st NewMicrophone) = Returns tt)
         /\ microphone_ctor w (k + calls st NewMicrophone) = Raises e)
      \/ ((forall k, k < 4 -> microphone_ctor w (k + calls st NewMicrophone) = Returns tt)
          /\ exists modes, length modes = 4 /\ attempts_fail w (calls st) modes)
  end.

(** ** The response as a function of the question and the replies *)

(** What [search_web] returns, given the credential and what the search
    API does. *)
Definition web_info_of (key : option string) (search : result json) : result (option string) :=
  match key with
  | None => Returns None
  | Some k =>
      if Py.truthy k then
        match and_then (and_then search gather) joined with
        | Returns info => Returns info
        | Raises e => if is_Exception e then Returns None else Raises e
        end
      else Returns None
  end.

(** What [get_response] returns, given the model handle, the search
    credential, and what the search API and the chat model do. *)
Definition response_of (question : string) (bot : option ChatModel)
    (key : option string) (search : result json) (chat : result string) : result string :=
  match (if needs_search question then web_info_of key search else Returns None) with
  | Raises e => Raises e
  | Returns _ =>
      match bot with
      | None =>
          Returns ("Sorry, I had an error: "
                   +:+ "'CompleteVoiceChatbot' object has no attribute 'chatbot'")
      | Some _ =>
          match chat with
          | Returns content => Returns content
          | Raises e =>
              if is_Exception e then Returns ("Sorry, I had an error: " +:+ str_exn e)
              else Raises e
          end
      end
  end.


(** ** The object a finished [__init__] leaves *)

(** The model handle carries the credential read from the environment; a
    capability flag that is on has its handles assigned. *)
Definition constructed (fl : flavour) (w : World) (b : Bot) : Prop :=
  (exists k,
     GOOGLE_API_KEY w = Some k /\ Py.truthy k = true /\ api_key b = Some k
     /\ chatbot b = Some {| model := "gemini-1.5-flash"; temperature := 3 # 10;
                            google_api_key := k |})
  /\ (voice_input b = true ->
      VOICE_INPUT_AVAILABLE w = true /\ recognizer b = Some SrRecognizer
      /\ (fl = Plain -> microphone b = Some (SrMicrophone None)))
  /\ (tts b = true ->
      TTS_AVAILABLE w = true /\ tts_engine b = Some {| rate := 150; volume := 9 # 10 |}).

(** ** What a run sends and shows *)

(** The requests sent to the chat model, newest first. *)
Definition requests (tr : list event) : list (list message) :=
  omap (fun ev => match ev with Invoked msgs => Some msgs | _ => None end) tr.

(** [s] without its beginning [p], when it begins with [p]. *)
Fixpoint after_prefix (p s : string) : option string :=
  match p, s with
  | EmptyString, _ => Some s
  | String a p', String b s' => if Ascii.eqb a b then after_prefix p' s' else None
  | String _ _, EmptyString => None
  end.

(** The response a printed line renders: the text after the [Bot:] label
    of a line that opens with a line feed, as the loop and the one-shot
    command print it. *)
Definition response_shown (ev : event) : option string :=
  match ev with
  | Printed line => after_prefix (LF +:+ "Bot: ") line
  | _ => None
  end.

(** The responses rendered on the terminal, and those spoken, newest
    first. *)
Definition shown (tr : list event) : list string := omap response_shown tr.

Definition spoken (tr : list event) : list string :=
  omap (fun ev => match ev with Said text => Some text | _ => None end) tr.

(** The request [get_response] sends to the model, given the model handle,
    the search credential, what the search API does and the date: none
    when the search is interrupted or the handle is missing. *)
Definition request_of (question : string) (bot : option ChatModel)
    (key : option string) (search : result json) (today : string)
  : list (list message) :=
  match (if needs_search question then web_info_of key search else Returns None) with
  | Raises _ => []
  | Returns info =>
      match bot with
      | Some _ => [messages_of question info today]
      | None => []
      end
  end.

(** What the synthesizer is given for a response: the response when speech
    output is on and the engine is there. *)
Definition speech_of (b : Bot) (response : string) : list string :=
  match tts b, tts_engine b with
  | true, Some _ => [response]
  | _, _ => []
  end.

(** The captures a run has started: [listen] opens each with a line that
    begins with a line feed and [Listening... (speak now]. *)
Definition capture_announced (ev : event) : bool :=
  match ev with
  | Printed line =>
      match after_prefix (LF +:+ "Listening... (speak now") line with
      | Some _ => true
      | None => false
      end
  | _ => false
  end.

Definition captures (tr : list event) : nat :=
  length (List.filter capture_announced tr).

(** * Properties *)

(** ** Strings *)

Section Strings.

#[local] Arguments String.append !_ _ / : simpl nomatch.

Lemma app_empty_r (s : string) : s +:+ "" = s.
Proof. induction s as [|c s IH]; simpl; [reflexivity | now rewrite IH]. Qed.

Lemma app_assoc_str (a b c : string) : (a +:+ b) +:+ c = a +:+ b +:+ c.
Proof. induction a as [|x a IH]; simpl; [reflexivity | now rewrite IH]. Qed.

Lemma startswith_spec (p s : string) :
  Py.startswith p s = true <-> exists post, s = p +:+ post.
Proof.
  revert s. induction p as [|a p IH]; intros s; simpl.
  - split; [intros _; now exists s | reflexivity].
  - destruct s as [|b s].
    + split; [discriminate | intros [post H]; discriminate].
    + destruct (decide (a = b)) as [->|Hne].
      * rewrite IH. split; intros [post H]; exists post.
        -- now rewrite H.
        -- now injection H.
      * split; [discriminate | intros [post H]; injection H; congruence].
Qed.

Lemma contains_spec (m t : string) : Py.contains m t = true <-> occurs m t.
Proof.
  unfold occurs. induction t as [|c t IH]; simpl.
  - rewrite orb_false_r, startswith_spec. split.
    + intros [post H]. exists "", post. exact H.
    + intros (pre & post & H). destruct pre; simpl in H.
      * now exists post.
      * discriminate.
  - rewrite orb_true_iff, startswith_spec, IH. split.
    + intros [[post H] | (pre & post & H)].
      * exists "", post. exact H.
      * exists (String c pre), post. simpl. now rewrite H.
    + intros (pre & post & H). destruct pre as [|c' pre]; simpl in H.
      * left. now exists post.
      * right. exists pre, post. now injection H.
Qed.

Lemma any_spec {A} (f : A -> bool) (xs : list A) :
  Py.any f xs = true <-> exists x, x ∈ xs /\ f x = true.
Proof.
  induction xs as [|x xs IH]; simpl.
  - split; [discriminate | intros (x & Hx & _); inversion Hx].
  - destruct (f x) eqn:Hfx.
    + split; [intros _; exists x; split; [left | assumption] | reflexivity].
    + rewrite IH. split; intros (y & Hy & Hfy).
      * exists y. split; [now right | assumption].
      * exists y. split; [|assumption].
        inversion Hy; subst; [congruence | assumption].
Qed.

(** The result of [any] is settled at the first element that passes, whatever
    follows it. *)
Lemma any_first_match {A} (f : A -> bool) (before : list A) (x : A) (after : list A) :
  f x = true -> Py.any f (before ++ x :: after) = true.
Proof.
  intros Hx. induction before as [|y before IH]; simpl.
  - now rewrite Hx.
  - destruct (f y); [reflexivity | exact IH].
Qed.

Lemma lower_char_idem (c : ascii) : Py.lower_char (Py.lower_char c) = Py.lower_char c.
Proof. destruct c as [[] [] [] [] [] [] [] []]; reflexivity. Qed.

Lemma lower_idem (s : string) : Py.lower (Py.lower s) = Py.lower s.
Proof. induction s as [|c s IH]; simpl; [reflexivity | now rewrite lower_char_idem, IH]. Qed.

Lemma lower_truthy (s : string) : Py.truthy (Py.lower s) = Py.truthy s.
Proof. destruct s; reflexivity. Qed.

End Strings.

(** ** C1: the relevance classifier *)

(** C1.  [needs_search s] holds exactly when the lower-cased [s] contains one
    of the 20 fixed markers as a substring; with no marker inside it is false.
    The test is a function of [s] alone (it takes neither the object nor the
    world), it does not tell apart utterances that agree after lower-casing,
    and a marker that matches settles the answer whatever markers follow it
    in the list. *)
Theorem needs_search_iff_marker (s : string) :
  length search_indicators = 20%nat /\
  (needs_search s = true <->
     exists m, m ∈ search_indicators /\ occurs m (Py.lower s)) /\
  ((forall m, m ∈ search_indicators -> ~ occurs m (Py.lower s)) ->
     needs_search s = false) /\
  (forall s', Py.lower s' = Py.lower s -> needs_search s' = needs_search s) /\
  needs_search (Py.lower s) = needs_search s /\
  (forall before m after,
     search_indicators = before ++ m :: after ->
     occurs m (Py.lower s) ->
     forall others,
       Py.any (fun indicator => Py.contains indicator (Py.lower s))
              (before ++ m :: others) = true).
Proof.
  assert (Hiff : needs_search s = true <->
                 exists m, m ∈ search_indicators /\ occurs m (Py.lower s)).
  { unfold needs_search. rewrite any_spec.
    split; intros (m & Hm & Hc); exists m; (split; [exact Hm|]); now apply contains_spec. }
  split; [reflexivity|].
  split; [exact Hiff|].
  split.
  { intros Hnone. destruct (needs_search s) eqn:E; [|reflexivity].
    destruct Hiff as [Hfound _]. destruct (Hfound eq_refl) as (m & Hm & Hocc).
    now destruct (Hnone m Hm). }
  split.
  { intros s' Heq. unfold needs_search. now rewrite Heq. }
  split.
  { unfold needs_search. now rewrite lower_idem. }
  intros before m after _ Hocc others.
  apply any_first_match. now apply contains_spec.
Qed.

Example needs_search_weather : needs_search "What's the Weather like?" = true.
Proof. reflexivity. Qed.

Example needs_search_world_cup : needs_search "Who won the WORLD CUP" = true.
Proof. reflexivity. Qed.

Example needs_search_joke : needs_search "tell me a joke" = false.
Proof. reflexivity. Qed.

(** ** C2 and C3: the web augmenter *)

Lemma join_values_strings (i : nat) (fs : list string) :
  join_values i (JStr <$> fs) = Returns fs.
Proof.
  revert i. induction fs as [|f fs IH]; intros i; simpl; [reflexivity|].
  now rewrite IH.
Qed.

Lemma joined_strings (fs : list string) :
  joined (JStr <$> fs) =
  Returns (match fs with [] => None | _ => Some (Py.join " " fs) end).
Proof.
  destruct fs as [|f fs]; [reflexivity|].
  unfold joined. simpl. now rewrite join_values_strings.
Qed.

Lemma add_snippets_organic (items : list json) (acc : list string) :
  forallb organic_result items = true ->
  foldl add_snippet (Returns (JStr <$> acc)) items =
  Returns (JStr <$> (acc ++ List.filter Py.truthy (snippet_of <$> items))).
Proof.
  revert acc. induction items as [|item items IH]; intros acc Hall.
  - simpl. now rewrite app_nil_r.
  - change (foldl add_snippet (add_snippet (Returns (JStr <$> acc)) item) items =
            Returns (JStr <$> (acc ++ List.filter Py.truthy
                                        (snippet_of item :: (snippet_of <$> items))))).
    simpl in Hall. apply andb_prop in Hall as [Hitem Hall].
    destruct item as [| | | | | |r]; try discriminate Hitem.
    unfold organic_result, str_or_missing in Hitem.
    assert (Hstep : add_snippet (Returns (JStr <$> acc)) (JObj r) =
                    Returns (JStr <$> (acc ++ List.filter Py.truthy [snippet_of (JObj r)]))).
    { unfold add_snippet, snippet_of. simpl.
      destruct (r !! "snippet") as [[| | | |s| |]|]; try discriminate Hitem; simpl.
      - destruct s; simpl; [now rewrite app_nil_r | now rewrite fmap_app].
      - now rewrite app_nil_r. }
    rewrite Hstep, IH by assumption.
    f_equal. f_equal. rewrite <- app_assoc. f_equal.
    cbn [List.filter]. destruct (Py.truthy (snippet_of (JObj r))); reflexivity.
Qed.

Lemma forallb_take {A} (f : A -> bool) (n : nat) (l : list A) :
  forallb f l = true -> forallb f (take n l) = true.
Proof.
  revert n. induction l as [|x l IH]; intros [|n] H; simpl in *; try reflexivity.
  apply andb_prop in H as [Hx Hl]. now rewrite Hx, IH.
Qed.

(** On a response of the documented shape the code gathers the fragments
    the specification lists. *)
Lemma gather_fragments (data : json) :
  serper_response data = true -> gather data = Returns (JStr <$> fragments data).
Proof.
  destruct data as [| | | | | |m]; try discriminate.
  unfold serper_response, gather, fragments, panel_description, organic_snippets.
  intros H. apply andb_prop in H as [Hkg Horg].
  unfold and_then, Json.contains, Json.subscript, Json.first_two, str_or_missing in *.
  assert (Hloop : forall acc items,
            m !! "organic" = Some (JArr items) ->
            foldl add_snippet (Returns (JStr <$> acc)) (take 2 items) =
            Returns (JStr <$> acc ++ List.filter Py.truthy (snippet_of <$> take 2 items))).
  { intros acc items E. rewrite E in Horg.
    apply add_snippets_organic. now apply forallb_take. }
  destruct (m !! "knowledgeGraph") as [[| | | | | |kg]|]; try discriminate Hkg;
    [destruct (kg !! "description") as [[| | | |d| |]|]; try discriminate Hkg|];
    (destruct (m !! "organic") as [[| | | | |items|]|]; try discriminate Horg;
     cbn [bool_decide decide_rel is_Some_dec option_eq_None_dec];
     [lazymatch goal with
      | |- context [Returns [JStr ?d]] => exact (Hloop [d] items eq_refl)
      | _ => exact (Hloop [] items eq_refl)
      end
     | now rewrite app_nil_r]).
Qed.

Lemma search_web_run (query key : string) (data : json) (st : State) :
  SERPER_API_KEY (world st) = Some key ->
  Py.truthy key = true ->
  search_api (world st) (calls st SearchApi) = Returns data ->
  serper_response data = true ->
  search_web query st =
  (Returns (snippet_bundle data),
   called SearchApi (logged (Posted "https://google.serper.dev/search" key query 3 10) st)).
Proof.
  intros Hkey Htruthy Hreply Hshape.
  unfold search_web, try_except, bind, getenv, gets, requests_post, bind, emit, call, lift.
  simpl. rewrite Hkey, Htruthy. simpl. rewrite Hreply.
  rewrite (gather_fragments data Hshape), joined_strings.
  unfold snippet_bundle. now destruct (fragments data).
Qed.

(** C2.  With a credential configured and a response of the documented
    shape, [search_web] returns the knowledge-panel description (if present)
    followed by the snippets of the first two organic results, empty ones
    skipped, joined by single spaces, and [None] when there is no fragment.
    On the mocked response with snippets A, B and C it returns the string
    with A and B and without C. *)
Theorem search_web_extracts (query key : string) (data : json) (st : State) :
  SERPER_API_KEY (world st) = Some key ->
  Py.truthy key = true ->
  search_api (world st) (calls st SearchApi) = Returns data ->
  serper_response data = true ->
  (search_web query st).1 = Returns (snippet_bundle data) /\
  (fragments data = panel_description data ++ organic_snippets data) /\
  (forall f fs, fragments data = f :: fs ->
     (search_web query st).1 = Returns (Some (Py.join " " (f :: fs)))) /\
  (fragments data = [] -> (search_web query st).1 = Returns None) /\
  (data = mocked_response ->
     (search_web query st).1 = Returns (Some "A B") /\
     occurs "A" "A B" /\ occurs "B" "A B" /\ Py.contains "C" "A B" = false).
Proof.
  intros Hkey Htruthy Hreply Hshape.
  rewrite (search_web_run query key data st Hkey Htruthy Hreply Hshape). simpl.
  split; [reflexivity|].
  split; [reflexivity|].
  split; [intros f fs Hf; unfold snippet_bundle; now rewrite Hf|].
  split; [intros Hnil; unfold snippet_bundle; now rewrite Hnil|].
  intros ->. split; [reflexivity|].
  split; [now exists "", " B"|].
  split; [now exists "A ", ""|reflexivity].
Qed.

Definition search_web_extracts_witness_state : State :=
  session Plain (with_search (fun _ => Returns mocked_response) quiet_world).

Lemma search_web_extracts_witness :
  (search_web "latest news" search_web_extracts_witness_state).1
  = Returns (snippet_bundle mocked_response) /\
  (search_web "latest news" search_web_extracts_witness_state).1 = Returns (Some "A B").
Proof.
  pose proof (search_web_extracts "latest news" "serper-key" mocked_response
                search_web_extracts_witness_state
                eq_refl eq_refl eq_refl eq_refl) as (H1 & _ & _ & _ & H5).
  split; [exact H1 | exact (proj1 (H5 eq_refl))].
Defined.

(** Only the first two organic results are looked at: an empty snippet among
    them is not replaced by a later one. *)
Example search_web_skips_empty :
  snippet_bundle
    (JObj {[ "knowledgeGraph" := JObj {[ "description" := JStr "K" ]};
             "organic" := JArr [ JObj {[ "snippet" := JStr "" ]};
                                 JObj {[ "title" := JStr "t"; "snippet" := JStr "B" ]};
                                 JObj {[ "snippet" := JStr "C" ]} ] ]})
  = Some "K B".
Proof. vm_compute. reflexivity. Qed.

(** Whatever was parsed, [search_web] raises no [Exception]: a response of
    another shape is reported on the console and yields [None]. *)
Lemma search_web_malformed (query : string) :
  (search_web query
     (session Plain (with_search (fun _ => Returns (JObj {[ "organic" := JInt 5 ]}))
                       quiet_world))).1
  = Returns None.
Proof. vm_compute. reflexivity. Qed.

(** C3.  Without a search credential [search_web] returns [None] at once,
    whatever the query: nothing is requested, nothing is printed, no error is
    raised, and the state is left as it was. *)
Theorem search_web_without_credential (query : string) (st : State) :
  SERPER_API_KEY (world st) = None ->
  search_web query st = (Returns None, st).
Proof.
  intros Hkey.
  unfold search_web, try_except, bind, getenv, gets. simpl.
  now rewrite Hkey.
Qed.

Definition search_web_without_credential_witness_state : State :=
  session Conda (with_keys (Some "google-key") None quiet_world).

Lemma search_web_without_credential_witness :
  search_web "latest cricket match schedule" search_web_without_credential_witness_state
  = (Returns None, search_web_without_credential_witness_state).
Proof.
  exact (search_web_without_credential "latest cricket match schedule"
           search_web_without_credential_witness_state eq_refl).
Defined.

(** An empty credential counts as none. *)
Lemma search_web_empty_credential (query : string) (st : State) :
  SERPER_API_KEY (world st) = Some "" ->
  search_web query st = (Returns None, st).
Proof.
  intros Hkey.
  unfold search_web, try_except, bind, getenv, gets. simpl.
  now rewrite Hkey.
Qed.

(** ** Reasoning about computations *)

(** *** Computations that let no [Exception] escape *)

(** Whatever [m] raises is not an [Exception]: only an interrupt gets out. *)
Definition contained {A} (m : M A) : Prop :=
  forall st e st', m st = (Raises e, st') -> is_Exception e = false.

Lemma contained_ret {A} (a : A) : contained (ret a).
Proof. intros st e st' H. discriminate H. Qed.

Lemma contained_gets {A} (f : State -> A) : contained (gets f).
Proof. intros st e st' H. discriminate H. Qed.

Lemma contained_emit (ev : event) : contained (emit ev).
Proof. intros st e st' H. discriminate H. Qed.

Lemma contained_set_self (f : Bot -> Bot) : contained (set_self f).
Proof. intros st e st' H. discriminate H. Qed.

Lemma contained_bind {A B} (m : M A) (f : A -> M B) :
  contained m -> (forall a, contained (f a)) -> contained (bind m f).
Proof.
  intros Hm Hf st e st'. unfold bind.
  destruct (m st) as [[a|e0] st0] eqn:Em.
  - apply Hf.
  - intros H. injection H as <- <-. exact (Hm _ _ _ Em).
Qed.

(** A [try] whose clauses catch every [Exception] contains them, if the
    clauses themselves do. *)
Lemma contained_try {A} (body : M A) (handler : exn -> option (M A)) :
  (forall e, is_Exception e = true -> handler e <> None) ->
  (forall e h, handler e = Some h -> contained h) ->
  contained (try_except body handler).
Proof.
  intros Hall Hh st e st'. unfold try_except.
  destruct (body st) as [[a|e0] st0]; [discriminate|].
  destruct (handler e0) as [h|] eqn:Eh.
  - exact (Hh e0 h Eh st0 e st').
  - intros H. injection H as <- <-.
    destruct (is_Exception e0) eqn:Ee; [|reflexivity].
    now destruct (Hall e0 Ee).
Qed.

Lemma contained_if {A} (b : bool) (m1 m2 : M A) :
  contained m1 -> contained m2 -> contained (if b then m1 else m2).
Proof. now destruct b. Qed.

(** *** Frames: what a computation leaves alone *)

(** A relation between the state before and the state after: a preorder
    that printing and requesting respect, as do the calls of the services
    in [allowed] and, when [mutable] holds, assignments to attributes. *)
Record Frame := {
  rel :> State -> State -> Prop;
  allowed : service -> bool;
  mutable : bool;
  rel_refl : forall st, rel st st;
  rel_trans : forall a b c, rel a b -> rel b c -> rel a c;
  rel_emit : forall ev st, rel st (emit ev st).2;
  rel_call : forall s, allowed s = true -> forall st, rel st (called s st);
  rel_self : mutable = true -> forall f st, rel st (set_self f st).2 }.

Definition respects {A} (F : Frame) (m : M A) : Prop := forall st, F st (m st).2.

Section FrameRules.

Context (F : Frame).

Lemma respects_ret {A} (a : A) : respects F (ret a).
Proof. intros st. apply rel_refl. Qed.

Lemma respects_gets {A} (f : State -> A) : respects F (gets f).
Proof. intros st. apply rel_refl. Qed.

Lemma respects_raise {A} (e : exn) : respects F (raise (A:=A) e).
Proof. intros st. apply rel_refl. Qed.

Lemma respects_lift {A} (r : result A) : respects F (lift r).
Proof. intros st. apply rel_refl. Qed.

Lemma respects_attr {A} (name : string) (field : Bot -> option A) :
  respects F (attr name field).
Proof. intros st. unfold attr. destruct (field (self st)); apply rel_refl. Qed.

Lemma respects_emit (ev : event) : respects F (emit ev).
Proof. intros st. apply rel_emit. Qed.

Lemma respects_call {A} (s : service) (oracle : World -> nat -> result A) :
  allowed F s = true -> respects F (call s oracle).
Proof. intros Hs st. now apply rel_call. Qed.

Lemma respects_set_self (f : Bot -> Bot) :
  mutable F = true -> respects F (set_self f).
Proof. intros Hm st. now apply rel_self. Qed.

Lemma respects_bind {A B} (m : M A) (f : A -> M B) :
  respects F m -> (forall a, respects F (f a)) -> respects F (bind m f).
Proof.
  intros Hm Hf st. unfold bind.
  specialize (Hm st). destruct (m st) as [[a|e] st0]; simpl in Hm.
  - exact (rel_trans F _ _ _ Hm (Hf a st0)).
  - exact Hm.
Qed.

Lemma respects_try {A} (body : M A) (handler : exn -> option (M A)) :
  respects F body ->
  (forall e h, handler e = Some h -> respects F h) ->
  respects F (try_except body handler).
Proof.
  intros Hb Hh st. unfold try_except.
  specialize (Hb st). destruct (body st) as [[a|e] st0]; simpl in Hb; [exact Hb|].
  destruct (handler e) as [h|] eqn:Eh; [|exact Hb].
  exact (rel_trans F _ _ _ Hb (Hh e h Eh st0)).
Qed.

End FrameRules.

(** The object and the world stay as they are. *)
Definition same_session : Frame.
Proof.
  refine {| rel := fun st st' => self st' = self st /\ world st' = world st;
            allowed := fun _ => true;
            mutable := false |}.
  - now intros st.
  - intros a b c [H1 H2] [H3 H4]. split; congruence.
  - now intros ev st.
  - now intros s _ st.
  - discriminate.
Defined.

(** Service [s] is not called. *)
Definition uncalled (s : service) : Frame.
Proof.
  refine {| rel := fun st st' => calls st' s = calls st s;
            allowed := fun s' => negb (bool_decide (s' = s));
            mutable := true |}.
  - now intros st.
  - intros a b c H1 H2. congruence.
  - now intros ev st.
  - intros s' Hs st. simpl. unfold bump.
    destruct (decide (s = s')) as [->|]; [|reflexivity].
    now rewrite bool_decide_eq_true_2 in Hs.
  - now intros _ f st.
Defined.

(** What was printed and requested stays in the trace. *)
Definition trace_grows : Frame.
Proof.
  refine {| rel := fun st st' => forall ev, ev ∈ trace st -> ev ∈ trace st';
            allowed := fun _ => true;
            mutable := true |}.
  - now intros st.
  - intros a b c H1 H2 ev Hev. auto.
  - intros ev st ev' Hev. simpl. now right.
  - now intros s _ st.
  - now intros _ f st.
Defined.

(** Unfold the clauses of a [try] that was found to catch [e]. *)
Ltac clauses H :=
  cbv beta iota delta
    [except_Exception is_Exception listen_handlers loop_handlers main_handlers] in H;
  try discriminate H;
  injection H as <-.

Ltac contained_step :=
  lazymatch goal with
  | |- contained (bind _ _) => apply contained_bind; [|intros ?]
  | |- contained (ret _) => apply contained_ret
  | |- contained (gets _) => apply contained_gets
  | |- contained (getenv _) => apply contained_gets
  | |- contained (emit _) => apply contained_emit
  | |- contained (print _) => apply contained_emit
  | |- contained (write _) => apply contained_emit
  | |- contained (set_self _) => apply contained_set_self
  | |- contained (try_except _ _) =>
      apply contained_try;
      [ intros [] Hexc;
        cbv beta iota delta
          [except_Exception is_Exception listen_handlers loop_handlers main_handlers]
          in Hexc |- *;
        try discriminate Hexc; discriminate
      | intros [] ? Hclause; clauses Hclause ]
  | |- contained (if ?b then _ else _) => destruct b
  | |- contained (match ?x with _ => _ end) => destruct x
  | |- contained (let _ := _ in _) => cbv zeta
  end.

Ltac respects_step :=
  lazymatch goal with
  | |- respects _ (bind _ _) => apply respects_bind; [|intros ?]
  | |- respects _ (ret _) => apply respects_ret
  | |- respects _ (gets _) => apply respects_gets
  | |- respects _ (getenv _) => apply respects_gets
  | |- respects _ (raise _) => apply respects_raise
  | |- respects _ (lift _) => apply respects_lift
  | |- respects _ (attr _ _) => apply respects_attr
  | |- respects _ (emit _) => apply respects_emit
  | |- respects _ (print _) => apply respects_emit
  | |- respects _ (write _) => apply respects_emit
  | |- respects _ (call _ _) =>
      apply respects_call; first [assumption | reflexivity | solve [auto]]
  | |- respects _ (set_self _) => apply respects_set_self; first [assumption | reflexivity]
  | |- respects _ (try_except _ _) =>
      apply respects_try; [| intros [] ? Hclause; clauses Hclause ]
  | |- respects _ (if ?b then _ else _) => destruct b
  | |- respects _ (match ?x with _ => _ end) => destruct x
  | |- respects _ (let _ := _ in _) => cbv zeta
  end.

Create HintDb contained discriminated.
Create HintDb respects discriminated.

Ltac contained_auto := repeat first [contained_step | solve [eauto with contained]].
Ltac respects_auto := repeat first [respects_step | solve [eauto with respects]].

(** *** Running a computation against a postcondition *)

(** [Q] holds of what [m] returns or raises from [st], and of the state it
    leaves. *)
Definition post {A} (m : M A) (st : State) (Q : result A -> State -> Prop) : Prop :=
  Q (m st).1 (m st).2.

Lemma post_run {A} (m : M A) (st : State) (r : result A) (st' : State) :
  post m st (fun r0 st0 => r0 = r /\ st0 = st') <-> m st = (r, st').
Proof.
  unfold post. destruct (m st) as [r0 st0]; simpl.
  split; [intros [-> ->]; reflexivity | intros H; injection H as -> ->; now split].
Qed.

Lemma post_known {A} (m : M A) (st : State) (r : result A) (st' : State)
    (Q : result A -> State -> Prop) :
  m st = (r, st') -> Q r st' -> post m st Q.
Proof. intros E HQ. unfold post. now rewrite E. Qed.

Lemma post_weaken {A} (m : M A) (st : State) (Q Q' : result A -> State -> Prop) :
  post m st Q -> (forall r st', Q r st' -> Q' r st') -> post m st Q'.
Proof. unfold post. auto. Qed.

Lemma post_ret {A} (a : A) (st : State) (Q : result A -> State -> Prop) :
  Q (Returns a) st -> post (ret a) st Q.
Proof. exact id. Qed.

Lemma post_raise {A} (e : exn) (st : State) (Q : result A -> State -> Prop) :
  Q (Raises e) st -> post (raise e) st Q.
Proof. exact id. Qed.

Lemma post_lift {A} (r : result A) (st : State) (Q : result A -> State -> Prop) :
  Q r st -> post (lift r) st Q.
Proof. exact id. Qed.

Lemma post_gets {A} (f : State -> A) (st : State) (Q : result A -> State -> Prop) :
  Q (Returns (f st)) st -> post (gets f) st Q.
Proof. exact id. Qed.

Lemma post_emit (ev : event) (st : State) (Q : result unit -> State -> Prop) :
  Q (Returns tt) (logged ev st) -> post (emit ev) st Q.
Proof. exact id. Qed.

Lemma post_set_self (f : Bot -> Bot) (st : State) (Q : result unit -> State -> Prop) :
  Q (Returns tt) (set_self f st).2 -> post (set_self f) st Q.
Proof. exact id. Qed.

Lemma post_call {A} (s : service) (oracle : World -> nat -> result A) (st : State)
    (Q : result A -> State -> Prop) :
  Q (oracle (world st) (calls st s)) (called s st) -> post (call s oracle) st Q.
Proof. exact id. Qed.

Lemma post_attr {A} (name : string) (field : Bot -> option A) (st : State)
    (Q : result A -> State -> Prop) :
  match field (self st) with
  | Some x => Q (Returns x) st
  | None =>
      Q (Raises (AttributeError
           ("'CompleteVoiceChatbot' object has no attribute '" +:+ name +:+ "'"))) st
  end ->
  post (attr name field) st Q.
Proof. unfold post, attr. now destruct (field (self st)). Qed.

Lemma post_bind {A B} (m : M A) (f : A -> M B) (st : State)
    (Q : result B -> State -> Prop) :
  post m st (fun r st' =>
    match r with
    | Returns a => post (f a) st' Q
    | Raises e => Q (Raises e) st'
    end) ->
  post (bind m f) st Q.
Proof. unfold post, bind. destruct (m st) as [[a|e] st']; exact id. Qed.

Lemma post_try {A} (body : M A) (handler : exn -> option (M A)) (st : State)
    (Q : result A -> State -> Prop) :
  post body st (fun r st' =>
    match r with
    | Returns a => Q (Returns a) st'
    | Raises e =>
        match handler e with
        | Some h => post h st' Q
        | None => Q (Raises e) st'
        end
    end) ->
  post (try_except body handler) st Q.
Proof.
  unfold post, try_except. destruct (body st) as [[a|e] st']; simpl; [exact id|].
  destruct (handler e); exact id.
Qed.



(** Read the fields of a state built by [logged] and [called]. *)
Ltac state_simpl :=
  cbn [self world calls trace logged called printed after_read set_self fst snd
       voice_input recognizer microphone tts tts_engine api_key chatbot];
  repeat match goal with
    | H : self ?s = _ |- context [self ?s] => rewrite H
    | H : world ?s = _ |- context [world ?s] => rewrite H
    | H : calls ?s ?x = _ |- context [calls ?s ?x] => rewrite H
    | |- context [bump ?s ?c ?s'] =>
        let same := eval vm_compute in (bool_decide (s' = s)) in
        lazymatch same with
        | true => change (bump s c s') with (S (c s'))
        | false => change (bump s c s') with (c s')
        end
    end.

(** One step of running the computation in the goal. *)
Ltac post_step :=
  lazymatch goal with
  | |- post (bind _ _) _ _ => apply post_bind
  | |- post (try_except _ _) _ _ => apply post_try
  | |- post (ret _) _ _ => apply post_ret
  | |- post (raise _) _ _ => apply post_raise
  | |- post (lift _) _ _ => apply post_lift
  | |- post (gets _) _ _ => apply post_gets
  | |- post (getenv _) _ _ => apply post_gets
  | |- post (emit _) _ _ => apply post_emit
  | |- post (print _) _ _ => apply post_emit
  | |- post (write _) _ _ => apply post_emit
  | |- post (set_self _) _ _ => apply post_set_self
  | |- post (call _ _) _ _ => apply post_call
  | |- post (attr _ _) _ _ => apply post_attr
  end; cbv beta; state_simpl.

Lemma not_exception (e : exn) : is_Exception e = false -> e = KeyboardInterrupt.
Proof. now destruct e. Qed.

Lemma loop_handlers_catch (e : exn) :
  is_Exception e = true ->
  loop_handlers e =
  Some (bind (print ("Error: " +:+ str_exn e))
          (fun _ => bind (print "Please try again or type 'quit' to exit")
                      (fun _ => ret Continue))).
Proof. now destruct e. Qed.

(** [x] is a constructor applied to arguments. *)
Ltac is_cons_headed x :=
  let h := lazymatch x with
           | ?f _ _ _ => f | ?f _ _ => f | ?f _ => f | ?f => f end in
  is_constructor h.

(** Decide the scrutinee [x] from the hypotheses, or split on it. *)
Ltac settle x :=
  first
    [ match goal with H : x = _ |- _ => rewrite H end
    | lazymatch x with
      | negb ?b => first [is_cons_headed b; cbn [negb] | settle b]
      | andb ?a ?b => first [is_cons_headed a; cbn [andb] | settle a | settle b]
      | (if ?b then _ else _) => settle b
      | except_Exception _ _ => unfold except_Exception
      | is_Exception ?e =>
          first
            [ is_cons_headed e; cbn [is_Exception]
            | let H := fresh "Hexc" in
              destruct (is_Exception e) eqn:H; [| apply not_exception in H; subst e] ]
      | loop_handlers ?e =>
          first
            [ is_cons_headed e; cbn [loop_handlers]
            | match goal with H : is_Exception e = true |- _ =>
                rewrite (loop_handlers_catch e H) end
            | let H := fresh "Hexc" in
              destruct (is_Exception e) eqn:H;
              [ rewrite (loop_handlers_catch e H)
              | apply not_exception in H; subst e; cbn [loop_handlers] ] ]
      | listen_handlers _ ?e =>
          first [is_cons_headed e; cbn [listen_handlers] | destruct e; cbn [listen_handlers]]
      | Py.truthy ?s => first [is_cons_headed s; cbn [Py.truthy] | destruct x eqn:?]
      | _ => first [is_cons_headed x; cbv beta iota | destruct x eqn:?]
      end ].

(** Run the computation in the goal as far as the hypotheses decide it,
    splitting on what they leave open. *)
Ltac post_run :=
  repeat first
    [ post_step
    | lazymatch goal with
      | |- post (if ?b then _ else _) _ _ => settle b
      | |- post (match ?x with _ => _ end) _ _ => settle x
      | |- match ?x with _ => _ end => settle x
      | |- post (let _ := _ in _) _ _ => cbv zeta
      | |- post (speak _) _ _ => unfold speak
      | |- post (say _) _ _ => unfold say
      | |- post (invoke _) _ _ => unfold invoke
      | |- post (requests_post _ _ _ _ _) _ _ => unfold requests_post
      | |- post (input _) _ _ => unfold input
      | |- post (new_microphone _) _ _ => unfold new_microphone
      | |- post (enter_microphone _) _ _ => unfold enter_microphone
      | |- post adjust_for_ambient_noise _ _ => unfold adjust_for_ambient_noise
      | |- post (recognizer_listen _ _) _ _ => unfold recognizer_listen
      | |- post recognize_google _ _ => unfold recognize_google
      | |- post (set_voice_input _) _ _ => unfold set_voice_input
      | |- post (set_recognizer _) _ _ => unfold set_recognizer
      | |- post (set_microphone _) _ _ => unfold set_microphone
      | |- post (set_tts _) _ _ => unfold set_tts
      | |- post (set_tts_engine _) _ _ => unfold set_tts_engine
      | |- post (set_api_key _) _ _ => unfold set_api_key
      | |- post (set_chatbot _) _ _ => unfold set_chatbot
      | |- post (setProperty _) _ _ => unfold setProperty
      | |- post new_recognizer _ _ => unfold new_recognizer
      | |- post (try_sources _ (_ :: _)) _ _ => cbn [try_sources]
      | |- post (try_sources _ []) _ _ => cbn [try_sources]
      end ].

(** An event that the trace shows. *)
Ltac in_trace :=
  cbn [self world calls trace logged called printed after_read];
  repeat first [left | right].

(** Two facts about one run. *)
Lemma post_and {A} (m : M A) (st : State) (Q1 Q2 : result A -> State -> Prop) :
  post m st Q1 -> post m st Q2 -> post m st (fun r st' => Q1 r st' /\ Q2 r st').
Proof. unfold post. auto. Qed.

(** What a computation that contains its failures may still raise. *)
Lemma contained_post {A} (m : M A) (st : State) :
  contained m ->
  post m st (fun r _ => match r with Raises e => e = KeyboardInterrupt | Returns _ => True end).
Proof.
  intros H. unfold post. destruct (m st) as [[a|e] st'] eqn:E; [exact I|].
  simpl. apply not_exception. exact (H st e st' E).
Qed.


(** *** The methods contain their failures *)

Lemma speak_contained (text : string) : contained (speak text).
Proof. unfold speak. contained_auto. Qed.
#[export] Hint Resolve speak_contained : contained.

Lemma try_sources_contained (sources : list Microphone) (i : nat) :
  contained (try_sources i sources).
Proof.
  revert i. induction sources as [|mic rest IH]; intros i; simpl.
  - apply contained_ret.
  - contained_auto.
Qed.
#[export] Hint Resolve try_sources_contained : contained.

Lemma listen_contained (fl : flavour) : contained (listen fl).
Proof. unfold listen. contained_auto. Qed.
#[export] Hint Resolve listen_contained : contained.

Lemma search_web_contained (query : string) : contained (search_web query).
Proof. unfold search_web. contained_auto. Qed.
#[export] Hint Resolve search_web_contained : contained.

Lemma get_response_contained (question : string) : contained (get_response question).
Proof. unfold get_response. contained_auto. Qed.
#[export] Hint Resolve get_response_contained : contained.

Lemma process_question_contained (user_input : string) :
  contained (process_question user_input).
Proof. unfold process_question. contained_auto. Qed.
#[export] Hint Resolve process_question_contained : contained.

Lemma iteration_contained (fl : flavour) : contained (iteration fl).
Proof. unfold iteration. contained_auto. Qed.
#[export] Hint Resolve iteration_contained : contained.

Lemma run_single_command_contained (command : string) :
  contained (run_single_command command).
Proof. unfold run_single_command. contained_auto. Qed.
#[export] Hint Resolve run_single_command_contained : contained.

Lemma greeting_contained (fl : flavour) : contained (greeting fl).
Proof. unfold greeting. contained_auto. Qed.
#[export] Hint Resolve greeting_contained : contained.

(** *** What the methods leave alone *)

Section MethodFrames.

Context (F : Frame).

Lemma speak_respects (text : string) :
  allowed F Synthesis = true -> respects F (speak text).
Proof. intros ?. unfold speak, say. respects_auto. Qed.

Lemma try_sources_respects (sources : list Microphone) (i : nat) :
  allowed F EnterMicrophone = true -> allowed F AmbientNoise = true ->
  allowed F Recording = true -> allowed F Recognition = true ->
  respects F (try_sources i sources).
Proof.
  intros ? ? ? ?. revert i. induction sources as [|mic rest IH]; intros i; simpl.
  - apply respects_ret.
  - unfold enter_microphone, adjust_for_ambient_noise, recognizer_listen, recognize_google.
    respects_auto.
Qed.

Lemma listen_respects (fl : flavour) :
  allowed F NewMicrophone = true ->
  allowed F EnterMicrophone = true -> allowed F AmbientNoise = true ->
  allowed F Recording = true -> allowed F Recognition = true ->
  respects F (listen fl).
Proof.
  intros ? ? ? ? ?.
  unfold listen, new_microphone, enter_microphone, recognizer_listen, recognize_google.
  pose proof try_sources_respects.
  respects_auto.
Qed.

Lemma search_web_respects (query : string) :
  allowed F SearchApi = true -> respects F (search_web query).
Proof. intros ?. unfold search_web, requests_post. respects_auto. Qed.

Lemma get_response_respects (question : string) :
  allowed F SearchApi = true -> allowed F Clock = true -> allowed F ChatApi = true ->
  respects F (get_response question).
Proof.
  intros ? ? ?. unfold get_response, invoke.
  pose proof search_web_respects. respects_auto.
Qed.


Lemma run_single_command_respects (command : string) :
  allowed F SearchApi = true -> allowed F Clock = true -> allowed F ChatApi = true ->
  allowed F Synthesis = true ->
  respects F (run_single_command command).
Proof.
  intros ? ? ? ?. unfold run_single_command, say.
  pose proof get_response_respects. respects_auto.
Qed.

Lemma greeting_respects (fl : flavour) :
  allowed F Synthesis = true -> respects F (greeting fl).
Proof. intros ?. unfold greeting. pose proof speak_respects. respects_auto. Qed.


Lemma init_respects (fl : flavour) :
  allowed F NewRecognizer = true -> allowed F NewMicrophone = true ->
  allowed F EnterMicrophone = true -> allowed F AmbientNoise = true ->
  allowed F NewEngine = true -> allowed F NewChatModel = true ->
  mutable F = true ->
  respects F (CompleteVoiceChatbot fl).
Proof.
  intros ? ? ? ? ? ? ?.
  unfold CompleteVoiceChatbot, __init__, new_recognizer, new_microphone, enter_microphone,
    adjust_for_ambient_noise, setProperty, set_voice_input, set_recognizer, set_microphone,
    set_tts, set_tts_engine, set_api_key, set_chatbot.
  respects_auto.
Qed.

End MethodFrames.
(** ** C4: a failed capture falls back to typed input *)

(** Every [Exception] is caught by a clause of [listen] that prints one line
    and returns [None]. *)
Lemma listen_handlers_catch (fl : flavour) (e : exn) :
  is_Exception e = true ->
  exists text, listen_handlers fl e = Some (bind (print text) (fun _ => ret None)).
Proof. destruct e; try discriminate; intros _; simpl; eauto. Qed.

Lemma listen_plain_fails (st : State) :
  voice_input (self st) = true -> capture_fails Plain st ->
  post (listen Plain) st (fun r _ => r = Returns None).
Proof.
  intros Hv (s & e & He & Hf).
  destruct (listen_handlers_catch Plain e He) as [text Hcatch].
  unfold listen, enter_microphone, recognizer_listen, recognize_google.
  destruct s; cbn in Hf;
    [ | destruct Hf as (Hfl & _); discriminate Hfl
      | destruct Hf as (? & _ & ?) | destruct Hf as (? & _ & ? & ?) ];
    post_run; reflexivity.
Qed.

Lemma below_four (P : nat -> Prop) :
  (forall k, k < 4 -> P k) -> P 0 /\ P 1 /\ P 2 /\ P 3.
Proof. intros H. repeat split; apply H; lia. Qed.

(** Two counters that agree on the services of an attempt. *)
Definition agree (c c' : service -> nat) : Prop :=
  c EnterMicrophone = c' EnterMicrophone /\ c AmbientNoise = c' AmbientNoise
  /\ c Recording = c' Recording /\ c Recognition = c' Recognition.

Lemma attempts_fail_agree (w : World) (modes : list (stage * exn)) :
  forall c c', agree c c' -> attempts_fail w c modes -> attempts_fail w c' modes.
Proof.
  induction modes as [|[s e] rest IH]; intros c c' (H1 & H2 & H3 & H4); [trivial|].
  cbn [attempts_fail]. intros (He & Hf & Hrest). split; [exact He|]. split.
  - destruct s; cbn in Hf |- *; now rewrite <- ?H1, <- ?H2, <- ?H3, <- ?H4.
  - apply (IH (after_attempt c s)); [|exact Hrest].
    unfold agree, after_attempt. destruct s; cbn [reached]; now rewrite H1, H2, H3, H4.
Qed.

(** Sources that fail one after the other leave the loop of the Conda file
    without a text. *)
Lemma try_sources_fail (rec : Recognizer) (sources : list Microphone) :
  forall (modes : list (stage * exn)) (i : nat) (st : State),
    recognizer (self st) = Some rec ->
    length modes = length sources ->
    attempts_fail (world st) (calls st) modes ->
    post (try_sources i sources) st (fun r _ => r = Returns None).
Proof.
  induction sources as [|mic rest IH]; intros modes i st Hrec Hlen Hfail.
  - cbn [try_sources]. post_run. reflexivity.
  - destruct modes as [|[s e] modes]; [discriminate Hlen|].
    injection Hlen as Hlen. destruct Hfail as (He & Hf & Hrest).
    cbn [try_sources].
    unfold enter_microphone, adjust_for_ambient_noise, recognizer_listen, recognize_google.
    destruct s; cbn in Hf;
      [ | destruct Hf as (_ & ? & ?) | destruct Hf as (? & ? & ?)
        | destruct Hf as (? & ? & ? & ?) ];
      post_run;
      (eapply (IH modes); [state_simpl; exact Hrec | exact Hlen |]);
      (eapply attempts_fail_agree; [|exact Hrest]);
      unfold agree, after_attempt; cbn [reached]; state_simpl; repeat split.
Qed.

(** Without a recognizer every attempt fails after entering the device. *)
Lemma try_sources_without_recognizer (sources : list Microphone) :
  forall (modes : list (stage * exn)) (c : service -> nat) (i : nat) (st : State),
    recognizer (self st) = None ->
    length modes = length sources ->
    attempts_fail (world st) c modes ->
    c EnterMicrophone = calls st EnterMicrophone ->
    post (try_sources i sources) st (fun r _ => r = Returns None).
Proof.
  induction sources as [|mic rest IH]; intros modes c i st Hrec Hlen Hfail Hc.
  - cbn [try_sources]. post_run. reflexivity.
  - destruct modes as [|[s e] modes]; [discriminate Hlen|].
    injection Hlen as Hlen. destruct Hfail as (He & Hf & Hrest).
    cbn [try_sources].
    unfold enter_microphone, adjust_for_ambient_noise, recognizer_listen, recognize_google.
    destruct s; cbn in Hf; rewrite Hc in Hf;
      [ | destruct Hf as (_ & ? & _) | destruct Hf as (? & _)
        | destruct Hf as (? & _) ];
      post_run;
      (eapply (IH modes); [state_simpl; exact Hrec | exact Hlen | exact Hrest |]);
      unfold after_attempt; cbn [reached]; state_simpl; now rewrite Hc.
Qed.

Lemma listen_conda_fails (st : State) :
  voice_input (self st) = true -> capture_fails Conda st ->
  post (listen Conda) st (fun r _ => r = Returns None).
Proof.
  intros Hv Hf. unfold capture_fails in Hf.
  unfold listen, new_microphone.
  destruct Hf as [(k & e & Hk & He & Hok & Hbad) | [Hok (modes & Hlen & Hfail)]].
  - destruct (listen_handlers_catch Conda e He) as [text Hcatch].
    assert (k = 0 \/ k = 1 \/ k = 2 \/ k = 3) as [-> | [-> | [-> | ->]]] by lia;
      try pose proof (Hok 0 ltac:(lia)) as Hok0;
      try pose proof (Hok 1 ltac:(lia)) as Hok1;
      try pose proof (Hok 2 ltac:(lia)) as Hok2;
      clear Hok; simpl in *; post_run; reflexivity.
  - apply below_four in Hok. simpl in Hok. destruct Hok as (Hok0 & Hok1 & Hok2 & Hok3).
    set (ts := try_sources). post_run. subst ts.
    eapply post_weaken.
    + destruct (recognizer (self st)) as [rec|] eqn:Hrec.
      * eapply (try_sources_fail rec _ modes); [state_simpl; exact Hrec | exact Hlen |].
        eapply attempts_fail_agree; [|exact Hfail].
        unfold agree. state_simpl. repeat split.
      * eapply (try_sources_without_recognizer _ modes (calls st));
          [state_simpl; exact Hrec | exact Hlen | exact Hfail |].
        state_simpl. reflexivity.
    + intros r st' ->. post_run. reflexivity.
Qed.

Lemma post_returns {A} (m : M A) (st : State) (a : A) :
  post m st (fun r _ => r = Returns a) -> exists st1, m st = (Returns a, st1).
Proof.
  unfold post. destruct (m st) as [r st1]; simpl. intros ->. now exists st1.
Qed.

(** *** These are all the failures *)

Ltac units := repeat match goal with a : unit |- _ => destruct a end.

(** A failed attempt at the head of the attempts that failed after it. *)
Ltac failed_at s modes Hfail :=
  match goal with
  | Hexc : is_Exception ?e = true |- _ =>
      exists ((s, e) :: modes);
      (split; [cbn [length]; congruence|]);
      cbn [attempts_fail]; (split; [exact Hexc|]);
      (split; [cbn; repeat split; assumption|]);
      (eapply attempts_fail_agree; [|exact Hfail]);
      unfold agree, after_attempt; cbn [reached]; state_simpl; repeat split
  end.

Ltac failed_attempt modes Hfail :=
  first [ solve [failed_at Entering modes Hfail] | solve [failed_at Calibrating modes Hfail]
        | solve [failed_at Capturing modes Hfail] | solve [failed_at Recognizing modes Hfail] ].

(** When the loop of the Conda file ends without a text, every source has
    failed. *)
Lemma try_sources_none (rec : Recognizer) (sources : list Microphone) :
  forall (i : nat) (st : State),
    recognizer (self st) = Some rec ->
    post (try_sources i sources) st (fun r _ =>
      r = Returns None ->
      exists modes, length modes = length sources
                    /\ attempts_fail (world st) (calls st) modes).
Proof.
  induction sources as [|mic rest IH]; intros i st Hrec.
  - cbn [try_sources]. post_run. intros _. now exists [].
  - cbn [try_sources].
    unfold enter_microphone, adjust_for_ambient_noise, recognizer_listen, recognize_google.
    post_run; try (intros Hr; discriminate Hr);
      (eapply post_weaken; [apply IH; state_simpl; exact Hrec|]);
      cbv beta; intros r st' Hrest Hr; destruct (Hrest Hr) as (modes & Hlen & Hfail);
      units; failed_attempt modes Hfail.
Qed.

(** The microphone number [k] could not be built. *)
Ltac failed_microphone k :=
  exists k; eexists; (split; [lia|]);
  (split; [|split; [|simpl; eassumption]]); [reflexivity|];
  intros j Hj; destruct j as [|[|[|j]]]; simpl; first [assumption | lia].

(** On a session whose handles are assigned, a capture that yields nothing
    has failed in one of the ways of [capture_fails]. *)
Lemma listen_none_is_failure (fl : flavour) (st : State) (rec : Recognizer) :
  voice_input (self st) = true ->
  recognizer (self st) = Some rec ->
  (fl = Plain -> exists mic, microphone (self st) = Some mic) ->
  post (listen fl) st (fun r _ => r = Returns None -> capture_fails fl st).
Proof.
  intros Hv Hrec Hmic. destruct fl.
  - destruct (Hmic eq_refl) as [mic Hmic']. clear Hmic.
    unfold listen, enter_microphone, recognizer_listen, recognize_google.
    post_run; intros Hr; try discriminate Hr; units; unfold capture_fails;
      first
        [ solve [exists Entering; eexists; (split; [|cbn; eassumption]); reflexivity]
        | solve [exists Capturing; eexists;
                 (split; [|cbn; repeat split; eassumption]); reflexivity]
        | solve [exists Recognizing; eexists;
                 (split; [|cbn; repeat split; eassumption]); reflexivity] ].
  - clear Hmic. unfold listen, new_microphone.
    set (ts := try_sources).
    post_run; try subst ts;
      try solve
        [ intros Hr; discriminate Hr
        | intros _; units; left;
          first
            [ solve [failed_microphone 0] | solve [failed_microphone 1]
            | solve [failed_microphone 2] | solve [failed_microphone 3] ] ].
    eapply post_weaken;
      [apply post_and;
         [apply (try_sources_none rec); state_simpl; exact Hrec
         |apply contained_post, try_sources_contained]|].
    cbv beta. intros r st' [Hnone Hcont].
    destruct r as [[text|]|e]; [| |subst e]; post_run; intros Hr; try discriminate Hr.
    destruct (Hnone eq_refl) as (modes & Hlen & Hfail). units.
    right. split.
    + intros k Hk. destruct k as [|[|[|[|k]]]]; simpl; first [assumption | lia].
    + exists modes. split; [exact Hlen|].
      eapply attempts_fail_agree; [|exact Hfail].
      unfold agree. state_simpl. repeat split.
Qed.

(** [listen] touches neither the object, the world nor the terminal. *)
Lemma listen_frame (fl : flavour) (st : State) :
  self (listen fl st).2 = self st /\
  world (listen fl st).2 = world st /\
  calls (listen fl st).2 Stdin = calls st Stdin /\
  calls (listen fl st).2 ChatApi = calls st ChatApi.
Proof.
  pose proof (listen_respects same_session fl eq_refl eq_refl eq_refl eq_refl eq_refl st)
    as [Hself Hworld].
  pose proof (listen_respects (uncalled Stdin) fl eq_refl eq_refl eq_refl eq_refl eq_refl st)
    as Hstdin.
  pose proof (listen_respects (uncalled ChatApi) fl eq_refl eq_refl eq_refl eq_refl eq_refl st)
    as Hchat.
  auto.
Qed.

(** When the capture yields nothing, [get_input] is [get_text_input] run
    after the notice. *)
Lemma get_input_falls_back (st st1 : State) (heard : option string) :
  voice_input (self st) = true ->
  listen Plain st = (Returns heard, st1) ->
  opt_truthy heard = false ->
  get_input true st = get_text_input (printed "Switching to text input..." st1).
Proof.
  intros Hv Hl Hnone. unfold get_input, bind at 1, gets. rewrite Hv. cbn [andb].
  unfold bind at 1. rewrite Hl.
  destruct heard as [text|]; [|reflexivity].
  simpl in Hnone. now rewrite Hnone.
Qed.

(** C4.  Whenever a capture fails (a timeout waiting for speech,
    unintelligible audio, a backend or device error, at whatever stage and,
    in the Conda file, on each of the four sources in a way of its own),
    [listen] returns [None] instead of raising, in both files.  [get_input]
    of the Plain file then prints its notice and behaves as
    [get_text_input]: the caller gets the value and the state a direct
    textual-input call gives, the stripped line that was typed.  These are
    all the failures: on a session whose handles are assigned, a capture
    that yields [None] has failed in one of these ways. *)
Theorem capture_failure_falls_back (fl : flavour) (st : State) :
  voice_input (self st) = true ->
  (capture_fails fl st ->
   exists st1,
     listen fl st = (Returns None, st1) /\
     world st1 = world st /\
     calls st1 Stdin = calls st Stdin /\
     (fl = Plain ->
        get_input true st = get_text_input (printed "Switching to text input..." st1) /\
        forall line,
          stdin (world st) (calls st Stdin) = Returns line ->
          (get_input true st).1 = Returns (Py.strip line))) /\
  (forall rec,
     recognizer (self st) = Some rec ->
     (fl = Plain -> exists mic, microphone (self st) = Some mic) ->
     (listen fl st).1 = Returns None ->
     capture_fails fl st).
Proof.
  intros Hv. split.
  - intros Hf.
    assert (Hpost : post (listen fl) st (fun r _ => r = Returns None)).
    { destruct fl; [now apply listen_plain_fails | now apply listen_conda_fails]. }
    apply post_returns in Hpost as [st1 Hl].
    destruct (listen_frame fl st) as (_ & Hworld & Hstdin & _).
    rewrite Hl in Hworld, Hstdin. simpl in Hworld, Hstdin.
    exists st1. repeat split; try assumption.
    + subst fl. now apply (get_input_falls_back st st1 None).
    + intros line Hline. subst fl.
      rewrite (get_input_falls_back st st1 None Hv Hl eq_refl).
      unfold get_text_input, input, bind, write, emit, call, ret, printed. simpl.
      rewrite Hworld, Hstdin, Hline. reflexivity.
  - intros rec Hrec Hmic. exact (listen_none_is_failure fl st rec Hv Hrec Hmic).
Qed.

Definition capture_failure_witness_state : State :=
  session Plain
    (with_recording
       (fun _ => Raises (WaitTimeoutError "listening timed out while waiting for phrase to start"))
       (with_stdin (fun _ => Returns "  what is the time  ") quiet_world)).

(** Four sources that fail in four ways: the default device cannot be
    opened, the second source times out, the third hears nothing
    intelligible, and for the fourth the recognition service is down. *)
Definition four_failures : State :=
  session Conda
    {| VOICE_INPUT_AVAILABLE := true;
       TTS_AVAILABLE := true;
       GOOGLE_API_KEY := Some "google-key";
       SERPER_API_KEY := Some "serper-key";
       stdin := fun _ => Raises (EOFError "EOF when reading a line");
       recognizer_ctor := fun _ => Returns tt;
       microphone_ctor := fun _ => Returns tt;
       microphone_enter := script [Raises (OtherException "Device unavailable")] (Returns tt);
       ambient_noise := fun _ => Returns tt;
       recording :=
         script [Raises (WaitTimeoutError "listening timed out")] (Returns tt);
       recognition :=
         script [Raises (UnknownValueError "")]
           (Raises (OtherException "recognition connection failed"));
       engine_ctor := fun _ => Returns tt;
       chat_model_ctor := fun _ => Returns tt;
       search_api := fun _ => Returns (JObj ∅);
       chat_api := fun _ => Returns "ok";
       synthesis := fun _ => Returns tt;
       clock := fun _ => "November 03, 2026" |}.

Lemma four_failures_fail : capture_fails Conda four_failures.
Proof.
  right. split; [intros k Hk; reflexivity|].
  exists [ (Entering, OtherException "Device unavailable");
           (Capturing, WaitTimeoutError "listening timed out");
           (Recognizing, UnknownValueError "");
           (Recognizing, OtherException "recognition connection failed") ].
  split; [reflexivity|]. vm_compute. repeat split.
Defined.

Lemma capture_failure_falls_back_witness :
  (listen Plain capture_failure_witness_state).1 = Returns None /\
  (get_input true capture_failure_witness_state).1 = Returns "what is the time" /\
  (listen Conda four_failures).1 = Returns None.
Proof.
  destruct (proj1 (capture_failure_falls_back Plain capture_failure_witness_state eq_refl)
              (ex_intro _ Capturing
                 (ex_intro _
                    (WaitTimeoutError "listening timed out while waiting for phrase to start")
                    (conj eq_refl (conj eq_refl (conj I eq_refl))))))
    as (st1 & Hl & _ & _ & Hin).
  destruct (proj1 (capture_failure_falls_back Conda four_failures eq_refl)
              four_failures_fail)
    as (st2 & Hl2 & _).
  split; [now rewrite Hl|]. split.
  - exact (proj2 (Hin eq_refl) "  what is the time  " eq_refl).
  - now rewrite Hl2.
Defined.

(** The same on the Conda file: no source hears anything. *)
Example listen_conda_all_sources_time_out :
  (listen Conda
     (session Conda
        (with_recording (fun _ => Raises (WaitTimeoutError "timed out")) quiet_world))).1
  = Returns None.
Proof. vm_compute. reflexivity. Qed.

(** ** C5: exit keywords end the session *)

Lemma exit_keyword_truthy (u : string) :
  Py.lower u ∈ exit_keywords -> Py.truthy u = true.
Proof.
  destruct u as [|c u]; [|reflexivity].
  intros H. unfold exit_keywords in H. simpl in H.
  repeat (apply elem_of_cons in H as [H|H]; [discriminate H|]).
  inversion H.
Qed.

(** How [while True] goes on from the outcome of one pass. *)
Lemma while_true_step (fuel : nat) (body : M flow) (st : State) :
  while_true (S fuel) body st =
  match body st with
  | (Returns Continue, st') => while_true fuel body st'
  | (Returns Break, st') => Some (Returns tt, st')
  | (Raises e, st') => Some (Raises e, st')
  end.
Proof. reflexivity. Qed.

Lemma exit_keyword_pass (fl : flavour) (st : State) (s : string) :
  stdin (world st) (calls st Stdin) = Returns s ->
  Py.lower (Py.strip s) ∈ exit_keywords ->
  post (iteration fl) st (fun r st' =>
    r <> Returns Continue /\
    Printed "Bot: Goodbye! Have a great day!" ∈ trace st' /\
    (tts (self st) = true -> tts_engine (self st) <> None ->
     Said "Goodbye! Have a great day!" ∈ trace st') /\
    (is_interrupt (synthesis (world st) (calls st Synthesis)) = false ->
     r = Returns Break /\ Printed "Goodbye!" ∈ trace st')).
Proof.
  intros Hs Hexit.
  pose proof (exit_keyword_truthy _ Hexit) as Htruthy.
  assert (Hb : bool_decide (Py.lower (Py.strip s) ∈ exit_keywords) = true)
    by now apply bool_decide_eq_true_2.
  unfold iteration, loop_body.
  post_run;
    (split; [discriminate|]); (split; [in_trace|]);
    (split; [intros Hon Hengine; try discriminate Hon;
             try (now destruct Hengine); in_trace|]);
    intros Hcalm; try discriminate Hcalm; (split; [reflexivity | in_trace]).
Qed.

(** C5.  When the line read is, once stripped and lower-cased, one of
    [quit], [exit], [stop], [goodbye], [bye], the pass through the loop
    prints and, with speech output and its engine, speaks the farewell and
    does not continue: the loop has ended after this pass, whatever fuel is
    left.  Unless the synthesizer is interrupted the pass ends with [break]
    after the second farewell line. *)
Theorem exit_keyword_ends_session (fl : flavour) (st : State) (s : string) :
  stdin (world st) (calls st Stdin) = Returns s ->
  Py.lower (Py.strip s) ∈ exit_keywords ->
  exists r st',
    iteration fl st = (r, st') /\
    r <> Returns Continue /\
    Printed "Bot: Goodbye! Have a great day!" ∈ trace st' /\
    (tts (self st) = true -> tts_engine (self st) <> None ->
     Said "Goodbye! Have a great day!" ∈ trace st') /\
    (is_interrupt (synthesis (world st) (calls st Synthesis)) = false ->
     r = Returns Break /\ Printed "Goodbye!" ∈ trace st') /\
    (forall fuel,
       while_true (S fuel) (iteration fl) st =
       Some (match r with Returns _ => Returns tt | Raises e => Raises e end, st')).
Proof.
  intros Hs Hexit.
  pose proof (exit_keyword_pass fl st s Hs Hexit) as Hpost. unfold post in Hpost.
  destruct (iteration fl st) as [r st'] eqn:Hit. simpl in Hpost.
  destruct Hpost as (Hnot & Hbye & Hsaid & Hcalm).
  exists r, st'. repeat split; try assumption; try (now apply Hcalm).
  intros fuel. rewrite while_true_step, Hit.
  destruct r as [[|]|e]; [now destruct Hnot | reflexivity | reflexivity].
Qed.

Lemma is_exit_keyword (u : string) :
  bool_decide (u ∈ exit_keywords) = true -> u ∈ exit_keywords.
Proof. apply bool_decide_eq_true_1. Qed.

Definition typed (line : string) : State :=
  session Plain (with_stdin (fun _ => Returns line) quiet_world).

Lemma exit_keyword_ends_session_witness :
  (iteration Plain (typed "QUIT")).1 = Returns Break /\
  (iteration Plain (typed "Bye")).1 = Returns Break /\
  (iteration Plain (typed "  goodbye  ")).1 = Returns Break /\
  while_true 1 (iteration Plain) (typed "  goodbye  ")
  = Some (Returns tt, (iteration Plain (typed "  goodbye  ")).2) /\
  Said "Goodbye! Have a great day!" ∈ trace (iteration Plain (typed "  goodbye  ")).2.
Proof.
  destruct (exit_keyword_ends_session Plain (typed "QUIT") "QUIT" eq_refl
              (is_exit_keyword (Py.lower (Py.strip "QUIT")) eq_refl))
    as (r1 & s1 & E1 & _ & _ & _ & K1 & _).
  destruct (exit_keyword_ends_session Plain (typed "Bye") "Bye" eq_refl
              (is_exit_keyword (Py.lower (Py.strip "Bye")) eq_refl))
    as (r2 & s2 & E2 & _ & _ & _ & K2 & _).
  destruct (exit_keyword_ends_session Plain (typed "  goodbye  ") "  goodbye  " eq_refl
              (is_exit_keyword (Py.lower (Py.strip "  goodbye  ")) eq_refl))
    as (r3 & s3 & E3 & _ & _ & S3 & K3 & W3).
  rewrite E1, E2, E3. simpl.
  destruct (K1 eq_refl) as [-> _], (K2 eq_refl) as [-> _], (K3 eq_refl) as [-> _].
  repeat split; [exact (W3 0)|].
  apply (S3 eq_refl). discriminate.
Defined.

(** A line of blanks is no command: the loop asks again. *)
Example blank_line_reprompts :
  (iteration Conda (session Conda (with_stdin (fun _ => Returns "   ") quiet_world))).1
  = Returns Continue.
Proof. vm_compute. reflexivity. Qed.

(** ** C6: failures are contained *)

(** The errors of the JSON operations are [Exception]s. *)
Definition proper {A} (r : result A) : Prop :=
  match r with Raises e => is_Exception e = true | Returns _ => True end.

Lemma proper_and_then {A B} (r : result A) (f : A -> result B) :
  proper r -> (forall a, proper (f a)) -> proper (and_then r f).
Proof. destruct r as [a|e]; simpl; auto. Qed.

Lemma proper_contains (key : string) (v : json) : proper (Json.contains key v).
Proof. destruct v; simpl; auto. Qed.

Lemma proper_subscript (v : json) (key : string) : proper (Json.subscript v key).
Proof. destruct v as [| | | | | |m]; simpl; auto. destruct (m !! key); simpl; auto. Qed.

Lemma proper_first_two (v : json) : proper (Json.first_two v).
Proof. destruct v; simpl; auto. Qed.

Lemma proper_get (v : json) (key : string) (dflt : json) : proper (Json.get v key dflt).
Proof. destruct v; simpl; auto. Qed.

Lemma proper_add_snippets (items : list json) (acc : result (list json)) :
  proper acc -> proper (foldl add_snippet acc items).
Proof.
  revert acc. induction items as [|item items IH]; intros acc Hacc; simpl; [exact Hacc|].
  apply IH. unfold add_snippet.
  apply proper_and_then; [exact Hacc | intros results].
  apply proper_and_then; [apply proper_get | intros snippet].
  now destruct (Json.truthy snippet).
Qed.

Lemma proper_gather (data : json) : proper (gather data).
Proof.
  unfold gather.
  apply proper_and_then; [apply proper_contains | intros has_kg].
  apply proper_and_then.
  { destruct has_kg; [|exact I].
    apply proper_and_then; [apply proper_subscript | intros kg].
    apply proper_and_then; [apply proper_contains | intros has_d].
    destruct has_d; [|exact I].
    apply proper_and_then; [apply proper_subscript | intros d; exact I]. }
  intros results.
  apply proper_and_then; [apply proper_contains | intros has_organic].
  destruct has_organic; [|exact I].
  apply proper_and_then; [apply proper_subscript | intros organic].
  apply proper_and_then; [apply proper_first_two | intros first].
  now apply proper_add_snippets.
Qed.

Lemma proper_join_values (results : list json) (i : nat) : proper (join_values i results).
Proof.
  revert i. induction results as [|v rest IH]; intros i; simpl; [exact I|].
  destruct v; simpl; auto.
  apply proper_and_then; [apply IH | intros strs; exact I].
Qed.

Lemma proper_joined (results : list json) : proper (joined results).
Proof.
  destruct results as [|v rest]; [exact I|]. unfold joined.
  apply proper_and_then; [apply proper_join_values | intros strs; exact I].
Qed.

(** [search_web] returns what [web_info_of] says and touches only the
    search API. *)
Lemma search_web_result (query : string) (st : State) :
  (search_web query st).1
  = web_info_of (SERPER_API_KEY (world st)) (search_api (world st) (calls st SearchApi)).
Proof.
  change ((search_web query st).1 = ?x)
    with (post (search_web query) st (fun r _ => r = x)).
  unfold search_web, web_info_of.
  post_run;
    try match goal with
      | H : joined ?a = Raises KeyboardInterrupt |- _ =>
          pose proof (proper_joined a) as Hp; rewrite H in Hp; discriminate Hp
      | H : gather ?a = Raises KeyboardInterrupt |- _ =>
          pose proof (proper_gather a) as Hp; rewrite H in Hp; discriminate Hp
      end;
    repeat (cbn [and_then is_Exception];
            try match goal with
              | H : ?x = _ |- context [?x] =>
                  tryif is_cons_headed x then fail else rewrite H
              end);
    reflexivity.
Qed.

Lemma post_respects {A} (F : Frame) (m : M A) (st : State) :
  respects F m -> post m st (fun _ st' => F st st').
Proof. intros H. exact (H st). Qed.

(** What [search_web] returns and what it leaves alone. *)
Lemma search_web_post (query : string) (st : State) :
  post (search_web query) st (fun r st' =>
    r = web_info_of (SERPER_API_KEY (world st)) (search_api (world st) (calls st SearchApi))
    /\ self st' = self st /\ world st' = world st
    /\ forall s, s <> SearchApi -> calls st' s = calls st s).
Proof.
  unfold post. split; [apply search_web_result|].
  destruct (search_web_respects same_session query eq_refl st) as [Hself Hworld].
  repeat split; try assumption.
  intros s Hs. apply (search_web_respects (uncalled s) query).
  simpl. now rewrite bool_decide_eq_false_2 by congruence.
Qed.

(** What [get_response] returns, as a function of the question and of what
    the services do. *)
Lemma get_response_result (question : string) (st : State) :
  (get_response question st).1
  = response_of question (chatbot (self st)) (SERPER_API_KEY (world st))
      (search_api (world st) (calls st SearchApi))
      (chat_api (world st) (calls st ChatApi)).
Proof.
  change ((get_response question st).1 = ?x)
    with (post (get_response question) st (fun r _ => r = x)).
  unfold get_response, response_of.
  post_run; try reflexivity.
  eapply post_weaken; [apply search_web_post|].
  intros r st' (-> & Hself & Hworld & Hcalls).
  pose proof (Hcalls ChatApi ltac:(discriminate)) as Hchat.
  pose proof (Hcalls Clock ltac:(discriminate)) as Hclock.
  clear Hcalls. cbn [self world calls logged] in *.
  destruct (web_info_of _ _) as [info|e] eqn:Hinfo; post_run; try reflexivity.
  unfold web_info_of in Hinfo.
  destruct (SERPER_API_KEY (world st)) as [k|]; [|discriminate].
  destruct (Py.truthy k); [|discriminate].
  destruct (and_then _ joined) as [?|e']; [discriminate|].
  destruct (is_Exception e') eqn:He'; [discriminate|].
  injection Hinfo as <-. congruence.
Qed.

(** A turn that is processed ends with [Continue], unless it is
    interrupted. *)
Lemma process_question_outcome (user_input : string) (st : State) :
  match (process_question user_input st).1 with
  | Returns f => f = Continue
  | Raises e => e = KeyboardInterrupt
  end.
Proof.
  change (post (process_question user_input) st (fun r _ =>
            match r with Returns f => f = Continue | Raises e => e = KeyboardInterrupt end)).
  unfold process_question. post_run.
  eapply post_weaken; [apply contained_post, get_response_contained|].
  intros [response|e] st' H; [|exact H].
  post_run; reflexivity.
Qed.

(** Without the chat model's credential the constructor raises. *)
Lemma init_without_key (fl : flavour) (st : State) :
  GOOGLE_API_KEY (world st) = None ->
  post (CompleteVoiceChatbot fl) st (fun r st' =>
    (r = Raises (ValueError "GOOGLE_API_KEY not found in .env file")
     \/ r = Raises KeyboardInterrupt)
    /\ calls st' Stdin = calls st Stdin
    /\ calls st' ChatApi = calls st ChatApi).
Proof.
  intros Hkey. unfold CompleteVoiceChatbot, __init__.
  post_run; auto.
Qed.

Lemma main_without_key (fl : flavour) (fuel : nat) (argv : list string) (st : State) :
  GOOGLE_API_KEY (world st) = None ->
  exists r st',
    main fl fuel argv st = Some (r, st') /\
    calls st' Stdin = calls st Stdin /\
    calls st' ChatApi = calls st ChatApi /\
    (r = Returns tt /\ Printed "Error: GOOGLE_API_KEY not found in .env file" ∈ trace st'
     \/ r = Raises KeyboardInterrupt).
Proof.
  intros Hkey.
  set (st0 := logged (Printed (worded fl "Initializing Complete Voice Chatbot..."
                 "Initializing Complete Voice Chatbot with Microphone Support...")) st).
  pose proof (init_without_key fl st0 Hkey) as Hinit. unfold post in Hinit.
  unfold main, then_, try_except_P, print, emit. fold st0.
  destruct (CompleteVoiceChatbot fl st0) as [r st1]. simpl in Hinit.
  destruct Hinit as ([-> | ->] & Hstdin & Hchat).
  - eexists _, _. split; [reflexivity|]. simpl.
    repeat split; try assumption. left. split; [reflexivity | in_trace].
  - eexists _, _. split; [reflexivity|]. simpl. auto.
Qed.

(** The loop lets no [Exception] out. *)
Lemma while_true_contained (fl : flavour) (fuel : nat) (st st' : State) (e : exn) :
  while_true fuel (iteration fl) st = Some (Raises e, st') -> is_Exception e = false.
Proof.
  revert st. induction fuel as [|fuel IH]; intros st; [discriminate|].
  rewrite while_true_step.
  destruct (iteration fl st) as [[[|]|e0] st0] eqn:Hit.
  - apply IH.
  - discriminate.
  - intros H. injection H as <- <-. exact (iteration_contained fl st e0 st0 Hit).
Qed.

Lemma run_interactive_contained (fl : flavour) (fuel : nat) (st st' : State) (e : exn) :
  run_interactive fl fuel st = Some (Raises e, st') -> is_Exception e = false.
Proof.
  unfold run_interactive, then_.
  destruct (greeting fl st) as [[[]|e0] st0] eqn:Hg.
  - apply while_true_contained.
  - intros H. injection H as <- <-. exact (greeting_contained fl st e0 st0 Hg).
Qed.

(** What makes the constructor fail: the credential check, or the
    constructor of the model handle.  It reads no line and does not call
    the model. *)
Lemma init_failure (fl : flavour) (st : State) :
  post (CompleteVoiceChatbot fl) st (fun r st' =>
    calls st' Stdin = calls st Stdin /\
    calls st' ChatApi = calls st ChatApi /\
    forall e, r = Raises e -> is_Exception e = true ->
      (e = ValueError "GOOGLE_API_KEY not found in .env file"
       /\ (GOOGLE_API_KEY (world st) = None
           \/ exists k, GOOGLE_API_KEY (world st) = Some k /\ Py.truthy k = false))
      \/ (exists k, GOOGLE_API_KEY (world st) = Some k /\ Py.truthy k = true
          /\ chat_model_ctor (world st) (calls st NewChatModel) = Raises e)).
Proof.
  unfold CompleteVoiceChatbot, __init__.
  post_run; (split; [reflexivity|]); (split; [reflexivity|]);
    intros err Hr Herr; try discriminate Hr; injection Hr as <-;
    try discriminate Herr;
    first [ left; split; [reflexivity|];
            first [ left; reflexivity | right; eexists; split; [reflexivity | eassumption] ]
          | right; eexists; split; [reflexivity|]; split;
            first [eassumption | reflexivity] ].
Qed.

(** An [Exception] of the constructor is reported by [main], which ends
    there. *)
Lemma main_startup_failure (fl : flavour) (fuel : nat) (argv : list string)
    (st st1 : State) (e : exn) :
  CompleteVoiceChatbot fl
    (printed (worded fl "Initializing Complete Voice Chatbot..."
                        "Initializing Complete Voice Chatbot with Microphone Support...") st)
  = (Raises e, st1) ->
  is_Exception e = true ->
  exists st',
    main fl fuel argv st = Some (Returns tt, st') /\
    calls st' Stdin = calls st Stdin /\
    calls st' ChatApi = calls st ChatApi /\
    Printed ("Error: " +:+ str_exn e) ∈ trace st'.
Proof.
  intros Hinit He. unfold printed in Hinit.
  set (st0 := logged (Printed (worded fl "Initializing Complete Voice Chatbot..."
                 "Initializing Complete Voice Chatbot with Microphone Support...")) st) in *.
  pose proof (init_failure fl st0) as Hframe.
  unfold post in Hframe. rewrite Hinit in Hframe. simpl in Hframe.
  destruct Hframe as (Hstdin & Hchat & _).
  unfold main, then_, try_except_P, print, emit. fold st0.
  rewrite Hinit. unfold main_handlers, except_Exception. rewrite He.
  eexists. split; [reflexivity|]. simpl.
  repeat split; try assumption. in_trace.
Qed.

(** C6.  An [Exception] raised by the chat model (a network or quota error,
    a malformed response) makes [get_response] return the apology that
    embeds its description; [get_response] lets no [Exception] out at all.
    An [Exception] that reaches the loop is reported there and the pass
    ends with [Continue]; processing and rendering a question end with
    [Continue] unless interrupted, and no [Exception] ends the session.
    What ends the process is a failure at start-up: a missing credential
    ends [main] before a line is read or the model is called, and so does
    every [Exception] of the constructor, which comes from the credential
    check or from the constructor of the model handle. *)
Theorem failures_are_contained (fl : flavour) (st : State) (e : exn) :
  is_Exception e = true ->
  (forall question c,
     chatbot (self st) = Some c ->
     chat_api (world st) (calls st ChatApi) = Raises e ->
     is_interrupt (search_api (world st) (calls st SearchApi)) = false ->
     (get_response question st).1 = Returns ("Sorry, I had an error: " +:+ str_exn e)) /\
  (forall question e' st',
     get_response question st = (Raises e', st') -> e' = KeyboardInterrupt) /\
  (forall st',
     loop_body fl st = (Raises e, st') ->
     iteration fl st =
     (Returns Continue,
      printed "Please try again or type 'quit' to exit"
        (printed ("Error: " +:+ str_exn e) st'))) /\
  (forall user_input,
     (process_question user_input st).1 = Returns Continue
     \/ (process_question user_input st).1 = Raises KeyboardInterrupt) /\
  (GOOGLE_API_KEY (world st) = None ->
   forall fuel argv,
   exists r st',
     main fl fuel argv st = Some (r, st') /\
     calls st' Stdin = calls st Stdin /\
     calls st' ChatApi = calls st ChatApi /\
     (r = Returns tt
      /\ Printed "Error: GOOGLE_API_KEY not found in .env file" ∈ trace st'
      \/ r = Raises KeyboardInterrupt)) /\
  (forall fuel e' st',
     run_interactive fl fuel st = Some (Raises e', st') -> e' = KeyboardInterrupt) /\
  (forall st1,
     CompleteVoiceChatbot fl
       (printed (worded fl "Initializing Complete Voice Chatbot..."
                           "Initializing Complete Voice Chatbot with Microphone Support...") st)
     = (Raises e, st1) ->
     ((e = ValueError "GOOGLE_API_KEY not found in .env file"
       /\ (GOOGLE_API_KEY (world st) = None
           \/ exists k, GOOGLE_API_KEY (world st) = Some k /\ Py.truthy k = false))
      \/ (exists k, GOOGLE_API_KEY (world st) = Some k /\ Py.truthy k = true
          /\ chat_model_ctor (world st) (calls st NewChatModel) = Raises e))
     /\ forall fuel argv,
        exists st',
          main fl fuel argv st = Some (Returns tt, st') /\
          calls st' Stdin = calls st Stdin /\
          calls st' ChatApi = calls st ChatApi /\
          Printed ("Error: " +:+ str_exn e) ∈ trace st').
Proof.
  intros He. repeat apply conj.
  - intros question c Hbot Hchat Hsearch.
    rewrite get_response_result, Hbot, Hchat. unfold response_of.
    assert (Hinfo : exists info,
              web_info_of (SERPER_API_KEY (world st))
                (search_api (world st) (calls st SearchApi)) = Returns info).
    { unfold web_info_of.
      destruct (SERPER_API_KEY (world st)) as [k|]; [|eauto].
      destruct (Py.truthy k); [|eauto].
      destruct (search_api (world st) (calls st SearchApi)) as [data|e0]; simpl.
      - pose proof (proper_gather data) as Hg. destruct (gather data) as [rs|e1]; simpl.
        + pose proof (proper_joined rs) as Hj. destruct (joined rs) as [info|e2]; [eauto|].
          simpl in Hj. rewrite Hj. eauto.
        + simpl in Hg. rewrite Hg. eauto.
      - destruct e0; try discriminate Hsearch; simpl; eauto. }
    destruct Hinfo as [info ->].
    destruct (needs_search question); now rewrite He.
  - intros question e' st' Hraise. apply not_exception.
    exact (get_response_contained question st e' st' Hraise).
  - intros st' Hbody. unfold iteration, try_except. rewrite Hbody.
    now rewrite (loop_handlers_catch e He).
  - intros user_input. pose proof (process_question_outcome user_input st) as H.
    destruct (process_question user_input st).1 as [f|e0]; [left | right]; now subst.
  - intros Hkey fuel argv. now apply main_without_key.
  - intros fuel e' st' Hrun. apply not_exception.
    exact (run_interactive_contained fl fuel st st' e' Hrun).
  - intros st1 Hinit. split.
    + pose proof (init_failure fl
                    (printed (worded fl "Initializing Complete Voice Chatbot..."
                       "Initializing Complete Voice Chatbot with Microphone Support...")
                       st)) as Hwhy.
      unfold post in Hwhy. rewrite Hinit in Hwhy.
      exact (proj2 (proj2 Hwhy) e eq_refl He).
    + intros fuel argv. exact (main_startup_failure fl fuel argv st st1 e Hinit He).
Qed.

Definition failures_witness_state : State :=
  session Plain
    (with_chat (fun _ => Raises (OtherException "429 quota exceeded"))
       (with_stdin (fun _ => Returns "tell me a joke") quiet_world)).

Lemma failures_are_contained_witness :
  (get_response "tell me a joke" failures_witness_state).1
  = Returns "Sorry, I had an error: 429 quota exceeded" /\
  (iteration Plain failures_witness_state).1 = Returns Continue.
Proof.
  pose proof (failures_are_contained Plain failures_witness_state
                (OtherException "429 quota exceeded") eq_refl)
    as (Hresp & _).
  split.
  - exact (Hresp "tell me a joke" _ eq_refl eq_refl eq_refl).
  - vm_compute. reflexivity.
Defined.

(** A machine whose credential is configured and whose model handle cannot
    be constructed. *)
Definition model_unreachable : World :=
  {| VOICE_INPUT_AVAILABLE := false;
     TTS_AVAILABLE := false;
     GOOGLE_API_KEY := Some "google-key";
     SERPER_API_KEY := None;
     stdin := fun _ => Returns "tell me a joke";
     recognizer_ctor := fun _ => Returns tt;
     microphone_ctor := fun _ => Returns tt;
     microphone_enter := fun _ => Returns tt;
     ambient_noise := fun _ => Returns tt;
     recording := fun _ => Returns tt;
     recognition := fun _ => Raises (UnknownValueError "");
     engine_ctor := fun _ => Returns tt;
     chat_model_ctor := fun _ => Raises (OtherException "could not load default credentials");
     search_api := fun _ => Returns (JObj ∅);
     chat_api := fun _ => Returns "ok";
     synthesis := fun _ => Returns tt;
     clock := fun _ => "November 03, 2026" |}.

(** The credential check is not the only thing that ends the process: with
    the credential present and passing the check, a model constructor that
    raises ends [main] through its [except] clause, before a line is read. *)
Lemma constructor_failure_ends_main :
  GOOGLE_API_KEY model_unreachable = Some "google-key" /\
  Py.truthy "google-key" = true /\
  exists st',
    main Plain 5 ["chatbot.py"] (boot model_unreachable) = Some (Returns tt, st') /\
    calls st' Stdin = 0 /\
    Printed "Error: could not load default credentials" ∈ trace st' /\
    Printed "Error: GOOGLE_API_KEY not found in .env file" ∉ trace st'.
Proof.
  split; [reflexivity|]. split; [reflexivity|].
  eexists. split; [vm_compute; reflexivity|].
  split; [reflexivity|]. split; [in_trace|].
  cbn [trace]. intros Hin.
  repeat (apply elem_of_cons in Hin as [Hin|Hin]; [discriminate Hin|]).
  inversion Hin.
Qed.

(** A closed terminal is reported on every pass and never ends the loop:
    the fuel runs out. *)
Example closed_stdin_never_ends :
  while_true 25 (iteration Plain) (session Plain quiet_world) = None.
Proof. vm_compute. reflexivity. Qed.

(** ** C7 and C10: the [voice] command *)

Lemma post_equation {A} (m : M A) (st : State) (x : result A * State) :
  post m st (fun r st' => (r, st') = x) -> m st = x.
Proof. unfold post. now destruct (m st). Qed.

(** The rest of a [try] body, run to the end, is the [try] run from there. *)
Lemma post_try_rest {A} (m : M A) (handler : exn -> option (M A)) (st : State) :
  post m st (fun r st' =>
    match r with
    | Returns a => (Returns a, st') = try_except m handler st
    | Raises e =>
        match handler e with
        | Some h => post h st' (fun r' st'' => (r', st'') = try_except m handler st)
        | None => (Raises e, st') = try_except m handler st
        end
    end).
Proof.
  unfold post, try_except. destruct (m st) as [[a|e] st']; simpl; [reflexivity|].
  destruct (handler e) as [h|]; [|reflexivity]. now destruct (h st').
Qed.

Lemma voice_is_no_exit_keyword (u : string) :
  Py.lower u = "voice" ->
  Py.truthy u = true /\ bool_decide (Py.lower u ∈ exit_keywords) = false.
Proof.
  intros H. split.
  - destruct u; [discriminate H | reflexivity].
  - now rewrite H.
Qed.

(** The pass of the loop on the line [voice], up to the capture. *)
Lemma voice_pass (fl : flavour) (st : State) (s : string) :
  stdin (world st) (calls st Stdin) = Returns s ->
  Py.lower (Py.strip s) = "voice" ->
  (voice_input (self st) = false ->
   iteration fl st =
   (Returns Continue,
    printed "Please type your question instead:"
      (printed (worded fl "Voice input not available (microphone/PyAudio issues)"
                          "Voice input not available - PyAudio/microphone issues")
         (after_read st)))) /\
  (voice_input (self st) = true ->
   forall heard st2,
     listen fl (printed "Switching to voice input - speak now..." (after_read st))
     = (Returns heard, st2) ->
     (opt_truthy heard = false ->
      iteration fl st
      = (Returns Continue, printed "Voice input failed, please type your question" st2)) /\
     (forall text, heard = Some text -> Py.truthy text = true ->
      iteration fl st
      = try_except (process_question text) loop_handlers
          (printed ("Voice input received: " +:+ text) st2))).
Proof.
  intros Hs Hvoice.
  destruct (voice_is_no_exit_keyword _ Hvoice) as [Htruthy Hnoexit].
  assert (Hb : bool_decide (Py.lower (Py.strip s) = "voice") = true)
    by now apply bool_decide_eq_true_2.
  split.
  - intros Hoff. apply post_equation. unfold iteration, loop_body.
    post_run. reflexivity.
  - intros Hon heard st2 Hlisten. split.
    + intros Hnone. apply post_equation. unfold iteration, loop_body.
      post_run. eapply post_known; [exact Hlisten|].
      post_run. reflexivity.
    + intros text -> Htext. apply post_equation. unfold iteration, loop_body.
      post_run. eapply post_known; [exact Hlisten|].
      cbn [opt_truthy default]. post_run.
      change (printed ?t ?s) with (logged (Printed t) s).
      apply (post_try_rest (process_question text) loop_handlers).
Qed.

(** [listen] calls the microphone and recognizer services only. *)
Lemma listen_calls (fl : flavour) (st : State) (s : service) :
  s <> NewMicrophone -> s <> EnterMicrophone -> s <> AmbientNoise ->
  s <> Recording -> s <> Recognition ->
  calls (listen fl st).2 s = calls st s.
Proof.
  intros H1 H2 H3 H4 H5.
  apply (listen_respects (uncalled s) fl); simpl;
    now rewrite bool_decide_eq_false_2 by congruence.
Qed.

Lemma web_info_of_calm (key : option string) (search : result json) :
  is_interrupt search = false -> exists info, web_info_of key search = Returns info.
Proof.
  intros Hsearch. unfold web_info_of.
  destruct key as [k|]; [|eauto].
  destruct (Py.truthy k); [|eauto].
  destruct search as [data|e0]; simpl.
  - pose proof (proper_gather data) as Hg. destruct (gather data) as [rs|e1]; simpl.
    + pose proof (proper_joined rs) as Hj. destruct (joined rs) as [info|e2]; [eauto|].
      simpl in Hj. rewrite Hj. eauto.
    + simpl in Hg. rewrite Hg. eauto.
  - destruct e0; try discriminate Hsearch; simpl; eauto.
Qed.

Lemma response_of_calm (question : string) (bot : option ChatModel)
    (key : option string) (search : result json) (chat : result string) :
  is_interrupt search = false -> is_interrupt chat = false ->
  exists response, response_of question bot key search chat = Returns response.
Proof.
  intros Hsearch Hchat. unfold response_of.
  destruct (web_info_of_calm key search Hsearch) as [info ->].
  assert (Hrest : exists response,
            match bot with
            | Some _ =>
                match chat with
                | Returns content => Returns content
                | Raises e =>
                    if is_Exception e
                    then Returns ("Sorry, I had an error: " +:+ str_exn e)
                    else Raises e
                end
            | None =>
                Returns ("Sorry, I had an error: "
                         +:+ "'CompleteVoiceChatbot' object has no attribute 'chatbot'")
            end = Returns response).
  { destruct bot; [|eauto]. destruct chat as [content|e]; [eauto|].
    destruct e; try discriminate Hchat; simpl; eauto. }
  destruct (needs_search question); exact Hrest.
Qed.

(** What [get_response] returns and what it leaves alone. *)
Lemma get_response_post (question : string) (st : State) :
  post (get_response question) st (fun r st' =>
    r = response_of question (chatbot (self st)) (SERPER_API_KEY (world st))
          (search_api (world st) (calls st SearchApi))
          (chat_api (world st) (calls st ChatApi))
    /\ self st' = self st /\ world st' = world st
    /\ forall s, s <> SearchApi -> s <> Clock -> s <> ChatApi -> calls st' s = calls st s).
Proof.
  unfold post. split; [apply get_response_result|].
  destruct (get_response_respects same_session question eq_refl eq_refl eq_refl st)
    as [Hself Hworld].
  repeat split; try assumption.
  intros s H1 H2 H3. apply (get_response_respects (uncalled s) question); simpl;
    now rewrite bool_decide_eq_false_2 by congruence.
Qed.

(** With no service interrupted, a question is processed to the end. *)
Lemma process_question_calm (user_input : string) (st : State) :
  is_interrupt (search_api (world st) (calls st SearchApi)) = false ->
  is_interrupt (chat_api (world st) (calls st ChatApi)) = false ->
  is_interrupt (synthesis (world st) (calls st Synthesis)) = false ->
  (process_question user_input st).1 = Returns Continue.
Proof.
  intros Hsearch Hchat Hsynth.
  change (post (process_question user_input) st (fun r _ => r = Returns Continue)).
  unfold process_question. post_run.
  eapply post_weaken; [apply get_response_post|].
  intros r st' (-> & Hself & Hworld & Hcalls).
  pose proof (Hcalls Synthesis ltac:(discriminate) ltac:(discriminate) ltac:(discriminate))
    as Hsyn.
  clear Hcalls. cbn [self world calls logged] in *.
  destruct (response_of_calm user_input (chatbot (self st)) (SERPER_API_KEY (world st))
              _ _ Hsearch Hchat) as [response ->].
  post_run; try reflexivity; discriminate Hsynth.
Qed.

(** *** The captures a run starts *)

Lemma captures_cons (ev : event) (tr : list event) :
  captures (ev :: tr) = if capture_announced ev then S (captures tr) else captures tr.
Proof. unfold captures. simpl. now destruct (capture_announced ev). Qed.

Ltac captures_simpl :=
  cbn [self world calls trace logged called printed after_read];
  repeat (rewrite captures_cons;
          match goal with
          | |- context [capture_announced ?ev] =>
              let v := eval vm_compute in (capture_announced ev) in
              change (capture_announced ev) with v; cbv iota
          end).

(** Trying the sources announces no capture of its own. *)
Lemma try_sources_announces (sources : list Microphone) :
  forall (i : nat) (st : State),
    post (try_sources i sources) st (fun _ st' => captures (trace st') = captures (trace st)).
Proof.
  induction sources as [|mic rest IH]; intros i st; cbn [try_sources].
  - post_run. reflexivity.
  - post_run; captures_simpl; try reflexivity;
      (eapply post_weaken; [apply IH|]); cbv beta; captures_simpl; auto.
Qed.

(** With voice input on, one call of [listen] announces one capture. *)
Lemma listen_announces (fl : flavour) (st : State) :
  voice_input (self st) = true ->
  post (listen fl) st (fun _ st' => captures (trace st') = S (captures (trace st))).
Proof.
  intros Hv. unfold listen. destruct fl.
  - post_run; captures_simpl; reflexivity.
  - set (ts := try_sources). post_run; try subst ts; captures_simpl; try reflexivity.
    eapply post_weaken; [apply try_sources_announces|].
    cbv beta. captures_simpl. intros r st' Hsame.
    destruct r as [[text|]|e]; post_run; captures_simpl; now rewrite Hsame.
Qed.

(** C7.  On the line [voice]: with voice input disabled the pass prints its
    notice and ends with [Continue], nothing captured.  With voice input
    enabled the pass runs [listen] once, from the state after the
    announcement, and goes on from the state [listen] leaves: exactly one
    capture has been started; a captured text becomes the utterance that is
    processed; no text means the notice and [Continue], and the chat model
    was not called. *)
Theorem voice_command_turn (fl : flavour) (st : State) (s : string) :
  stdin (world st) (calls st Stdin) = Returns s ->
  Py.lower (Py.strip s) = "voice" ->
  (voice_input (self st) = false ->
   iteration fl st =
   (Returns Continue,
    printed "Please type your question instead:"
      (printed (worded fl "Voice input not available (microphone/PyAudio issues)"
                          "Voice input not available - PyAudio/microphone issues")
         (after_read st)))) /\
  (voice_input (self st) = true ->
   exists r st2,
     listen fl (printed "Switching to voice input - speak now..." (after_read st)) = (r, st2) /\
     calls st2 ChatApi = calls st ChatApi /\
     calls st2 Stdin = S (calls st Stdin) /\
     captures (trace st2) = S (captures (trace st)) /\
     match r with
     | Returns heard =>
         if opt_truthy heard then
           iteration fl st
           = try_except (process_question (default "" heard)) loop_handlers
               (printed ("Voice input received: " +:+ default "" heard) st2)
         else
           iteration fl st
           = (Returns Continue, printed "Voice input failed, please type your question" st2)
     | Raises e => e = KeyboardInterrupt
     end).
Proof.
  intros Hs Hvoice.
  destruct (voice_pass fl st s Hs Hvoice) as [Hoff Hon].
  split; [exact Hoff|].
  intros Hv. specialize (Hon Hv).
  set (st1 := printed "Switching to voice input - speak now..." (after_read st)) in *.
  pose proof (listen_calls fl st1 ChatApi) as Hchat.
  pose proof (listen_calls fl st1 Stdin) as Hstdin.
  pose proof (listen_contained fl st1) as Hcont.
  pose proof (listen_announces fl st1 Hv) as Hone. unfold post in Hone.
  destruct (listen fl st1) as [r st2] eqn:Hl.
  exists r, st2. split; [reflexivity|].
  split; [now apply Hchat|].
  split.
  { simpl in Hstdin. rewrite Hstdin by discriminate.
    unfold st1. state_simpl. reflexivity. }
  split.
  { simpl in Hone. rewrite Hone. unfold st1. captures_simpl. reflexivity. }
  destruct r as [heard|e].
  - destruct (Hon heard st2 eq_refl) as [Hnone Hsome].
    destruct heard as [text|]; simpl.
    + destruct (Py.truthy text) eqn:Htext; [now apply Hsome | now apply Hnone].
    + now apply Hnone.
  - apply not_exception. exact (Hcont e st2 eq_refl).
Qed.

Definition text_only_bot : Bot :=
  {| voice_input := false; recognizer := None; microphone := None;
     tts := false; tts_engine := None; api_key := Some "google-key";
     chatbot := Some {| model := "gemini-1.5-flash"; temperature := 3 # 10;
                        google_api_key := "google-key" |} |}.

Definition voice_typed_without_microphone : State :=
  {| self := text_only_bot;
     world := with_stdin (fun _ => Returns "Voice") quiet_world;
     calls := fun _ => 0; trace := [] |}.

Definition voice_typed : State :=
  session Conda (with_stdin (fun _ => Returns " VOICE ") quiet_world).

Lemma voice_command_turn_witness :
  iteration Plain voice_typed_without_microphone =
  (Returns Continue,
   printed "Please type your question instead:"
     (printed "Voice input not available (microphone/PyAudio issues)"
        (after_read voice_typed_without_microphone))) /\
  exists r st2,
    listen Conda (printed "Switching to voice input - speak now..." (after_read voice_typed))
    = (r, st2) /\
    calls st2 ChatApi = calls voice_typed ChatApi /\
    calls st2 Stdin = S (calls voice_typed Stdin) /\
    captures (trace st2) = S (captures (trace voice_typed)) /\
    match r with
    | Returns heard =>
        if opt_truthy heard then
          iteration Conda voice_typed
          = try_except (process_question (default "" heard)) loop_handlers
              (printed ("Voice input received: " +:+ default "" heard) st2)
        else
          iteration Conda voice_typed
          = (Returns Continue, printed "Voice input failed, please type your question" st2)
    | Raises e => e = KeyboardInterrupt
    end.
Proof.
  split.
  - exact (proj1 (voice_command_turn Plain voice_typed_without_microphone "Voice"
                    eq_refl eq_refl) eq_refl).
  - exact (proj2 (voice_command_turn Conda voice_typed " VOICE " eq_refl eq_refl) eq_refl).
Defined.

(** The capture of the Conda file fails here on all four sources, and the
    turn is given up. *)
Example voice_command_capture_fails :
  (iteration Conda voice_typed).1 = Returns Continue /\
  calls (iteration Conda voice_typed).2 ChatApi = 0 /\
  calls (iteration Conda voice_typed).2 Recording = 4.
Proof. vm_compute. auto. Qed.

(** C10.  A text captured after the [voice] command is the utterance of the
    turn whatever it says: [quit] or [voice] as much as any other text.
    The pass goes on with [process_question] on that text, which hands it
    to [get_response] as it is; the exit and [voice] tests are not run on
    it.  The pass ends with [Continue] unless processing is interrupted,
    and it does so whenever no service is interrupted. *)
Theorem captured_text_is_the_utterance (fl : flavour) (st st2 : State) (s text : string) :
  stdin (world st) (calls st Stdin) = Returns s ->
  Py.lower (Py.strip s) = "voice" ->
  voice_input (self st) = true ->
  listen fl (printed "Switching to voice input - speak now..." (after_read st))
  = (Returns (Some text), st2) ->
  Py.truthy text = true ->
  let st3 := printed ("Voice input received: " +:+ text) st2 in
  iteration fl st = try_except (process_question text) loop_handlers st3 /\
  (exists rest,
     process_question text
     = bind (print "Processing your question...")
         (fun _ => bind (get_response text) rest)) /\
  ((iteration fl st).1 = Returns Continue
   \/ (process_question text st3).1 = Raises KeyboardInterrupt) /\
  (is_interrupt (search_api (world st) (calls st SearchApi)) = false ->
   is_interrupt (chat_api (world st) (calls st ChatApi)) = false ->
   is_interrupt (synthesis (world st) (calls st Synthesis)) = false ->
   (iteration fl st).1 = Returns Continue).
Proof.
  intros Hs Hvoice Hv Hlisten Htext st3.
  destruct (voice_pass fl st s Hs Hvoice) as [_ Hon].
  destruct (Hon Hv (Some text) st2 Hlisten) as [_ Hsome].
  specialize (Hsome text eq_refl Htext). fold st3 in Hsome.
  assert (Hdone : (process_question text st3).1 = Returns Continue ->
                  (iteration fl st).1 = Returns Continue).
  { intros Hp. rewrite Hsome. unfold try_except.
    destruct (process_question text st3) as [r st4]. simpl in Hp. now subst r. }
  split; [exact Hsome|].
  split; [eexists; reflexivity|].
  split.
  - pose proof (process_question_outcome text st3) as Hout.
    destruct (process_question text st3).1 as [f|e] eqn:Hp.
    + left. apply Hdone. now subst f.
    + right. now subst e.
  - intros Hsearch Hchat Hsynth. apply Hdone.
    set (st1 := printed "Switching to voice input - speak now..." (after_read st)) in *.
    pose proof (listen_frame fl st1) as (_ & Hworld & _ & _).
    pose proof (listen_calls fl st1 SearchApi) as Hc1.
    pose proof (listen_calls fl st1 ChatApi) as Hc2.
    pose proof (listen_calls fl st1 Synthesis) as Hc3.
    rewrite Hlisten in Hworld, Hc1, Hc2, Hc3. simpl in Hworld, Hc1, Hc2, Hc3.
    apply process_question_calm; unfold st3; state_simpl;
      rewrite ?Hworld, ?Hc1, ?Hc2, ?Hc3 by discriminate; assumption.
Qed.

Definition says_quit : State :=
  session Plain
    (with_recognition (fun _ => Returns " quit ")
       (with_stdin (fun _ => Returns "voice") quiet_world)).

Lemma pair_of_fst {A B} (p : A * B) (a : A) : p.1 = a -> p = (a, p.2).
Proof. destruct p. simpl. now intros ->. Qed.

Lemma captured_text_is_the_utterance_witness :
  (iteration Plain says_quit).1 = Returns Continue /\
  Invoked
    (messages_of "quit" None "November 03, 2026") ∈ trace (iteration Plain says_quit).2.
Proof.
  pose proof (captured_text_is_the_utterance Plain says_quit _ "voice" "quit"
                eq_refl eq_refl eq_refl
                (pair_of_fst
                   (listen Plain
                      (printed "Switching to voice input - speak now..."
                         (after_read says_quit)))
                   (Returns (Some "quit")) eq_refl)
                eq_refl) as (_ & _ & _ & Hcalm).
  split.
  - exact (Hcalm eq_refl eq_refl eq_refl).
  - vm_compute. repeat first [left | right].
Defined.
(** ** What a run sends and shows *)

Lemma requests_cons (ev : event) (tr : list event) :
  requests (ev :: tr)
  = match ev with Invoked msgs => msgs :: requests tr | _ => requests tr end.
Proof. now destruct ev. Qed.

Lemma spoken_cons (ev : event) (tr : list event) :
  spoken (ev :: tr)
  = match ev with Said text => text :: spoken tr | _ => spoken tr end.
Proof. now destruct ev. Qed.

Lemma shown_cons (ev : event) (tr : list event) :
  shown (ev :: tr)
  = match response_shown ev with Some r => r :: shown tr | None => shown tr end.
Proof. reflexivity. Qed.

(** Read [requests], [shown] and [spoken] off a trace whose newest events
    are known. *)
Ltac trace_simpl :=
  cbn [self world calls trace logged called printed after_read];
  repeat first
    [ rewrite requests_cons; cbv iota
    | rewrite spoken_cons; cbv iota
    | rewrite shown_cons;
      match goal with
      | |- context [response_shown ?ev] =>
          let v := eval vm_compute in (response_shown ev) in
          change (response_shown ev) with v; cbv iota
      end ].

(** [search_web] sends nothing to the model and renders no response. *)
Lemma search_web_shows_nothing (query : string) (st : State) :
  post (search_web query) st (fun _ st' =>
    requests (trace st') = requests (trace st)
    /\ shown (trace st') = shown (trace st)
    /\ spoken (trace st') = spoken (trace st)).
Proof.
  unfold search_web. post_run; trace_simpl; repeat split.
Qed.

(** What [get_response] sends to the model; it renders nothing. *)
Lemma get_response_sends (question : string) (st : State) :
  post (get_response question) st (fun _ st' =>
    requests (trace st')
    = request_of question (chatbot (self st)) (SERPER_API_KEY (world st))
        (search_api (world st) (calls st SearchApi))
        (clock (world st) (calls st Clock))
      ++ requests (trace st)
    /\ shown (trace st') = shown (trace st)
    /\ spoken (trace st') = spoken (trace st)).
Proof.
  unfold get_response, request_of.
  post_run; trace_simpl; try (repeat split; fail).
  eapply post_weaken;
    [exact (post_and _ _ _ _ (search_web_post question _)
              (search_web_shows_nothing question _))|].
  cbv beta. intros r st' ((-> & Hself & Hworld & Hcalls) & Hreq & Hshown & Hspoken).
  pose proof (Hcalls Clock ltac:(discriminate)) as Hclock. clear Hcalls.
  revert Hreq Hshown Hspoken. trace_simpl. intros Hreq Hshown Hspoken.
  cbn [self world calls logged] in *.
  destruct (web_info_of _ _) as [info|e]; post_run; trace_simpl;
    rewrite ?Hreq, ?Hshown, ?Hspoken; repeat split.
Qed.

(** The facts about [get_response] that rendering goes on from. *)
Lemma get_response_turn (question : string) (st : State) :
  post (get_response question) st (fun r st' =>
    (r = response_of question (chatbot (self st)) (SERPER_API_KEY (world st))
           (search_api (world st) (calls st SearchApi))
           (chat_api (world st) (calls st ChatApi))
     /\ self st' = self st /\ world st' = world st
     /\ forall s, s <> SearchApi -> s <> Clock -> s <> ChatApi -> calls st' s = calls st s)
    /\ requests (trace st')
       = request_of question (chatbot (self st)) (SERPER_API_KEY (world st))
           (search_api (world st) (calls st SearchApi))
           (clock (world st) (calls st Clock))
         ++ requests (trace st)
    /\ shown (trace st') = shown (trace st)
    /\ spoken (trace st') = spoken (trace st)).
Proof.
  exact (post_and _ _ _ _ (get_response_post question st) (get_response_sends question st)).
Qed.

(** After [get_response], in the hypotheses of the goal: the state it
    leaves, as far as rendering needs it. *)
Ltac after_get_response :=
  eapply post_weaken; [apply get_response_turn|];
  cbv beta;
  let r := fresh "r" in let st' := fresh "st'" in
  let Hr := fresh "Hr" in let Hself := fresh "Hself" in
  let Hworld := fresh "Hworld" in let Hcalls := fresh "Hcalls" in
  let Hreq := fresh "Hreq" in let Hshown := fresh "Hshown" in
  let Hspoken := fresh "Hspoken" in let Hsyn := fresh "Hsyn" in
  intros r st' ((Hr & Hself & Hworld & Hcalls) & Hreq & Hshown & Hspoken);
  pose proof (Hcalls Synthesis ltac:(discriminate) ltac:(discriminate)
                ltac:(discriminate)) as Hsyn;
  clear Hcalls;
  revert Hreq Hshown Hspoken; trace_simpl; intros Hreq Hshown Hspoken;
  cbn [self world calls logged] in *;
  rewrite <- Hr; clear Hr;
  destruct r as [?response|?e]; post_run; trace_simpl;
  rewrite ?Hreq, ?Hshown, ?Hspoken.


(** The same for the one-shot command, which returns the response. *)
Lemma run_single_command_renders (command : string) (st : State) :
  post (run_single_command command) st (fun r st' =>
    requests (trace st')
    = request_of command (chatbot (self st)) (SERPER_API_KEY (world st))
        (search_api (world st) (calls st SearchApi))
        (clock (world st) (calls st Clock))
      ++ requests (trace st)
    /\ match response_of command (chatbot (self st)) (SERPER_API_KEY (world st))
               (search_api (world st) (calls st SearchApi))
               (chat_api (world st) (calls st ChatApi)) with
       | Returns response =>
           shown (trace st') = response :: shown (trace st)
           /\ spoken (trace st') = speech_of (self st) response ++ spoken (trace st)
           /\ (r = Returns response \/ r = Raises KeyboardInterrupt)
       | Raises e =>
           shown (trace st') = shown (trace st)
           /\ spoken (trace st') = spoken (trace st)
           /\ r = Raises e
       end).
Proof.
  unfold run_single_command, speech_of. post_run. after_get_response; repeat split; auto.
Qed.



(** ** C8: one-shot commands *)

(** At most one call of the chat model for one question. *)
Lemma get_response_one_call (question : string) (st : State) :
  post (get_response question) st (fun _ st' =>
    calls st ChatApi <= calls st' ChatApi <= S (calls st ChatApi)).
Proof.
  unfold get_response. post_run; try lia.
  eapply post_weaken; [apply search_web_post|].
  intros r st' (_ & Hself & Hworld & Hcalls).
  pose proof (Hcalls ChatApi ltac:(discriminate)) as Hchat. clear Hcalls.
  cbn [self world calls logged] in *.
  destruct r; post_run; lia.
Qed.

(** The model is called exactly once unless the search is interrupted or
    the handle is missing. *)
Lemma get_response_calls_once (question : string) (st : State) (c : ChatModel) :
  chatbot (self st) = Some c ->
  is_interrupt (search_api (world st) (calls st SearchApi)) = false ->
  calls (get_response question st).2 ChatApi = S (calls st ChatApi).
Proof.
  intros Hbot Hsearch.
  change (post (get_response question) st (fun _ st' =>
            calls st' ChatApi = S (calls st ChatApi))).
  unfold get_response. post_run; try reflexivity.
  eapply post_weaken; [apply search_web_post|].
  intros r st' (Hr & Hself & Hworld & Hcalls).
  pose proof (Hcalls ChatApi ltac:(discriminate)) as Hchat. clear Hcalls.
  cbn [self world calls logged] in *.
  destruct (web_info_of_calm (SERPER_API_KEY (world st)) _ Hsearch) as [info Hinfo].
  rewrite Hinfo in Hr. subst r.
  post_run; reflexivity.
Qed.

Lemma run_single_command_frame (command : string) (st : State) :
  calls (run_single_command command st).2 Stdin = calls st Stdin /\
  self (run_single_command command st).2 = self st /\
  calls (run_single_command command st).2 ChatApi <= S (calls st ChatApi).
Proof.
  split; [|split].
  - exact (run_single_command_respects (uncalled Stdin) command
             eq_refl eq_refl eq_refl eq_refl st).
  - exact (proj1 (run_single_command_respects same_session command
                    eq_refl eq_refl eq_refl eq_refl st)).
  - change (post (run_single_command command) st (fun _ st' =>
              calls st' ChatApi <= S (calls st ChatApi))).
    unfold run_single_command. post_run.
    eapply post_weaken;
      [exact (post_and _ _ _ _ (get_response_post command _)
                (get_response_one_call command _))|].
    intros r st' ((_ & Hself & Hworld & _) & Hone).
    cbn [self world calls logged] in *.
    destruct r; post_run; lia.
Qed.

(** The object a constructor that returns has built. *)
Lemma init_constructs (fl : flavour) (st : State) :
  post (CompleteVoiceChatbot fl) st (fun r st1 =>
    r = Returns tt -> constructed fl (world st) (self st1) /\ world st1 = world st).
Proof.
  unfold CompleteVoiceChatbot, __init__, constructed.
  post_run; intros Hret; try discriminate Hret;
    (split; [|reflexivity]);
    (split; [eexists; repeat split; eauto|]);
    split; intros Hflag; try discriminate Hflag; repeat split; auto;
    intros Hfl; try discriminate Hfl; reflexivity.
Qed.

(** C8.  Once the object is built, [main] with one or more arguments joins
    them by single spaces and runs [run_single_command] on the result, once,
    and ends there whatever the fuel: no line is read from the terminal.
    With no argument it runs the interactive session.  The command is
    processed exactly once: the model handle is there, the run sends the
    model the one request built from the command (none only when the
    search is interrupted), and the response that comes back is rendered
    once, printed and, with speech output, spoken, and returned. *)
Theorem main_one_shot (fl : flavour) (fuel : nat) (prog arg : string)
    (args : list string) (st st1 : State) :
  CompleteVoiceChatbot fl
    (printed (worded fl "Initializing Complete Voice Chatbot..."
                        "Initializing Complete Voice Chatbot with Microphone Support...") st)
  = (Returns tt, st1) ->
  let command := Py.join " " (arg :: args) in
  let search := search_api (world st1) (calls st1 SearchApi) in
  let today := clock (world st1) (calls st1 Clock) in
  let final := (run_single_command command st1).2 in
  main fl fuel (prog :: arg :: args) st
  = Some (match (run_single_command command st1).1 with
          | Returns _ => Returns tt
          | Raises e => Raises e
          end, (run_single_command command st1).2) /\
  calls (run_single_command command st1).2 Stdin = calls st Stdin /\
  calls (run_single_command command st1).2 ChatApi <= S (calls st ChatApi) /\
  main fl fuel [prog] st = run_interactive fl fuel st1 /\
  (exists c, chatbot (self st1) = Some c) /\
  requests (trace final)
  = request_of command (chatbot (self st1)) (SERPER_API_KEY (world st1)) search today
    ++ requests (trace st1) /\
  (is_interrupt search = false ->
   exists info,
     requests (trace final) = messages_of command info today :: requests (trace st1)) /\
  (forall response,
     response_of command (chatbot (self st1)) (SERPER_API_KEY (world st1)) search
       (chat_api (world st1) (calls st1 ChatApi)) = Returns response ->
     shown (trace final) = response :: shown (trace st1)
     /\ spoken (trace final) = speech_of (self st1) response ++ spoken (trace st1)
     /\ ((run_single_command command st1).1 = Returns response
         \/ (run_single_command command st1).1 = Raises KeyboardInterrupt)).
Proof.
  intros Hinit command search today final.
  set (st0 := printed (worded fl "Initializing Complete Voice Chatbot..."
                "Initializing Complete Voice Chatbot with Microphone Support...") st) in *.
  assert (Hstdin1 : calls st1 Stdin = calls st Stdin /\ calls st1 ChatApi = calls st ChatApi).
  { pose proof (init_respects (uncalled Stdin) fl eq_refl eq_refl eq_refl eq_refl eq_refl
                  eq_refl eq_refl st0) as H1.
    pose proof (init_respects (uncalled ChatApi) fl eq_refl eq_refl eq_refl eq_refl eq_refl
                  eq_refl eq_refl st0) as H2.
    rewrite Hinit in H1, H2. exact (conj H1 H2). }
  destruct Hstdin1 as [Hstdin1 Hchat1].
  assert (Hbot : exists c, chatbot (self st1) = Some c).
  { pose proof (init_constructs fl st0) as Hc. unfold post in Hc. rewrite Hinit in Hc.
    destruct (Hc eq_refl) as [((k & _ & _ & _ & Hbot) & _) _]. eauto. }
  pose proof (run_single_command_renders command st1) as Hrender.
  unfold post in Hrender. fold final search today in Hrender.
  destruct Hrender as [Hreq Hresp].
  repeat apply conj.
  - unfold main, then_, try_except_P, print, emit. cbn [fst snd].
    change (logged (Printed ?t) st) with st0. rewrite Hinit.
    cbn [length Nat.ltb Nat.leb drop].
    unfold total, bind at 1.
    pose proof (run_single_command_contained command st1) as Hcont.
    fold command.
    destruct (run_single_command command st1) as [[response|e] st2] eqn:Hrun; simpl.
    + reflexivity.
    + rewrite (not_exception e (Hcont e st2 eq_refl)). reflexivity.
  - rewrite (proj1 (run_single_command_frame command st1)). exact Hstdin1.
  - rewrite <- Hchat1. apply run_single_command_frame.
  - unfold main, then_, try_except_P, print, emit. cbn [fst snd].
    change (logged (Printed ?t) st) with st0. rewrite Hinit.
    cbn [length Nat.ltb Nat.leb].
    pose proof (run_interactive_contained fl fuel st1) as Hcont.
    destruct (run_interactive fl fuel st1) as [[[[]|e] st2]|]; try reflexivity.
    rewrite (not_exception e (Hcont st2 e eq_refl)). reflexivity.
  - exact Hbot.
  - exact Hreq.
  - intros Hsearch. rewrite Hreq. destruct Hbot as [c ->]. unfold request_of.
    destruct (needs_search command); [|eauto].
    destruct (web_info_of_calm (SERPER_API_KEY (world st1)) search Hsearch) as [info ->].
    eauto.
  - intros response Hreturns. rewrite Hreturns in Hresp. exact Hresp.
Qed.

Definition joke_argv : list string := ["chatbot.py"; "tell"; "me"; "a"; "joke"].

Definition booted : State :=
  (CompleteVoiceChatbot Plain
     (printed (worded Plain "Initializing Complete Voice Chatbot..."
                 "Initializing Complete Voice Chatbot with Microphone Support...")
        (boot quiet_world))).2.

Lemma booted_returns :
  CompleteVoiceChatbot Plain
    (printed (worded Plain "Initializing Complete Voice Chatbot..."
                "Initializing Complete Voice Chatbot with Microphone Support...")
       (boot quiet_world))
  = (Returns tt, booted).
Proof.
  assert (H : (CompleteVoiceChatbot Plain
                 (printed (worded Plain "Initializing Complete Voice Chatbot..."
                             "Initializing Complete Voice Chatbot with Microphone Support...")
                    (boot quiet_world))).1 = Returns tt)
    by (vm_compute; reflexivity).
  exact (pair_of_fst _ _ H).
Qed.

Lemma main_one_shot_witness :
  Py.join " " ["tell"; "me"; "a"; "joke"] = "tell me a joke" /\
  main Plain 0 joke_argv (boot quiet_world)
  = Some (Returns tt, (run_single_command "tell me a joke" booted).2) /\
  calls (run_single_command "tell me a joke" booted).2 Stdin = 0 /\
  main Plain 3 ["chatbot.py"] (boot quiet_world) = run_interactive Plain 3 booted /\
  requests (trace (run_single_command "tell me a joke" booted).2)
  = [messages_of "tell me a joke" None "November 03, 2026"] /\
  shown (trace (run_single_command "tell me a joke" booted).2) = ["ok"] /\
  spoken (trace (run_single_command "tell me a joke" booted).2) = ["ok"].
Proof.
  destruct (main_one_shot Plain 0 "chatbot.py" "tell" ["me"; "a"; "joke"]
              (boot quiet_world) booted booted_returns)
    as (Hmain & Hstdin & _ & _ & _ & Hreq & _ & Hshown).
  destruct (main_one_shot Plain 3 "chatbot.py" "tell" ["me"; "a"; "joke"]
              (boot quiet_world) booted booted_returns)
    as (_ & _ & _ & Hloop & _).
  assert (Hok : response_of "tell me a joke" (chatbot (self booted))
                  (SERPER_API_KEY (world booted))
                  (search_api (world booted) (calls booted SearchApi))
                  (chat_api (world booted) (calls booted ChatApi)) = Returns "ok")
    by (vm_compute; reflexivity).
  destruct (Hshown "ok" Hok) as (Hs & Hp & _).
  split; [reflexivity|].
  split; [|split; [exact Hstdin | split; [exact Hloop|]]].
  - etransitivity; [exact Hmain|].
    f_equal; f_equal; vm_compute; reflexivity.
  - split; [|split].
    + etransitivity; [exact Hreq | vm_compute; reflexivity].
    + etransitivity; [exact Hs | vm_compute; reflexivity].
    + etransitivity; [exact Hp | vm_compute; reflexivity].
Defined.

(** ** C9: turns do not leak into each other *)










(** The same question after two different histories: once at the start of a
    session, once after a turn was processed. *)
Example same_question_same_response :
  let w := with_chat (fun _ => Returns "Paris.")
             (with_stdin (fun _ => Returns "name a river") quiet_world) in
  let later := (iteration Plain (session Plain w)).2 in
  (get_response "capital of France?" later).1
  = (get_response "capital of France?" (session Plain w)).1
  /\ trace later <> trace (session Plain w)
  /\ self later = self (session Plain w).
Proof. vm_compute. repeat split. discriminate. Qed.

(** * Further properties of the code *)

(** ** [needs_search] *)

Lemma lower_app (a b : string) : Py.lower (a +:+ b) = Py.lower a +:+ Py.lower b.
Proof.
  induction a as [|c a IH]; [reflexivity|].
  change (String c a +:+ b) with (String c (a +:+ b)).
  cbn [Py.lower]. now rewrite IH.
Qed.

Lemma needs_search_markers (s : string) :
  needs_search s = true <-> exists m, m ∈ search_indicators /\ occurs m (Py.lower s).
Proof.
  unfold needs_search. rewrite any_spec.
  split; intros (m & Hm & Hc); exists m; (split; [exact Hm|]); now apply contains_spec.
Qed.

(** X1.  Context cannot hide a marker: an utterance that needs a search
    still needs one when text is put before and after it. *)
Theorem needs_search_in_context (before s after : string) :
  needs_search s = true -> needs_search (before +:+ s +:+ after) = true.
Proof.
  intros H.
  apply needs_search_markers in H as (m & Hm & pre & post & E).
  apply needs_search_markers.
  exists m. split; [exact Hm|].
  exists (Py.lower before +:+ pre), (post +:+ Py.lower after).
  rewrite !lower_app, E. now rewrite !app_assoc_str.
Qed.

Lemma needs_search_in_context_witness :
  needs_search ("so, " +:+ "any NEWS" +:+ " from the club?") = true.
Proof. exact (needs_search_in_context "so, " "any NEWS" " from the club?" eq_refl). Defined.

(** ** [search_web] *)

(** X2.  A search request that fails with an [Exception] (a timeout, a
    connection error, a body that is no JSON) is reported on the console
    and yields [None]: one request was sent, nothing is raised. *)
Theorem search_failure_is_absent (query key : string) (e : exn) (st : State) :
  SERPER_API_KEY (world st) = Some key ->
  Py.truthy key = true ->
  search_api (world st) (calls st SearchApi) = Raises e ->
  is_Exception e = true ->
  search_web query st =
  (Returns None,
   printed ("Search error: " +:+ str_exn e)
     (called SearchApi
        (logged (Posted "https://google.serper.dev/search" key query 3 10) st))).
Proof.
  intros Hkey Htruthy Hreply Hexc.
  apply post_equation. unfold search_web. post_run. reflexivity.
Qed.

Definition search_times_out : State :=
  session Plain
    (with_search (fun _ => Raises (OtherException "Read timed out.")) quiet_world).

Lemma search_failure_is_absent_witness :
  (search_web "weather today" search_times_out).1 = Returns None.
Proof.
  now rewrite (search_failure_is_absent "weather today" "serper-key"
                 (OtherException "Read timed out.") search_times_out
                 eq_refl eq_refl eq_refl eq_refl).
Defined.

(** X3.  Whatever JSON the search API answers, of the documented shape or
    not, [search_web] returns: a value that does not fit is reported as a
    search error and gives [None]. *)
Theorem search_web_returns (query : string) (st : State) :
  is_interrupt (search_api (world st) (calls st SearchApi)) = false ->
  exists info, (search_web query st).1 = Returns info.
Proof.
  intros Hcalm. rewrite search_web_result. now apply web_info_of_calm.
Qed.

Definition search_answers_oddly : State :=
  session Plain
    (with_search
       (fun _ => Returns (JObj {[ "organic" := JArr [JStr "no object"; JNull] ]}))
       quiet_world).

Lemma search_web_returns_witness :
  exists info, (search_web "stock price" search_answers_oddly).1 = Returns info.
Proof. exact (search_web_returns "stock price" search_answers_oddly eq_refl). Defined.

(** X4.  A snippet that is no string spoils the whole result: joining
    fails, the failure is caught, and all fragments are lost, the textual
    ones with it. *)
Theorem search_web_non_text_snippet (query key : string) (m r : gmap string json)
    (rest : list json) (v : json) (st : State) :
  SERPER_API_KEY (world st) = Some key ->
  Py.truthy key = true ->
  search_api (world st) (calls st SearchApi) = Returns (JObj m) ->
  m !! "knowledgeGraph" = None ->
  m !! "organic" = Some (JArr (JObj r :: rest)) ->
  r !! "snippet" = Some v ->
  Json.truthy v = true ->
  (forall s, v <> JStr s) ->
  (search_web query st).1 = Returns None.
Proof.
  intros Hkey Htruthy Hreply Hkg Horg Hsnip Hv Hnostr.
  rewrite search_web_result, Hkey, Hreply. unfold web_info_of. rewrite Htruthy.
  cbn [and_then].
  assert (Hg : exists tail, gather (JObj m) = Returns (v :: tail)
                            \/ exists e, gather (JObj m) = Raises e /\ is_Exception e = true).
  { unfold gather, Json.contains, Json.subscript, Json.first_two.
    rewrite Hkg, Horg. cbn [and_then].
    rewrite bool_decide_eq_false_2 by (intros [x Hx]; discriminate).
    rewrite bool_decide_eq_true_2 by eauto. cbn [and_then].
    assert (Hfirst : add_snippet (Returns []) (JObj r) = Returns [v]).
    { unfold add_snippet, Json.get. cbn [and_then]. rewrite Hsnip.
      cbn [from_option id]. now rewrite Hv. }
    destruct rest as [|item rest].
    - exists []. left. change (take 2 [JObj r]) with [JObj r].
      cbn [foldl]. exact Hfirst.
    - change (take 2 (JObj r :: item :: rest)) with [JObj r; item].
      cbn [foldl]. rewrite Hfirst. unfold add_snippet. cbn [and_then].
      pose proof (proper_get item "snippet" (JStr "")) as Hpg.
      destruct (Json.get item "snippet" (JStr "")) as [snip|e]; cbn [and_then].
      + destruct (Json.truthy snip); [exists [snip] | exists []]; now left.
      + exists []. right. now exists e. }
  destruct Hg as [tail [Hg | (e & Hg & He)]]; rewrite Hg; cbn [and_then].
  - unfold joined. cbn [join_values].
    destruct v; try (cbn [and_then is_Exception]; reflexivity).
    now destruct (Hnostr s).
  - now rewrite He.
Qed.

Definition numeric_snippet : gmap string json :=
  {[ "organic" := JArr [ JObj {[ "snippet" := JInt 42 ]};
                         JObj {[ "snippet" := JStr "B" ]} ] ]}.

Definition search_answers_number : State :=
  session Plain (with_search (fun _ => Returns (JObj numeric_snippet)) quiet_world).

Lemma search_web_non_text_snippet_witness :
  (search_web "latest score" search_answers_number).1 = Returns None.
Proof.
  refine (search_web_non_text_snippet "latest score" "serper-key" numeric_snippet
            {[ "snippet" := JInt 42 ]} [JObj {[ "snippet" := JStr "B" ]}] (JInt 42)
            search_answers_number
            eq_refl eq_refl eq_refl eq_refl eq_refl eq_refl eq_refl _).
  intros s H. discriminate H.
Defined.

(** ** [__init__] *)

(** X5.  When the constructor returns, the object is usable: the chat model
    handle is set and carries the non-empty credential of the environment,
    and a capability flag that is on has its handles assigned (the
    recognizer, in the Plain file the microphone too, and the engine at
    rate 150 and volume 0.9); the world is as before. *)
Theorem init_builds_usable_object (fl : flavour) (st st' : State) :
  CompleteVoiceChatbot fl st = (Returns tt, st') ->
  constructed fl (world st) (self st') /\ world st' = world st.
Proof.
  intros Hrun. pose proof (init_constructs fl st) as Hpost.
  unfold post in Hpost. rewrite Hrun in Hpost. exact (Hpost eq_refl).
Qed.

Lemma init_builds_usable_object_witness :
  constructed Conda quiet_world
    (self (CompleteVoiceChatbot Conda (boot quiet_world)).2)
  /\ microphone (self (CompleteVoiceChatbot Conda (boot quiet_world)).2) = None.
Proof.
  split.
  - refine (proj1 (init_builds_usable_object Conda (boot quiet_world) _ _)).
    apply pair_of_fst. vm_compute. reflexivity.
  - vm_compute. reflexivity.
Defined.

Definition microphone_notice (fl : flavour) (e : exn) : string :=
  worded fl "Microphone error: " "Microphone initialization error: " +:+ str_exn e.

(** X6.  A microphone that cannot be opened at start-up does not stop the
    program: the failure is printed, voice input is switched off, and with
    the credential present the constructor still returns. *)
Theorem microphone_failure_degrades (fl : flavour) (st : State) (e : exn) (key : string) :
  VOICE_INPUT_AVAILABLE (world st) = true ->
  recognizer_ctor (world st) (calls st NewRecognizer) = Returns tt ->
  microphone_ctor (world st) (calls st NewMicrophone) = Raises e ->
  is_Exception e = true ->
  is_interrupt (engine_ctor (world st) (calls st NewEngine)) = false ->
  GOOGLE_API_KEY (world st) = Some key ->
  Py.truthy key = true ->
  chat_model_ctor (world st) (calls st NewChatModel) = Returns tt ->
  exists st',
    CompleteVoiceChatbot fl st = (Returns tt, st') /\
    voice_input (self st') = false /\
    Printed (microphone_notice fl e) ∈ trace st'.
Proof.
  intros Havail Hrec Hmic Hexc Hengine Hkey Htruthy Hchat.
  assert (Hpost : post (CompleteVoiceChatbot fl) st (fun r st' =>
            r = Returns tt /\ voice_input (self st') = false
            /\ Printed (microphone_notice fl e) ∈ trace st')).
  { unfold CompleteVoiceChatbot, __init__, microphone_notice.
    destruct fl; post_run;
      try discriminate Hengine;
      (split; [reflexivity|]); (split; [reflexivity|]); in_trace. }
  unfold post in Hpost. destruct (CompleteVoiceChatbot fl st) as [r st'].
  simpl in Hpost. destruct Hpost as (-> & Hv & Hp). now exists st'.
Qed.

Definition no_microphone_world : World :=
  {| VOICE_INPUT_AVAILABLE := true;
     TTS_AVAILABLE := false;
     GOOGLE_API_KEY := Some "google-key";
     SERPER_API_KEY := None;
     stdin := fun _ => Raises (EOFError "EOF when reading a line");
     recognizer_ctor := fun _ => Returns tt;
     microphone_ctor := fun _ => Raises (OtherException "No Default Input Device Available");
     microphone_enter := fun _ => Returns tt;
     ambient_noise := fun _ => Returns tt;
     recording := fun _ => Returns tt;
     recognition := fun _ => Raises (UnknownValueError "");
     engine_ctor := fun _ => Returns tt;
     chat_model_ctor := fun _ => Returns tt;
     search_api := fun _ => Returns (JObj ∅);
     chat_api := fun _ => Returns "ok";
     synthesis := fun _ => Returns tt;
     clock := fun _ => "November 03, 2026" |}.

Lemma microphone_failure_degrades_witness :
  exists st',
    CompleteVoiceChatbot Plain (boot no_microphone_world) = (Returns tt, st') /\
    voice_input (self st') = false /\
    Printed "Microphone error: No Default Input Device Available" ∈ trace st'.
Proof.
  exact (microphone_failure_degrades Plain (boot no_microphone_world)
           (OtherException "No Default Input Device Available") "google-key"
           eq_refl eq_refl eq_refl eq_refl eq_refl eq_refl eq_refl eq_refl).
Defined.

(** ** [speak] *)

(** X7.  [speak] always prints the line.  With speech output off that is
    all it does; with it on, a synthesizer that fails with an [Exception]
    costs one more printed line and nothing else: [speak] returns. *)
Theorem speak_outcome (text : string) (st : State) :
  (tts (self st) = false ->
   speak text st = (Returns tt, printed ("Bot: " +:+ text) st)) /\
  (forall engine,
     tts (self st) = true ->
     tts_engine (self st) = Some engine ->
     match synthesis (world st) (calls st Synthesis) with
     | Returns _ =>
         speak text st
         = (Returns tt,
            called Synthesis (logged (Said text) (printed ("Bot: " +:+ text) st)))
     | Raises e =>
         is_Exception e = true ->
         speak text st
         = (Returns tt,
            printed ("Speech error: " +:+ str_exn e)
              (called Synthesis (logged (Said text) (printed ("Bot: " +:+ text) st))))
     end).
Proof.
  split.
  - intros Hoff. apply post_equation. unfold speak. post_run. reflexivity.
  - intros engine Hon Hengine.
    destruct (synthesis (world st) (calls st Synthesis)) as [[]|e] eqn:Hsyn.
    + apply post_equation. unfold speak. post_run. reflexivity.
    + intros Hexc. apply post_equation. unfold speak. post_run. reflexivity.
Qed.

(** ** [listen] *)

(** X8.  In the Plain file a capture that goes through returns the
    recognized text with the surrounding blanks removed, after one
    recording of at most 10 seconds that waits 3 seconds for speech. *)
Theorem plain_listen_hears (st : State) (mic : Microphone) (rec : Recognizer)
    (text : string) :
  voice_input (self st) = true ->
  microphone (self st) = Some mic ->
  recognizer (self st) = Some rec ->
  microphone_enter (world st) (calls st EnterMicrophone) = Returns tt ->
  recording (world st) (calls st Recording) = Returns tt ->
  recognition (world st) (calls st Recognition) = Returns text ->
  listen Plain st =
  (Returns (Some (Py.strip text)),
   printed ("You said: " +:+ text)
     (called Recognition
        (printed "Converting speech to text..."
           (called Recording
              (logged (Listened 3 10)
                 (called EnterMicrophone
                    (printed (LF +:+ "Listening... (speak now or press Ctrl+C for text input)")
                       st))))))).
Proof.
  intros Hv Hmic Hrec Henter Hrecord Hrecog.
  apply post_equation. unfold listen. post_run. reflexivity.
Qed.

Definition hears (text : string) : State :=
  session Plain (with_recognition (fun _ => Returns text) quiet_world).

Lemma plain_listen_hears_witness :
  (listen Plain (hears "  what is the capital of France ")).1
  = Returns (Some "what is the capital of France").
Proof.
  now rewrite (plain_listen_hears (hears "  what is the capital of France ")
                 (SrMicrophone None) SrRecognizer "  what is the capital of France "
                 eq_refl eq_refl eq_refl eq_refl eq_refl eq_refl).
Defined.

(** X9.  In the Conda file a source that fails is passed over: when the
    first source times out and the second one records, the text recognized
    from the second is returned and the failure of the first is printed. *)
Theorem conda_listen_advances (st : State) (rec : Recognizer) (e : exn) (text : string) :
  voice_input (self st) = true ->
  recognizer (self st) = Some rec ->
  (forall k, k < 4 -> microphone_ctor (world st) (k + calls st NewMicrophone) = Returns tt) ->
  (forall k, k < 2 -> microphone_enter (world st) (k + calls st EnterMicrophone) = Returns tt) ->
  (forall k, k < 2 -> ambient_noise (world st) (k + calls st AmbientNoise) = Returns tt) ->
  recording (world st) (calls st Recording) = Raises e ->
  is_Exception e = true ->
  recording (world st) (S (calls st Recording)) = Returns tt ->
  recognition (world st) (calls st Recognition) = Returns text ->
  exists st',
    listen Conda st = (Returns (Some (Py.strip text)), st') /\
    Printed ("Microphone 0 failed: " +:+ Py.take_chars 50 (str_exn e) +:+ "...") ∈ trace st' /\
    calls st' Recording = 2 + calls st Recording.
Proof.
  intros Hv Hrec Hctor Henter Hnoise Hfirst Hexc Hsecond Hrecog.
  apply below_four in Hctor. simpl in Hctor. destruct Hctor as (Hc0 & Hc1 & Hc2 & Hc3).
  pose proof (Henter 0 ltac:(lia)) as He0. pose proof (Henter 1 ltac:(lia)) as He1.
  pose proof (Hnoise 0 ltac:(lia)) as Hn0. pose proof (Hnoise 1 ltac:(lia)) as Hn1.
  simpl in He0, He1, Hn0, Hn1. clear Henter Hnoise.
  assert (Hpost : post (listen Conda) st (fun r st' =>
            r = Returns (Some (Py.strip text))
            /\ Printed ("Microphone 0 failed: " +:+ Py.take_chars 50 (str_exn e) +:+ "...")
               ∈ trace st'
            /\ calls st' Recording = 2 + calls st Recording)).
  { unfold listen. post_run. split; [reflexivity|]. split; [in_trace | reflexivity]. }
  unfold post in Hpost. destruct (listen Conda st) as [r st']. simpl in Hpost.
  destruct Hpost as (-> & Hp & Hc). now exists st'.
Qed.

Definition second_source_works : State :=
  session Conda
    (with_recording (script [Raises (WaitTimeoutError "listening timed out")] (Returns tt))
       (with_recognition (fun _ => Returns "hello there ") quiet_world)).

Lemma conda_listen_advances_witness :
  exists st',
    listen Conda second_source_works = (Returns (Some "hello there"), st') /\
    Printed "Microphone 0 failed: listening timed out..." ∈ trace st' /\
    calls st' Recording = 2.
Proof.
  exact (conda_listen_advances second_source_works SrRecognizer
           (WaitTimeoutError "listening timed out") "hello there "
           eq_refl eq_refl (fun _ _ => eq_refl) (fun _ _ => eq_refl) (fun _ _ => eq_refl)
           eq_refl eq_refl eq_refl eq_refl).
Defined.

(** One pass over a source records at most once. *)
Lemma try_sources_recordings (sources : list Microphone) (i : nat) (st : State) :
  post (try_sources i sources) st (fun _ st' =>
    calls st Recording <= calls st' Recording <= length sources + calls st Recording).
Proof.
  revert i st. induction sources as [|mic rest IH]; intros i st.
  - cbn [try_sources]. post_run. simpl. lia.
  - cbn [try_sources length].
    post_run; try (simpl; lia);
      (eapply post_weaken; [apply IH|]; cbv beta; intros ? ?; state_simpl; simpl; lia).
Qed.

(** X10.  One call of [listen] records at most once in the Plain file and
    at most four times in the Conda file; with voice input off it records
    nothing, prints nothing, and returns [None]. *)
Theorem listen_recordings (fl : flavour) (st : State) :
  calls (listen fl st).2 Recording
  <= match fl with Plain => 1 | Conda => 4 end + calls st Recording
  /\ (voice_input (self st) = false -> listen fl st = (Returns None, st)).
Proof.
  split.
  - change (post (listen fl) st (fun _ st' =>
              calls st' Recording
              <= match fl with Plain => 1 | Conda => 4 end + calls st Recording)).
    unfold listen. destruct fl.
    + post_run; simpl; lia.
    + set (ts := try_sources). post_run; try (simpl; lia).
      subst ts. eapply post_weaken; [apply try_sources_recordings|].
      cbv beta. intros r st'. state_simpl. simpl. intros Hrest.
      destruct r as [[text|]|e0]; post_run; simpl; lia.
  - intros Hoff. apply post_equation. unfold listen. post_run. reflexivity.
Qed.

(** ** [get_input] *)

(** X11.  With voice input on, [get_input] of the Plain file returns what
    was heard, stripped, whenever that is not empty, and does not read the
    terminal; told not to prefer voice it is [get_text_input]. *)
Theorem get_input_prefers_speech (st : State) (mic : Microphone) (rec : Recognizer)
    (text : string) :
  voice_input (self st) = true ->
  microphone (self st) = Some mic ->
  recognizer (self st) = Some rec ->
  microphone_enter (world st) (calls st EnterMicrophone) = Returns tt ->
  recording (world st) (calls st Recording) = Returns tt ->
  recognition (world st) (calls st Recognition) = Returns text ->
  Py.truthy (Py.strip text) = true ->
  (get_input true st).1 = Returns (Py.strip text) /\
  calls (get_input true st).2 Stdin = calls st Stdin /\
  get_input false st = get_text_input st.
Proof.
  intros Hv Hmic Hrec Henter Hrecord Hrecog Htext.
  assert (Hpost : post (get_input true) st (fun r st' =>
            r = Returns (Py.strip text) /\ calls st' Stdin = calls st Stdin)).
  { unfold get_input, listen. post_run. split; reflexivity. }
  split; [exact (proj1 Hpost)|]. split; [exact (proj2 Hpost)|].
  reflexivity.
Qed.

Lemma get_input_prefers_speech_witness :
  (get_input true (hears "  what is the capital of France ")).1
  = Returns "what is the capital of France".
Proof.
  exact (proj1 (get_input_prefers_speech (hears "  what is the capital of France ")
                  (SrMicrophone None) SrRecognizer "  what is the capital of France "
                  eq_refl eq_refl eq_refl eq_refl eq_refl eq_refl eq_refl)).
Defined.

(** ** The loop *)

(** X12.  A line that is empty once stripped costs one notice: nothing is
    processed, the model is not called, and the loop asks again. *)
Theorem blank_line_asks_again (fl : flavour) (st : State) (s : string) :
  stdin (world st) (calls st Stdin) = Returns s ->
  Py.strip s = "" ->
  iteration fl st
  = (Returns Continue,
     printed "Please enter a question or type 'quit' to exit" (after_read st)) /\
  forall fuel,
    while_true (S fuel) (iteration fl) st
    = while_true fuel (iteration fl)
        (printed "Please enter a question or type 'quit' to exit" (after_read st)).
Proof.
  intros Hline Hblank.
  assert (Htruthy : Py.truthy (Py.strip s) = false) by now rewrite Hblank.
  assert (Hit : iteration fl st
                = (Returns Continue,
                   printed "Please enter a question or type 'quit' to exit" (after_read st))).
  { apply post_equation. unfold iteration, loop_body. post_run. reflexivity. }
  split; [exact Hit|].
  intros fuel. rewrite while_true_step, Hit. reflexivity.
Qed.

Definition types_blanks : State :=
  session Plain (with_stdin (fun _ => Returns "   ") quiet_world).

Lemma blank_line_asks_again_witness :
  (iteration Plain types_blanks).1 = Returns Continue /\
  while_true 7 (iteration Plain) types_blanks = None.
Proof.
  split.
  - now rewrite (proj1 (blank_line_asks_again Plain types_blanks "   " eq_refl eq_refl)).
  - rewrite (proj2 (blank_line_asks_again Plain types_blanks "   " eq_refl eq_refl)).
    vm_compute. reflexivity.
Defined.

(** A pass that cannot read a line reports it and leaves the world alone. *)
Lemma unreadable_line_continues (fl : flavour) (st : State) (e : exn) :
  stdin (world st) (calls st Stdin) = Raises e ->
  is_Exception e = true ->
  post (iteration fl) st (fun r st' => r = Returns Continue /\ world st' = world st).
Proof.
  intros Hline Hexc. unfold iteration, loop_body. post_run. split; reflexivity.
Qed.

(** X13.  On a terminal that is closed, so that every read fails with an
    [Exception] such as [EOFError], the loop never ends: each pass reports
    the error and asks again, whatever the fuel. *)
Theorem closed_stdin_spins (fl : flavour) (fuel : nat) (st : State) :
  (forall n, exists e, stdin (world st) n = Raises e /\ is_Exception e = true) ->
  while_true fuel (iteration fl) st = None.
Proof.
  revert st. induction fuel as [|fuel IH]; intros st Hclosed; [reflexivity|].
  rewrite while_true_step.
  destruct (Hclosed (calls st Stdin)) as (e & Hline & Hexc).
  pose proof (unreadable_line_continues fl st e Hline Hexc) as Hpost.
  unfold post in Hpost. destruct (iteration fl st) as [r st']. simpl in Hpost.
  destruct Hpost as [-> Hworld].
  apply IH. now rewrite Hworld.
Qed.

Lemma closed_stdin_spins_witness :
  while_true 1000 (iteration Conda) (session Conda quiet_world) = None.
Proof.
  exact (closed_stdin_spins Conda 1000 (session Conda quiet_world)
           (fun _ => ex_intro _ (EOFError "EOF when reading a line") (conj eq_refl eq_refl))).
Defined.

(** X14.  Ctrl-C at the prompt ends the session: the loop says its short
    farewell and returns, whatever fuel is left, without calling the
    model. *)
Theorem interrupt_at_prompt_ends_session (fl : flavour) (fuel : nat) (st : State) :
  stdin (world st) (calls st Stdin) = Raises KeyboardInterrupt ->
  is_interrupt (synthesis (world st) (calls st Synthesis)) = false ->
  exists st',
    while_true (S fuel) (iteration fl) st = Some (Returns tt, st') /\
    Printed "Bot: Goodbye!" ∈ trace st' /\
    Printed (LF +:+ "Goodbye!") ∈ trace st' /\
    calls st' ChatApi = calls st ChatApi.
Proof.
  intros Hline Hsyn.
  assert (Hpost : post (iteration fl) st (fun r st' =>
            r = Returns Break
            /\ Printed "Bot: Goodbye!" ∈ trace st'
            /\ Printed (LF +:+ "Goodbye!") ∈ trace st'
            /\ calls st' ChatApi = calls st ChatApi)).
  { unfold iteration, loop_body.
    destruct (synthesis (world st) (calls st Synthesis)) as [[]|e] eqn:Hs;
      [|destruct e; try discriminate Hsyn];
      post_run; (split; [reflexivity|]); (split; [in_trace|]);
      (split; [in_trace | reflexivity]). }
  rewrite while_true_step.
  unfold post in Hpost. destruct (iteration fl st) as [r st']. simpl in Hpost.
  destruct Hpost as (-> & H1 & H2 & H3). now exists st'.
Qed.

Definition interrupted_at_prompt : State :=
  session Plain (with_stdin (fun _ => Raises KeyboardInterrupt) quiet_world).

Lemma interrupt_at_prompt_ends_session_witness :
  exists st',
    while_true 1 (iteration Plain) interrupted_at_prompt = Some (Returns tt, st') /\
    Printed "Bot: Goodbye!" ∈ trace st' /\
    Printed (LF +:+ "Goodbye!") ∈ trace st' /\
    calls st' ChatApi = 0.
Proof.
  exact (interrupt_at_prompt_ends_session Plain 0 interrupted_at_prompt eq_refl eq_refl).
Defined.

(** ** [main] *)

(** X15.  With arguments on the command line [main] always comes to an
    end: its outcome does not depend on the fuel, and there is one even
    with none. *)
Theorem main_with_arguments_needs_no_fuel (fl : flavour) (fuel : nat)
    (argv : list string) (st : State) :
  1 < length argv ->
  main fl fuel argv st = main fl 0 argv st /\ is_Some (main fl 0 argv st).
Proof.
  intros Hargs. apply Nat.ltb_lt in Hargs.
  unfold main. rewrite Hargs. split; [reflexivity|].
  unfold then_, try_except_P, total.
  repeat case_match; eauto; discriminate.
Qed.

Lemma main_with_arguments_needs_no_fuel_witness :
  main Plain 5 joke_argv (boot quiet_world) = main Plain 0 joke_argv (boot quiet_world)
  /\ is_Some (main Plain 0 joke_argv (boot quiet_world)).
Proof.
  apply (main_with_arguments_needs_no_fuel Plain 5 joke_argv (boot quiet_world)).
  simpl. lia.
Defined.

(** X17.  A speech engine that cannot be started does not stop the program
    either: the failure is printed, speech output is switched off, and the
    constructor returns. *)
Theorem tts_failure_degrades (fl : flavour) (st : State) (e : exn) (key : string) :
  VOICE_INPUT_AVAILABLE (world st) = false ->
  TTS_AVAILABLE (world st) = true ->
  engine_ctor (world st) (calls st NewEngine) = Raises e ->
  is_Exception e = true ->
  GOOGLE_API_KEY (world st) = Some key ->
  Py.truthy key = true ->
  chat_model_ctor (world st) (calls st NewChatModel) = Returns tt ->
  exists st',
    CompleteVoiceChatbot fl st = (Returns tt, st') /\
    tts (self st') = false /\
    Printed (worded fl "TTS error: " "TTS initialization error: " +:+ str_exn e) ∈ trace st' /\
    Printed (worded fl "Running in text-only mode" "Text-only mode") ∈ trace st'.
Proof.
  intros Hvoice Htts Hengine Hexc Hkey Htruthy Hchat.
  assert (Hpost : post (CompleteVoiceChatbot fl) st (fun r st' =>
            r = Returns tt /\ tts (self st') = false
            /\ Printed (worded fl "TTS error: " "TTS initialization error: " +:+ str_exn e)
               ∈ trace st'
            /\ Printed (worded fl "Running in text-only mode" "Text-only mode") ∈ trace st')).
  { unfold CompleteVoiceChatbot, __init__.
    destruct fl; post_run;
      (split; [reflexivity|]); (split; [reflexivity|]); split; in_trace. }
  unfold post in Hpost. destruct (CompleteVoiceChatbot fl st) as [r st'].
  simpl in Hpost. destruct Hpost as (-> & Ht & Hp & Hm). now exists st'.
Qed.

Definition no_speaker_world : World :=
  {| VOICE_INPUT_AVAILABLE := false;
     TTS_AVAILABLE := true;
     GOOGLE_API_KEY := Some "google-key";
     SERPER_API_KEY := None;
     stdin := fun _ => Raises (EOFError "EOF when reading a line");
     recognizer_ctor := fun _ => Returns tt;
     microphone_ctor := fun _ => Returns tt;
     microphone_enter := fun _ => Returns tt;
     ambient_noise := fun _ => Returns tt;
     recording := fun _ => Returns tt;
     recognition := fun _ => Raises (UnknownValueError "");
     engine_ctor := fun _ => Raises (OtherException "eSpeak not installed");
     chat_model_ctor := fun _ => Returns tt;
     search_api := fun _ => Returns (JObj ∅);
     chat_api := fun _ => Returns "ok";
     synthesis := fun _ => Returns tt;
     clock := fun _ => "November 03, 2026" |}.

Lemma tts_failure_degrades_witness :
  exists st',
    CompleteVoiceChatbot Conda (boot no_speaker_world) = (Returns tt, st') /\
    tts (self st') = false /\
    Printed "TTS initialization error: eSpeak not installed" ∈ trace st' /\
    Printed "Text-only mode" ∈ trace st'.
Proof.
  exact (tts_failure_degrades Conda (boot no_speaker_world)
           (OtherException "eSpeak not installed") "google-key"
           eq_refl eq_refl eq_refl eq_refl eq_refl eq_refl eq_refl).
Defined.

(** The line of the status report for the two capability flags. *)
Definition status_line (fl : flavour) (v t : bool) : string :=
  match v, t with
  | false, false => worded fl "Running in text-only mode" "Text-only mode"
  | false, true => "Text input + speech output mode"
  | true, false => "Voice input + text output mode"
  | true, true => worded fl "Full voice interaction mode" "Full voice interaction mode enabled!"
  end.

(** The four mode lines a status report can print, and the mode lines a
    trace holds. *)
Definition mode_lines (fl : flavour) : list string :=
  [ status_line fl false false; status_line fl false true;
    status_line fl true false; status_line fl true true ].

Definition is_mode_line (fl : flavour) (ev : event) : bool :=
  match ev with
  | Printed line => existsb (String.eqb line) (mode_lines fl)
  | _ => false
  end.

Definition modes_reported (fl : flavour) (tr : list event) : list event :=
  List.filter (is_mode_line fl) tr.

Lemma modes_reported_cons (fl : flavour) (ev : event) (tr : list event) :
  modes_reported fl (ev :: tr)
  = if is_mode_line fl ev then ev :: modes_reported fl tr else modes_reported fl tr.
Proof. reflexivity. Qed.

Ltac modes_simpl :=
  cbn [self world calls trace logged called printed];
  repeat (rewrite modes_reported_cons;
          match goal with
          | |- context [is_mode_line ?fl ?ev] =>
              let v := eval vm_compute in (is_mode_line fl ev) in
              change (is_mode_line fl ev) with v; cbv iota
          end).

(** X18.  The status report is truthful: when the constructor returns it
    has printed exactly one mode line, the one for the flags the object
    ends up with, whatever failed on the way. *)
Theorem status_report_matches (fl : flavour) (st st' : State) :
  CompleteVoiceChatbot fl st = (Returns tt, st') ->
  modes_reported fl (trace st')
  = Printed (status_line fl (voice_input (self st')) (tts (self st')))
    :: modes_reported fl (trace st).
Proof.
  intros Hrun.
  assert (Hpost : post (CompleteVoiceChatbot fl) st (fun r st1 =>
            r = Returns tt ->
            modes_reported fl (trace st1)
            = Printed (status_line fl (voice_input (self st1)) (tts (self st1)))
              :: modes_reported fl (trace st))).
  { unfold CompleteVoiceChatbot, __init__.
    destruct fl; post_run; intros Hret; try discriminate Hret;
      modes_simpl; reflexivity. }
  unfold post in Hpost. rewrite Hrun in Hpost. exact (Hpost eq_refl).
Qed.

Lemma status_report_matches_witness :
  modes_reported Plain (trace (CompleteVoiceChatbot Plain (boot no_microphone_world)).2)
  = [Printed "Running in text-only mode"].
Proof.
  refine (status_report_matches Plain (boot no_microphone_world)
            (CompleteVoiceChatbot Plain (boot no_microphone_world)).2 _).
  apply pair_of_fst. vm_compute. reflexivity.
Defined.

(** ** [get_response] *)

(** X19.  A question without a search marker stays between the user and
    the model: no search is requested, the model is sent the prompt without
    a [Current information] part, and its content (or the apology for its
    failure) is what comes back. *)
Theorem no_marker_no_search (question : string) (c : ChatModel) (st : State) :
  needs_search question = false ->
  chatbot (self st) = Some c ->
  is_interrupt (chat_api (world st) (calls st ChatApi)) = false ->
  get_response question st
  = (match chat_api (world st) (calls st ChatApi) with
     | Returns content => Returns content
     | Raises e => Returns ("Sorry, I had an error: " +:+ str_exn e)
     end,
     called ChatApi
       (logged (Invoked (messages_of question None (clock (world st) (calls st Clock))))
          (called Clock st))) /\
  calls (get_response question st).2 SearchApi = calls st SearchApi /\
  prompt_of question None
  = "Question: " +:+ question +:+ LF +:+ LF
    +:+ "Provide a conversational response (50-80 words) suitable for voice interaction.".
Proof.
  intros Hneed Hbot Hchat.
  assert (Hrun : get_response question st
                 = (match chat_api (world st) (calls st ChatApi) with
                    | Returns content => Returns content
                    | Raises e => Returns ("Sorry, I had an error: " +:+ str_exn e)
                    end,
                    called ChatApi
                      (logged (Invoked (messages_of question None
                                          (clock (world st) (calls st Clock))))
                         (called Clock st)))).
  { destruct (chat_api (world st) (calls st ChatApi)) as [content|e] eqn:Hreply;
      [|destruct e; try discriminate Hchat];
      apply post_equation; unfold get_response; post_run; reflexivity. }
  split; [exact Hrun|]. split; [|reflexivity].
  rewrite Hrun. reflexivity.
Qed.

Lemma no_marker_no_search_witness :
  (get_response "tell me a joke" (session Plain quiet_world)).1 = Returns "ok" /\
  calls (get_response "tell me a joke" (session Plain quiet_world)).2 SearchApi = 0.
Proof.
  destruct (no_marker_no_search "tell me a joke"
              {| model := "gemini-1.5-flash"; temperature := 3 # 10;
                 google_api_key := "google-key" |}
              (session Plain quiet_world) eq_refl eq_refl eq_refl) as (Hrun & Hcalls & _).
  split; [now rewrite Hrun | exact Hcalls].
Defined.

(** X20.  What a search finds reaches the model: on a question with a
    marker, with the credential configured and a response of the documented
    shape, the model is sent the messages built from the question and the
    fragments found, and when these are not empty the prompt carries them
    as [Current information]. *)
Theorem search_result_reaches_model (question key : string) (data : json)
    (c : ChatModel) (st : State) :
  needs_search question = true ->
  SERPER_API_KEY (world st) = Some key ->
  Py.truthy key = true ->
  search_api (world st) (calls st SearchApi) = Returns data ->
  serper_response data = true ->
  chatbot (self st) = Some c ->
  Invoked (messages_of question (snippet_bundle data) (clock (world st) (calls st Clock)))
  ∈ trace (get_response question st).2 /\
  Posted "https://google.serper.dev/search" key question 3 10
  ∈ trace (get_response question st).2 /\
  forall info,
    snippet_bundle data = Some info ->
    Py.truthy info = true ->
    prompt_of question (snippet_bundle data)
    = "Question: " +:+ question +:+ LF +:+ LF
      +:+ "Current information: " +:+ info +:+ LF +:+ LF
      +:+ "Provide a conversational response (50-80 words) suitable for voice interaction.".
Proof.
  intros Hneed Hkey Htruthy Hreply Hshape Hbot.
  assert (Hpost : post (get_response question) st (fun _ st' =>
            Invoked (messages_of question (snippet_bundle data)
                       (clock (world st) (calls st Clock))) ∈ trace st'
            /\ Posted "https://google.serper.dev/search" key question 3 10 ∈ trace st')).
  { unfold get_response. post_run.
    eapply post_known;
      [apply (search_web_run question key data); state_simpl; assumption|].
    post_run; split; in_trace. }
  split; [exact (proj1 Hpost)|]. split; [exact (proj2 Hpost)|].
  intros info Hinfo Hfull. rewrite Hinfo. unfold prompt_of. now rewrite Hfull.
Qed.

Definition asks_the_news : State :=
  session Plain (with_search (fun _ => Returns mocked_response) quiet_world).

Lemma search_result_reaches_model_witness :
  Invoked (messages_of "latest news" (Some "A B") "November 03, 2026")
  ∈ trace (get_response "latest news" asks_the_news).2.
Proof.
  exact (proj1 (search_result_reaches_model "latest news" "serper-key" mocked_response
                  {| model := "gemini-1.5-flash"; temperature := 3 # 10;
                     google_api_key := "google-key" |}
                  asks_the_news eq_refl eq_refl eq_refl eq_refl eq_refl eq_refl)).
Defined.

(** With the model answering and the search not interrupted, the response
    is the model's content. *)
Lemma response_of_content (question content : string) (c : ChatModel)
    (key : option string) (search : result json) :
  is_interrupt search = false ->
  response_of question (Some c) key search (Returns content) = Returns content.
Proof.
  intros Hsearch. unfold response_of.
  destruct (needs_search question); [|reflexivity].
  destruct (web_info_of_calm key search Hsearch) as [info ->]. reflexivity.
Qed.

(** ** Rendering the response *)

(** X21.  A synthesizer that fails does not cost the answer: in one-shot
    mode the response is still printed and returned, in the loop the turn
    still ends normally, and both report the failure in one line. *)
Theorem speech_failure_keeps_answer (command content : string) (c : ChatModel)
    (engine : Engine) (e : exn) (st : State) :
  chatbot (self st) = Some c ->
  tts (self st) = true ->
  tts_engine (self st) = Some engine ->
  is_interrupt (search_api (world st) (calls st SearchApi)) = false ->
  chat_api (world st) (calls st ChatApi) = Returns content ->
  synthesis (world st) (calls st Synthesis) = Raises e ->
  is_Exception e = true ->
  (exists st',
     run_single_command command st = (Returns content, st') /\
     Printed (LF +:+ "Bot: " +:+ content) ∈ trace st' /\
     Printed ("Speech output failed: " +:+ str_exn e) ∈ trace st') /\
  (exists st',
     process_question command st = (Returns Continue, st') /\
     Printed (LF +:+ "Bot: " +:+ content) ∈ trace st' /\
     Printed ("Speech output failed: " +:+ str_exn e) ∈ trace st').
Proof.
  intros Hbot Htts Hengine Hsearch Hchat Hsyn Hexc.
  assert (Hone : post (run_single_command command) st (fun r st' =>
            r = Returns content
            /\ Printed (LF +:+ "Bot: " +:+ content) ∈ trace st'
            /\ Printed ("Speech output failed: " +:+ str_exn e) ∈ trace st')).
  { unfold run_single_command. post_run.
    eapply post_weaken; [apply get_response_post|].
    intros r st' (Hr & Hself & Hworld & Hcalls).
    pose proof (Hcalls Synthesis ltac:(discriminate) ltac:(discriminate)
                  ltac:(discriminate)) as Hsame.
    clear Hcalls. cbn [self world calls logged] in *.
    rewrite Hbot, Hchat, response_of_content in Hr by exact Hsearch. subst r.
    post_run. repeat split; in_trace. }
  assert (Hturn : post (process_question command) st (fun r st' =>
            r = Returns Continue
            /\ Printed (LF +:+ "Bot: " +:+ content) ∈ trace st'
            /\ Printed ("Speech output failed: " +:+ str_exn e) ∈ trace st')).
  { unfold process_question. post_run.
    eapply post_weaken; [apply get_response_post|].
    intros r st' (Hr & Hself & Hworld & Hcalls).
    pose proof (Hcalls Synthesis ltac:(discriminate) ltac:(discriminate)
                  ltac:(discriminate)) as Hsame.
    clear Hcalls. cbn [self world calls logged] in *.
    rewrite Hbot, Hchat, response_of_content in Hr by exact Hsearch. subst r.
    post_run. repeat split; in_trace. }
  unfold post in Hone, Hturn.
  destruct (run_single_command command st) as [r1 st1].
  destruct (process_question command st) as [r2 st2].
  simpl in Hone, Hturn.
  destruct Hone as (-> & Hp1 & Hq1). destruct Hturn as (-> & Hp2 & Hq2).
  split; [now exists st1 | now exists st2].
Qed.

Definition mute : State :=
  session Plain
    {| VOICE_INPUT_AVAILABLE := true;
       TTS_AVAILABLE := true;
       GOOGLE_API_KEY := Some "google-key";
       SERPER_API_KEY := Some "serper-key";
       stdin := fun _ => Raises (EOFError "EOF when reading a line");
       recognizer_ctor := fun _ => Returns tt;
       microphone_ctor := fun _ => Returns tt;
       microphone_enter := fun _ => Returns tt;
       ambient_noise := fun _ => Returns tt;
       recording := fun _ => Returns tt;
       recognition := fun _ => Raises (UnknownValueError "");
       engine_ctor := fun _ => Returns tt;
       chat_model_ctor := fun _ => Returns tt;
       search_api := fun _ => Returns (JObj ∅);
       chat_api := fun _ => Returns "ok";
       synthesis := fun _ => Raises (OtherException "run loop already started");
       clock := fun _ => "November 03, 2026" |}.

Lemma speech_failure_keeps_answer_witness :
  exists st',
    run_single_command "tell me a joke" mute = (Returns "ok", st') /\
    Printed (LF +:+ "Bot: " +:+ "ok") ∈ trace st' /\
    Printed "Speech output failed: run loop already started" ∈ trace st'.
Proof.
  exact (proj1 (speech_failure_keeps_answer "tell me a joke" "ok"
                  {| model := "gemini-1.5-flash"; temperature := 3 # 10;
                     google_api_key := "google-key" |}
                  {| rate := 150; volume := 9 # 10 |}
                  (OtherException "run loop already started") mute
                  eq_refl eq_refl eq_refl eq_refl eq_refl eq_refl eq_refl)).
Defined.

(** ** [run_interactive] *)

(** Unless the synthesizer is interrupted, the banner and the greeting end
    normally; they read nothing and do not call the model. *)
Lemma greeting_post (fl : flavour) (st : State) :
  (forall k, is_interrupt (synthesis (world st) k) = false) ->
  post (greeting fl) st (fun r st' =>
    r = Returns tt /\ self st' = self st /\ world st' = world st
    /\ calls st' Stdin = calls st Stdin /\ calls st' ChatApi = calls st ChatApi
    /\ Printed "Bot: Hello! I'm your AI assistant. What would you like to know?"
       ∈ trace st').
Proof.
  intros Hcalm. pose proof (Hcalm (calls st Synthesis)) as H0.
  unfold greeting.
  destruct fl; post_run; try discriminate H0;
    repeat split; in_trace;
    match goal with |- Returns ?a = Returns tt => destruct a; reflexivity end.
Qed.

(** X22.  Quitting at the first prompt: the session greets, reads that one
    line, says goodbye and returns, whatever fuel is left; the model has not
    been called. *)
Theorem quit_at_first_prompt (fl : flavour) (fuel : nat) (st : State) (s : string) :
  stdin (world st) (calls st Stdin) = Returns s ->
  Py.lower (Py.strip s) ∈ exit_keywords ->
  (forall k, is_interrupt (synthesis (world st) k) = false) ->
  exists st',
    run_interactive fl (S fuel) st = Some (Returns tt, st') /\
    calls st' Stdin = S (calls st Stdin) /\
    calls st' ChatApi = calls st ChatApi /\
    Printed "Bot: Hello! I'm your AI assistant. What would you like to know?" ∈ trace st' /\
    Printed "Bot: Goodbye! Have a great day!" ∈ trace st'.
Proof.
  intros Hline Hexit Hcalm.
  unfold run_interactive, then_.
  pose proof (greeting_post fl st Hcalm) as Hg. unfold post in Hg.
  destruct (greeting fl st) as [r0 st0]. simpl in Hg.
  destruct Hg as (-> & Hself & Hworld & Hstdin & Hchat & Hhello).
  rewrite while_true_step.
  assert (Hpass : post (iteration fl) st0 (fun r st' =>
            r = Returns Break
            /\ calls st' Stdin = S (calls st0 Stdin)
            /\ calls st' ChatApi = calls st0 ChatApi
            /\ Printed "Bot: Hello! I'm your AI assistant. What would you like to know?"
               ∈ trace st'
            /\ Printed "Bot: Goodbye! Have a great day!" ∈ trace st')).
  { pose proof (Hcalm (calls st0 Synthesis)) as H0.
    pose proof (exit_keyword_truthy _ Hexit) as Htruthy.
    assert (Hb : bool_decide (Py.lower (Py.strip s) ∈ exit_keywords) = true)
      by now apply bool_decide_eq_true_2.
    unfold iteration, loop_body.
    post_run; try discriminate H0;
      repeat split; in_trace; try assumption. }
  unfold post in Hpass. destruct (iteration fl st0) as [r st']. simpl in Hpass.
  destruct Hpass as (-> & Hstdin' & Hchat' & Hhello' & Hbye).
  exists st'. repeat split; try assumption; congruence.
Qed.

Definition quits_at_once : State :=
  session Plain (with_stdin (fun _ => Returns "quit") quiet_world).

Lemma quit_at_first_prompt_witness :
  exists st',
    run_interactive Plain 1 quits_at_once = Some (Returns tt, st') /\
    calls st' Stdin = 1 /\
    calls st' ChatApi = 0 /\
    Printed "Bot: Hello! I'm your AI assistant. What would you like to know?" ∈ trace st' /\
    Printed "Bot: Goodbye! Have a great day!" ∈ trace st'.
Proof.
  exact (quit_at_first_prompt Plain 0 quits_at_once "quit" eq_refl
           (is_exit_keyword (Py.lower (Py.strip "quit")) eq_refl)
           (fun _ => eq_refl)).
Defined.
